(** * ssh-paste-kitten: session classification and upload planning

    A shallow embedding of [smart_paste.py] (manual paste kitten) and
    [ssh_drop_upload.py] (drag-and-drop watcher).

    Conventions of the embedding.
    - A Python [str] is a Rocq [string] holding the UTF-8 bytes of the
      text.  Every test the two files make on strings looks for ASCII
      characters or ASCII words, so prefix tests, membership tests and
      slices read the same on the bytes as on the code points.
    - A Python [dict] with a fixed set of keys is a record.
    - [window.paste_text], the original [Window.on_drop] and the read
      of [window.child.foreground_processes] are events of a trace.
    - [time.time_ns()] is an oracle: the n-th call of a run returns
      [time_ns w n].
    - Library functions ([hashlib.md5], [urllib.parse], [shlex.quote],
      [posixpath]) are modelled after CPython 3.11. *)

From Stdlib Require Import ZArith List String Ascii Bool Lia.
From Stdlib Require Import Numbers.DecimalString.
Import ListNotations.

Open Scope list_scope.
Open Scope string_scope.

(** ** Python string primitives *)

Module Py.

(** The outcome of an expression that may raise. *)
Inductive result (A : Type) : Type :=
| Ok (a : A)
| Raise.
Arguments Ok {A} a.
Arguments Raise {A}.

Definition ch (n : nat) : ascii := ascii_of_nat n.

Definition str1 (c : ascii) : string := String c EmptyString.

(** [s.startswith(p)] and [s.endswith(p)]. *)
Definition startswith (s p : string) : bool := String.prefix p s.

Fixpoint endswith_char (s : string) (c : ascii) : bool :=
  match s with
  | EmptyString => false
  | String a EmptyString => Ascii.eqb a c
  | String _ r => endswith_char r c
  end.

(** [c in s] for a one-character [c]. *)
Fixpoint has_char (c : ascii) (s : string) : bool :=
  match s with
  | EmptyString => false
  | String a r => Ascii.eqb a c || has_char c r
  end.

(** [x in (w1, w2, ...)]. *)
Definition in_words (x : string) (ws : list string) : bool :=
  existsb (String.eqb x) ws.

(** Truthiness of a [str]. *)
Definition nonempty (s : string) : bool :=
  match s with EmptyString => false | _ => true end.

(** [s[n:]]. *)
Fixpoint drop (n : nat) (s : string) : string :=
  match n, s with
  | O, _ => s
  | S n', String _ r => drop n' r
  | S _, EmptyString => EmptyString
  end.

(** [s[:n]]. *)
Fixpoint take (n : nat) (s : string) : string :=
  match n, s with
  | S n', String a r => String a (take n' r)
  | _, _ => EmptyString
  end.

(** [s[:-1]]. *)
Fixpoint drop_last (s : string) : string :=
  match s with
  | EmptyString => EmptyString
  | String _ EmptyString => EmptyString
  | String a r => String a (drop_last r)
  end.

(** [sep.join(parts)]. *)
Fixpoint join (sep : string) (parts : list string) : string :=
  match parts with
  | [] => EmptyString
  | [p] => p
  | p :: rest => p ++ sep ++ join sep rest
  end.

(** [s.split(c)] for a one-character separator: never the empty list. *)
Fixpoint split_char (c : ascii) (s : string) : list string :=
  match s with
  | EmptyString => [EmptyString]
  | String a r =>
      if Ascii.eqb a c then EmptyString :: split_char c r
      else match split_char c r with
           | [] => [str1 a]
           | w :: ws => String a w :: ws
           end
  end.

(** [s.replace(c, by)] for a one-character [c]. *)
Fixpoint replace_char (c : ascii) (by_ : string) (s : string) : string :=
  match s with
  | EmptyString => EmptyString
  | String a r =>
      if Ascii.eqb a c then by_ ++ replace_char c by_ r
      else String a (replace_char c by_ r)
  end.

(** [s.lower()].  ASCII capitals go to small letters.  The only other
    code point whose lower case is ASCII is U+212A KELVIN SIGN (bytes
    E2 84 AA), which goes to [k]; every other non-ASCII code point has
    a non-ASCII lower case, so leaving its bytes alone changes no
    comparison of the result with an ASCII word, the only use the
    programs make of [lower]. *)
Definition lower_ascii (a : ascii) : ascii :=
  let n := nat_of_ascii a in
  if (65 <=? n)%nat && (n <=? 90)%nat then ascii_of_nat (n + 32) else a.

Fixpoint lower (s : string) : string :=
  match s with
  | EmptyString => EmptyString
  | String a r =>
      match r with
      | String b (String c r') =>
          if Ascii.eqb a (ch 226) && Ascii.eqb b (ch 132) && Ascii.eqb c (ch 170)
          then String "k" (lower r')
          else String (lower_ascii a) (lower r)
      | _ => String (lower_ascii a) (lower r)
      end
  end.

(** [os.path.basename(p)] of [posixpath]: what follows the last [/]. *)
Fixpoint basename (p : string) : string :=
  match p with
  | EmptyString => EmptyString
  | String a r =>
      if has_char "/" r then basename r
      else if Ascii.eqb a "/" then r
      else p
  end.

(** [str(n)] for an [int]. *)
Definition str_of_int (n : Z) : string :=
  NilEmpty.string_of_int (Z.to_int n).

End Py.

Import Py.

(** ** Session classification
    [is_ssh_window] of smart_paste.py, [check_ssh_session] of
    ssh_drop_upload.py. *)

(** One entry of [window.child.foreground_processes]: a dict read with
    [proc.get('cmdline')] and [proc.get('pid')]; [None] is a missing
    key or a [None] value. *)
Record proc : Type := mkProc {
  proc_pid : option Z;
  proc_cmdline : option (list string)
}.

(** The [info] dict.  The watcher's dict has no ['pid'] key; there the
    field stays [None]. *)
Record info : Type := mkInfo {
  is_ssh : bool;
  is_kitten_ssh : bool;
  host : option string;
  pid : option Z
}.

Definition info0 : info := mkInfo false false None None.

Definition set_is_ssh (i : info) (b : bool) : info :=
  mkInfo b (is_kitten_ssh i) (host i) (pid i).
Definition set_is_kitten_ssh (i : info) (b : bool) : info :=
  mkInfo (is_ssh i) b (host i) (pid i).
Definition set_host (i : info) (h : string) : info :=
  mkInfo (is_ssh i) (is_kitten_ssh i) (Some h) (pid i).
Definition set_pid (i : info) (p : option Z) : info :=
  mkInfo (is_ssh i) (is_kitten_ssh i) (host i) p.

(** A window: the read of [window.child.foreground_processes] either
    gives the list or raises. *)
Record window : Type := mkWindow {
  foreground_processes : result (list proc)
}.

(** [list(proc.get('cmdline') or [])]. *)
Definition cmdline_of (p : proc) : list string :=
  match proc_cmdline p with
  | Some l => l
  | None => []
  end.

(** [os.path.basename(cmdline[0]).lower()]. *)
Definition cmd_of (c0 : string) : string := lower (basename c0).

Definition dash (arg : string) : bool := startswith arg "-".

(** [len(cmdline) > 1 and cmdline[1] in ('ssh', 'run-shell')]. *)
Definition kitten_remote (cmdline : list string) : bool :=
  (1 <? List.length cmdline)%nat
  && in_words (nth 1 cmdline EmptyString) ["ssh"; "run-shell"].

(** The [for arg in cmdline[2:]] loop of smart_paste.py. *)
Fixpoint kitten_host_paste (args : list string) (i : info) : info :=
  match args with
  | [] => i
  | arg :: rest =>
      if negb (dash arg) && has_char "@" arg then set_host i arg
      else if negb (dash arg) && has_char "." arg then set_host i arg
      else kitten_host_paste rest i
  end.

(** The [for arg in cmdline[2:]] loop of ssh_drop_upload.py. *)
Fixpoint kitten_host_drop (args : list string) (i : info) : info :=
  match args with
  | [] => i
  | arg :: rest =>
      if negb (dash arg)
      then if has_char "@" arg || has_char "." arg then set_host i arg
           else kitten_host_drop rest i
      else kitten_host_drop rest i
  end.

(** The [for arg in reversed(cmdline[1:])] loop, on the reversed list. *)
Fixpoint ssh_host (rargs : list string) (i : info) : info :=
  match rargs with
  | [] => i
  | arg :: rest =>
      if negb (dash arg) then set_host i arg
      else ssh_host rest i
  end.

(** The [for proc in ...] loop of [is_ssh_window], threading [info]. *)
Fixpoint is_ssh_window_loop (procs : list proc) (i : info) : info :=
  match procs with
  | [] => i
  | p :: rest =>
      let cmdline := cmdline_of p in
      match cmdline with
      | [] => is_ssh_window_loop rest i
      | c0 :: _ =>
          let cmd := cmd_of c0 in
          let i := set_pid i (proc_pid p) in
          if String.eqb cmd "kitten" then
            if kitten_remote cmdline then
              let i := set_is_ssh i true in
              let i := set_is_kitten_ssh i true in
              kitten_host_paste (skipn 2 cmdline) i
            else is_ssh_window_loop rest i
          else if String.eqb cmd "ssh" then
            let i := set_is_ssh i true in
            ssh_host (rev (skipn 1 cmdline)) i
          else if in_words cmd ["mosh"; "mosh-client"] then
            set_is_ssh i true
          else is_ssh_window_loop rest i
      end
  end.

(** [is_ssh_window(window)]: an exception leaves [info] as it is. *)
Definition is_ssh_window (w : window) : info :=
  match foreground_processes w with
  | Ok procs => is_ssh_window_loop procs info0
  | Raise => info0
  end.

(** The loop of [check_ssh_session]: the same without the pid. *)
Fixpoint check_ssh_session_loop (procs : list proc) (i : info) : info :=
  match procs with
  | [] => i
  | p :: rest =>
      let cmdline := cmdline_of p in
      match cmdline with
      | [] => check_ssh_session_loop rest i
      | c0 :: _ =>
          let cmd := cmd_of c0 in
          if String.eqb cmd "kitten" then
            if kitten_remote cmdline then
              let i := set_is_ssh i true in
              let i := set_is_kitten_ssh i true in
              kitten_host_drop (skipn 2 cmdline) i
            else check_ssh_session_loop rest i
          else if String.eqb cmd "ssh" then
            let i := set_is_ssh i true in
            ssh_host (rev (skipn 1 cmdline)) i
          else if in_words cmd ["mosh"; "mosh-client"] then
            set_is_ssh i true
          else check_ssh_session_loop rest i
      end
  end.

Definition check_ssh_session (w : window) : info :=
  match foreground_processes w with
  | Ok procs => check_ssh_session_loop procs info0
  | Raise => info0
  end.

(** ** MD5
    [hashlib.md5(data).hexdigest()] after RFC 1321, on 32-bit words held
    in [Z] with the wrap-around written out. *)

Module MD5.

Local Open Scope Z_scope.

Definition mask32 : Z := 4294967295.

Definition w32 (x : Z) : Z := Z.land x mask32.

Definition rotl (x : Z) (c : Z) : Z :=
  w32 (Z.lor (Z.shiftl x c) (Z.shiftr x (32 - c))).

Definition not32 (x : Z) : Z := Z.lxor x mask32.

(** [floor(2^32 * abs(sin(i + 1)))]. *)
Definition K : list Z :=
  [3614090360; 3905402710; 606105819; 3250441966; 4118548399; 1200080426; 2821735955; 4249261313;
   1770035416; 2336552879; 4294925233; 2304563134; 1804603682; 4254626195; 2792965006; 1236535329;
   4129170786; 3225465664; 643717713; 3921069994; 3593408605; 38016083; 3634488961; 3889429448;
   568446438; 3275163606; 4107603335; 1163531501; 2850285829; 4243563512; 1735328473; 2368359562;
   4294588738; 2272392833; 1839030562; 4259657740; 2763975236; 1272893353; 4139469664; 3200236656;
   681279174; 3936430074; 3572445317; 76029189; 3654602809; 3873151461; 530742520; 3299628645;
   4096336452; 1126891415; 2878612391; 4237533241; 1700485571; 2399980690; 4293915773; 2240044497;
   1873313359; 4264355552; 2734768916; 1309151649; 4149444226; 3174756917; 718787259; 3951481745].

(** Per-round shift amounts. *)
Definition R : list Z :=
  [7; 12; 17; 22; 7; 12; 17; 22; 7; 12; 17; 22; 7; 12; 17; 22;
   5; 9; 14; 20; 5; 9; 14; 20; 5; 9; 14; 20; 5; 9; 14; 20;
   4; 11; 16; 23; 4; 11; 16; 23; 4; 11; 16; 23; 4; 11; 16; 23;
   6; 10; 15; 21; 6; 10; 15; 21; 6; 10; 15; 21; 6; 10; 15; 21].

Record state : Type := mkState { sA : Z; sB : Z; sC : Z; sD : Z }.

Definition init : state :=
  mkState 1732584193 4023233417 2562383102 271733878.

(** Step [i] of the main loop on the block words [M]. *)
Definition step (M : list Z) (st : state) (i : nat) : state :=
  let '(mkState a b c d) := st in
  let zi := Z.of_nat i in
  let '(f, g) :=
    if (i <? 16)%nat then
      (Z.lor (Z.land b c) (Z.land (not32 b) d), zi)
    else if (i <? 32)%nat then
      (Z.lor (Z.land d b) (Z.land (not32 d) c), (5 * zi + 1) mod 16)
    else if (i <? 48)%nat then
      (Z.lxor (Z.lxor b c) d, (3 * zi + 5) mod 16)
    else
      (Z.lxor c (Z.lor b (not32 d)), (7 * zi) mod 16) in
  let f := w32 (f + a + nth i K 0 + nth (Z.to_nat g) M 0) in
  mkState d (w32 (b + rotl f (nth i R 0))) b c.

(** Four bytes, least significant first, to a word. *)
Definition word_of_bytes (bs : list Z) : Z :=
  nth 0 bs 0 + 256 * nth 1 bs 0 + 65536 * nth 2 bs 0 + 16777216 * nth 3 bs 0.

Fixpoint words_of_block (n : nat) (bs : list Z) : list Z :=
  match n with
  | O => []
  | S n' => word_of_bytes (firstn 4 bs) :: words_of_block n' (skipn 4 bs)
  end.

Definition process_block (st : state) (block : list Z) : state :=
  let M := words_of_block 16 block in
  let st' := fold_left (step M) (seq 0 64) st in
  mkState (w32 (sA st + sA st')) (w32 (sB st + sB st'))
          (w32 (sC st + sC st')) (w32 (sD st + sD st')).

Fixpoint process (n : nat) (bs : list Z) (st : state) : state :=
  match n with
  | O => st
  | S n' => process n' (skipn 64 bs) (process_block st (firstn 64 bs))
  end.

Fixpoint le_bytes (n : nat) (x : Z) : list Z :=
  match n with
  | O => []
  | S n' => x mod 256 :: le_bytes n' (x / 256)
  end.

(** The message, one [0x80] byte, zeros up to 56 modulo 64, and the bit
    length on 8 bytes. *)
Definition pad (msg : list Z) : list Z :=
  let len := Z.of_nat (List.length msg) in
  let zeros := Z.to_nat ((55 - len) mod 64) in
  msg ++ 128 :: repeat 0 zeros ++ le_bytes 8 ((8 * len) mod 2 ^ 64).

Definition digest_state (msg : list Z) : state :=
  let padded := pad msg in
  process (List.length padded / 64) padded init.

Definition hex_digit (n : Z) : ascii :=
  match Z.to_nat (n mod 16) with
  | 0%nat => "0" | 1%nat => "1" | 2%nat => "2" | 3%nat => "3"
  | 4%nat => "4" | 5%nat => "5" | 6%nat => "6" | 7%nat => "7"
  | 8%nat => "8" | 9%nat => "9" | 10%nat => "a" | 11%nat => "b"
  | 12%nat => "c" | 13%nat => "d" | 14%nat => "e" | _ => "f"
  end%char.

Definition hex_byte (b : Z) : string :=
  String (hex_digit (b / 16)) (String (hex_digit b) EmptyString).

Definition hex_word (w : Z) : string :=
  hex_byte (w mod 256) ++ hex_byte ((w / 256) mod 256)
  ++ hex_byte ((w / 65536) mod 256) ++ hex_byte ((w / 16777216) mod 256).

Definition bytes_of_string (s : string) : list Z :=
  map (fun a => Z.of_nat (nat_of_ascii a)) (list_ascii_of_string s).

(** [hashlib.md5(s.encode()).hexdigest()]. *)
Definition hexdigest (s : string) : string :=
  let st := digest_state (bytes_of_string s) in
  hex_word (sA st) ++ hex_word (sB st) ++ hex_word (sC st) ++ hex_word (sD st).

End MD5.

(** ** Library functions on text *)

Module Lib.

Definition code (a : ascii) : nat := nat_of_ascii a.

Definition between (lo hi n : nat) : bool := (lo <=? n)%nat && (n <=? hi)%nat.

(** U+FFFD REPLACEMENT CHARACTER in UTF-8. *)
Definition fffd (rest : string) : string :=
  String (ch 239) (String (ch 191) (String (ch 189) rest)).

Definition cont (a : ascii) : bool := between 128 191 (code a).

(** Range of the second byte after the lead byte [b0] of a sequence of
    three or four bytes. *)
Definition second_ok (b0 b1 : nat) : bool :=
  if (b0 =? 224)%nat then between 160 191 b1
  else if (b0 =? 237)%nat then between 128 159 b1
  else if (b0 =? 240)%nat then between 144 191 b1
  else if (b0 =? 244)%nat then between 128 143 b1
  else between 128 191 b1.

(** [bs.decode('utf-8', 'replace')], read back as UTF-8: well-formed
    sequences are kept and every maximal ill-formed part becomes
    U+FFFD. *)
Fixpoint utf8_replace (s : string) : string :=
  match s with
  | EmptyString => EmptyString
  | String a0 r =>
      let b0 := code a0 in
      if (b0 <? 128)%nat then String a0 (utf8_replace r)
      else if between 194 223 b0 then
        match r with
        | EmptyString => fffd EmptyString
        | String a1 r1 =>
            if cont a1 then String a0 (String a1 (utf8_replace r1))
            else fffd (utf8_replace r)
        end
      else if between 224 239 b0 then
        match r with
        | EmptyString => fffd EmptyString
        | String a1 r1 =>
            if second_ok b0 (code a1) then
              match r1 with
              | EmptyString => fffd EmptyString
              | String a2 r2 =>
                  if cont a2
                  then String a0 (String a1 (String a2 (utf8_replace r2)))
                  else fffd (utf8_replace r1)
              end
            else fffd (utf8_replace r)
        end
      else if between 240 244 b0 then
        match r with
        | EmptyString => fffd EmptyString
        | String a1 r1 =>
            if second_ok b0 (code a1) then
              match r1 with
              | EmptyString => fffd EmptyString
              | String a2 r2 =>
                  if cont a2 then
                    match r2 with
                    | EmptyString => fffd EmptyString
                    | String a3 r3 =>
                        if cont a3
                        then String a0 (String a1 (String a2
                               (String a3 (utf8_replace r3))))
                        else fffd (utf8_replace r2)
                    end
                  else fffd (utf8_replace r1)
              end
            else fffd (utf8_replace r)
        end
      else fffd (utf8_replace r)
  end.

(** Value of a hexadecimal digit, of either case. *)
Definition hex_val (a : ascii) : option nat :=
  let n := code a in
  if between 48 57 n then Some (n - 48)
  else if between 65 70 n then Some (n - 55)
  else if between 97 102 n then Some (n - 87)
  else None.

(** [unquote_to_bytes]: [%XY] with two hexadecimal digits becomes one
    byte, any other [%] stays. *)
Fixpoint unquote_to_bytes (s : string) : string :=
  match s with
  | EmptyString => EmptyString
  | String a r =>
      if Ascii.eqb a "%" then
        match r with
        | String x (String y r') =>
            match hex_val x, hex_val y with
            | Some hx, Some hy =>
                String (ascii_of_nat (16 * hx + hy)) (unquote_to_bytes r')
            | _, _ => String a (unquote_to_bytes r)
            end
        | _ => String a (unquote_to_bytes r)
        end
      else String a (unquote_to_bytes r)
  end.

Definition is_ascii (a : ascii) : bool := (code a <? 128)%nat.

(** The runs of [_asciire.split]: maximal runs of ASCII characters and
    of other characters; [(true, run)] is an ASCII run. *)
Fixpoint ascii_runs (s : string) : list (bool * string) :=
  match s with
  | EmptyString => []
  | String a r =>
      match ascii_runs r with
      | (k, w) :: rest =>
          if Bool.eqb k (is_ascii a) then (k, String a w) :: rest
          else (is_ascii a, str1 a) :: (k, w) :: rest
      | [] => [(is_ascii a, str1 a)]
      end
  end.

(** [urllib.parse.unquote(s)]: each ASCII run is percent-decoded and
    the bytes are decoded as UTF-8 with replacement. *)
Definition unquote (s : string) : string :=
  if negb (has_char "%" s) then s
  else
    String.concat EmptyString
      (map (fun kr : bool * string =>
              if fst kr then utf8_replace (unquote_to_bytes (snd kr))
              else snd kr)
           (ascii_runs s)).

(** Number of bytes of the white-space code point at the head of [s],
    or 0: the code points for which [str.isspace] holds. *)
Definition space_width (s : string) : nat :=
  match s with
  | EmptyString => 0
  | String a0 r =>
      let b0 := code a0 in
      if between 9 13 b0 || between 28 32 b0 then 1
      else
        match r with
        | EmptyString => 0
        | String a1 r1 =>
            let b1 := code a1 in
            if (b0 =? 194)%nat && ((b1 =? 133)%nat || (b1 =? 160)%nat) then 2
            else
              match r1 with
              | EmptyString => 0
              | String a2 _ =>
                  let b2 := code a2 in
                  if (b0 =? 225)%nat && (b1 =? 154)%nat && (b2 =? 128)%nat
                  then 3
                  else if (b0 =? 226)%nat && (b1 =? 128)%nat
                          && (between 128 138 b2 || between 168 169 b2
                              || (b2 =? 175)%nat)
                  then 3
                  else if (b0 =? 226)%nat && (b1 =? 129)%nat && (b2 =? 159)%nat
                  then 3
                  else if (b0 =? 227)%nat && (b1 =? 128)%nat && (b2 =? 128)%nat
                  then 3
                  else 0
              end
        end
  end.

Fixpoint lstrip_fuel (fuel : nat) (s : string) : string :=
  match fuel with
  | O => s
  | S fuel' =>
      match space_width s with
      | O => s
      | k => lstrip_fuel fuel' (drop k s)
      end
  end.

(** [s.lstrip()]: each step removes at least one byte, so the length of
    [s] is fuel enough. *)
Definition lstrip (s : string) : string := lstrip_fuel (String.length s) s.

(** [s.rstrip()]: cut at the first place from which all is white
    space. *)
Fixpoint rstrip (s : string) : string :=
  match s with
  | EmptyString => EmptyString
  | String a r =>
      if negb (nonempty (lstrip s)) then EmptyString
      else String a (rstrip r)
  end.

(** [s.strip()]. *)
Definition strip (s : string) : string := rstrip (lstrip s).

(** The characters [shlex.quote] leaves bare: [\w@%+=:,./-] under
    [re.ASCII]. *)
Definition shell_safe (a : ascii) : bool :=
  let n := code a in
  between 48 57 n || between 65 90 n || between 97 122 n
  || in_words (str1 a) ["_"; "@"; "%"; "+"; "="; ":"; ","; "."; "/"; "-"].

Fixpoint all_chars (f : ascii -> bool) (s : string) : bool :=
  match s with
  | EmptyString => true
  | String a r => f a && all_chars f r
  end.

(** The replacement text of an embedded single quote. *)
Definition quote_escape : string :=
  String "'" (String (ch 34) (String "'" (String (ch 34) (String "'" EmptyString)))).

(** [s.replace] of every single quote by [quote_escape]. *)
Definition escape_quotes (s : string) : string :=
  replace_char "'" quote_escape s.

(** [shlex.quote(s)]. *)
Definition shlex_quote (s : string) : string :=
  if negb (nonempty s) then "''"
  else if all_chars shell_safe s then s
  else "'" ++ escape_quotes s ++ "'".

(** [posixpath.normpath]: the loop over the components, with
    [new_comps] held in reverse. *)
Fixpoint norm_comps (initial_slashes : nat) (comps : list string)
    (racc : list string) : list string :=
  match comps with
  | [] => rev racc
  | comp :: rest =>
      if in_words comp [""; "."] then norm_comps initial_slashes rest racc
      else if negb (String.eqb comp "..")
              || ((initial_slashes =? 0)%nat
                  && match racc with [] => true | _ => false end)
              || match racc with
                 | top :: _ => String.eqb top ".."
                 | [] => false
                 end
      then norm_comps initial_slashes rest (comp :: racc)
      else match racc with
           | _ :: racc' => norm_comps initial_slashes rest racc'
           | [] => norm_comps initial_slashes rest racc
           end
  end.

Definition normpath (path : string) : string :=
  if negb (nonempty path) then "."
  else
    let initial_slashes :=
      if startswith path "/" then
        if startswith path "//" && negb (startswith path "///") then 2 else 1
      else 0 in
    let comps := norm_comps initial_slashes (split_char "/" path) [] in
    let p := join "/" comps in
    let p : string := match initial_slashes with
                      | 0 => p
                      | 1 => "/" ++ p
                      | _ => "//" ++ p
                      end in
    if nonempty p then p else ".".

(** [posixpath.join(a, b)]. *)
Definition path_join (a b : string) : string :=
  if startswith b "/" then b
  else if negb (nonempty a) || endswith_char a "/" then a ++ b
  else a ++ "/" ++ b.

(** [os.path.abspath(path)] in the working directory [cwd]. *)
Definition abspath (cwd path : string) : string :=
  if negb (startswith path "/") then normpath (path_join cwd path)
  else normpath path.

End Lib.

Import Lib.

(** The parts of [urlparse(url)] the watcher reads. *)
Record parsed : Type := mkParsed {
  scheme : string;
  netloc : string;
  path : string
}.

Module Url.

Definition alpha (a : ascii) : bool :=
  between 65 90 (code a) || between 97 122 (code a).

(** [scheme_chars]: letters, digits and [+-.]. *)
Definition scheme_char (a : ascii) : bool :=
  alpha a || between 48 57 (code a) || in_words (str1 a) ["+"; "-"; "."].

(** [url.lstrip(_WHATWG_C0_CONTROL_OR_SPACE)]. *)
Fixpoint lstrip_c0 (s : string) : string :=
  match s with
  | EmptyString => EmptyString
  | String a r => if (code a <=? 32)%nat then lstrip_c0 r else s
  end.

(** Removal of tab, carriage return and line feed. *)
Fixpoint remove_unsafe (s : string) : string :=
  match s with
  | EmptyString => EmptyString
  | String a r =>
      if in_words (str1 a) [str1 (ch 9); str1 (ch 13); str1 (ch 10)]
      then remove_unsafe r
      else String a (remove_unsafe r)
  end.

(** [(s[:i], s[i+1:])] at the first [c], when there is one. *)
Fixpoint cut_at (c : ascii) (s : string) : option (string * string) :=
  match s with
  | EmptyString => None
  | String a r =>
      if Ascii.eqb a c then Some (EmptyString, r)
      else match cut_at c r with
           | Some (l, r') => Some (String a l, r')
           | None => None
           end
  end.

(** [_splitnetloc(url, 0)] on what follows [//]: the authority runs up
    to the first of [/], [?] and [#]. *)
Fixpoint splitnetloc (s : string) : string * string :=
  match s with
  | EmptyString => (EmptyString, EmptyString)
  | String a r =>
      if in_words (str1 a) ["/"; "?"; "#"] then (EmptyString, s)
      else let '(n, rest) := splitnetloc r in (String a n, rest)
  end.

(** [s.split(c, 1)[0]]. *)
Definition before (c : ascii) (s : string) : string :=
  match cut_at c s with
  | Some (l, _) => l
  | None => s
  end.

Section Parse.

(** Whether the library's address checks ([_check_bracketed_netloc],
    [_checknetloc]) raise [ValueError] on an authority; consulted only
    for an authority with both brackets or with non-ASCII text. *)
Variable netloc_rejected : string -> bool.

(** [urlparse(url)]: the parameters of the last segment are split off
    only for schemes that have them, and [file] has none. *)
Definition urlparse (url : string) : result parsed :=
  let url := remove_unsafe (lstrip_c0 url) in
  let '(sch, url) :=
    match cut_at ":" url with
    | Some (String a0 l, r) =>
        if is_ascii a0 && alpha a0 && all_chars scheme_char (String a0 l)
        then (lower (String a0 l), r)
        else (EmptyString, url)
    | _ => (EmptyString, url)
    end in
  let '(nl, url, bad) :=
    if startswith url "//" then
      let '(nl, rest) := splitnetloc (drop 2 url) in
      let lb := has_char "[" nl in
      let rb := has_char "]" nl in
      (nl, rest,
       (lb && negb rb) || (rb && negb lb) || (lb && rb && netloc_rejected nl))
    else (EmptyString, url, false) in
  if bad then Raise
  else
    let url := before "#" url in
    let url := before "?" url in
    if nonempty nl && negb (all_chars is_ascii nl) && netloc_rejected nl
    then Raise
    else Ok (mkParsed sch nl url).

End Parse.

End Url.

(** ** The world outside the two files *)

Record world : Type := mkWorld {
  (** [os.path.exists]. *)
  path_exists : string -> bool;
  (** [os.getcwd()]. *)
  getcwd : string;
  (** What [get_clipboard()] returns: the output of the first clipboard
      tool that answers, or the empty string. *)
  get_clipboard : string;
  (** The n-th [time.time_ns()] of a run. *)
  time_ns : nat -> Z;
  (** The address checks of [urlparse]. *)
  netloc_rejected : string -> bool
}.

(** The [drop] dict: MIME type to payload. *)
Definition drop_data : Type := list (string * string).

(** [drop.get(key, b'')]. *)
Fixpoint drop_get (d : drop_data) (key : string) : string :=
  match d with
  | [] => EmptyString
  | (k, v) :: rest => if String.eqb k key then v else drop_get rest key
  end.

(** What a handler does to the terminal. *)
Inductive event : Type :=
| PasteText (text : string)
| ForegroundProcessesRead
| OriginalOnDrop (d : drop_data).

Inductive completion : Type := Returned | Raised.

(** The parts of [boss] the paste handler reads. *)
Record boss : Type := mkBoss {
  window_id_map : Z -> option window;
  current_primary_selection_or_clipboard : option string
}.

Definition upload_dir : string := "/tmp/uploads".

(** [hashlib.md5(f"{fpath}{time.time_ns()}".encode()).hexdigest()[:8]]. *)
Definition uid_of (fpath : string) (t : Z) : string :=
  take 8 (MD5.hexdigest (fpath ++ str_of_int t)).

(** [f"{upload_dir}/{uid}_{fname}"]. *)
Definition rpath_of (uid fname : string) : string :=
  upload_dir ++ "/" ++ uid ++ "_" ++ fname.

(** ** smart_paste.py *)

Module SmartPaste.

Section WithWorld.

Variable w : world.

(** The body of the loop of [extract_file_paths] on one line. *)
Definition extract_line (line : string) (paths : list string) : list string :=
  let path := strip line in
  let path := if startswith path "file://" then unquote (drop 7 path) else path in
  let path :=
    if (startswith path (str1 (ch 34)) && endswith_char path (ch 34))
       || (startswith path "'" && endswith_char path "'")
    then drop_last (drop 1 path)
    else path in
  if nonempty path && path_exists w path
  then (paths ++ [abspath (getcwd w) path])%list
  else paths.

Definition extract_file_paths (text : string) : list string :=
  fold_left (fun paths line => extract_line line paths)
            (split_char (ch 10) (strip text)) [].

(** The [for fpath in files] loop of [handle_result]: [n] counts the
    clock reads so far; the result is [remote_paths] and
    [upload_cmds]. *)
Fixpoint upload_loop (files : list string) (n : nat)
    (remote_paths upload_cmds : list string) : list string * list string :=
  match files with
  | [] => (remote_paths, upload_cmds)
  | fpath :: rest =>
      let fname := basename fpath in
      let uid := uid_of fpath (time_ns w n) in
      let rpath := rpath_of uid fname in
      let remote_paths := (remote_paths ++ [rpath])%list in
      let local_escaped := escape_quotes fpath in
      let remote_escaped := escape_quotes rpath in
      let cmd :=
        "kitten transfer --direction=upload '" ++ local_escaped
        ++ "' '" ++ remote_escaped ++ "'" in
      let upload_cmds := (upload_cmds ++ [cmd])%list in
      upload_loop rest (S n) remote_paths upload_cmds
  end.

(** The text pasted in the [is_kitten_ssh] branch. *)
Definition full_cmd (files : list string) : string :=
  let '(remote_paths, upload_cmds) := upload_loop files 0 [] [] in
  let full := "mkdir -p " ++ upload_dir in
  let full := fold_left (fun acc cmd => acc ++ " && " ++ cmd) upload_cmds full in
  let paths_str := join " " (map (fun p => "'" ++ p ++ "'") remote_paths) in
  let full := full ++ " && echo 'Uploaded: " ++ paths_str ++ "'" in
  full ++ str1 (ch 10).

(** [ssh['host'] or 'host']. *)
Definition host_or (h : option string) (placeholder : string) : string :=
  match h with
  | Some x => if nonempty x then x else placeholder
  | None => placeholder
  end.

(** [files[0]] of a list known to be non-empty. *)
Definition first_file (files : list string) : string := hd EmptyString files.

(** [handle_result(args, answer, target_window_id, boss)]. *)
Definition handle_result (target_window_id : Z) (b : boss) : list event :=
  match window_id_map b target_window_id with
  | None => []
  | Some win =>
      let clipboard := get_clipboard w in
      let clipboard :=
        if negb (nonempty clipboard)
        then match current_primary_selection_or_clipboard b with
             | Some c => c
             | None => EmptyString
             end
        else clipboard in
      if negb (nonempty clipboard) then []
      else
        let files := extract_file_paths clipboard in
        match files with
        | [] => [PasteText clipboard]
        | _ :: _ =>
            let ssh := is_ssh_window win in
            ForegroundProcessesRead ::
            if negb (is_ssh ssh) then [PasteText clipboard]
            else if is_kitten_ssh ssh then [PasteText (full_cmd files)]
            else
              let paths_str := join " " (map (fun f => "'" ++ f ++ "'") files) in
              let hint :=
                "  # Local path(s) - upload with: scp " ++ first_file files
                ++ " " ++ host_or (host ssh) "host" ++ ":/tmp/" in
              [PasteText paths_str; PasteText (hint ++ str1 (ch 10))]
        end
  end.

End WithWorld.

End SmartPaste.

(** ** ssh_drop_upload.py *)

Module DropUpload.

(** The non-ASCII characters at the head of the echo text and of the
    hint, byte for byte as the file has them. *)
Definition echo_mark : string :=
  string_of_list_ascii
    (map ascii_of_nat [239; 163; 191; 195; 188; 195; 172; 195; 133]).

Definition hint_mark : string :=
  string_of_list_ascii
    (map ascii_of_nat
         [226; 128; 154; 194; 168; 195; 156; 195; 148; 226; 136; 143; 195; 168]).

(** [parse_uri_list(text)]. *)
Definition parse_uri_list (text : string) : list string :=
  fold_left
    (fun urls line =>
       let line := strip line in
       if nonempty line && negb (startswith line "#")
       then (urls ++ [line])%list
       else urls)
    (split_char (ch 10) (strip text)) [].

Section WithWorld.

Variable w : world.

(** [url_to_local_path(url)]: [Ok None] is the [None] return, [Raise]
    the [ValueError] of [urlparse]. *)
Definition url_to_local_path (url : string) : result (option string) :=
  if startswith url "file://" then
    match Url.urlparse (netloc_rejected w) url with
    | Raise => Raise
    | Ok parsed =>
        let path := unquote (path parsed) in
        if nonempty (netloc parsed) && negb (String.eqb (netloc parsed) "localhost")
        then Ok None
        else Ok (Some path)
    end
  else if startswith url "/" then Ok (Some url)
  else Ok None.

(** The [for url in urls] loop of [smart_on_drop]. *)
Fixpoint local_files_loop (urls : list string) (local_files : list string)
  : result (list string) :=
  match urls with
  | [] => Ok local_files
  | url :: rest =>
      match url_to_local_path url with
      | Raise => Raise
      | Ok None => local_files_loop rest local_files
      | Ok (Some path) =>
          if nonempty path && path_exists w path
          then local_files_loop rest (local_files ++ [path])%list
          else local_files_loop rest local_files
      end
  end.

(** The [for fpath in files] loop of [handle_ssh_upload]. *)
Fixpoint upload_loop (files : list string) (n : nat)
    (remote_paths upload_cmds : list string) : list string * list string :=
  match files with
  | [] => (remote_paths, upload_cmds)
  | fpath :: rest =>
      let fname := basename fpath in
      let uid := uid_of fpath (time_ns w n) in
      let rpath := rpath_of uid fname in
      let remote_paths := (remote_paths ++ [rpath])%list in
      let local_escaped := shlex_quote fpath in
      let remote_escaped := shlex_quote rpath in
      let cmd :=
        "kitten transfer --direction=upload " ++ local_escaped
        ++ " " ++ remote_escaped in
      let upload_cmds := (upload_cmds ++ [cmd])%list in
      upload_loop rest (S n) remote_paths upload_cmds
  end.

(** The text pasted in the [is_kitten_ssh] branch. *)
Definition full_cmd (files : list string) : string :=
  let '(remote_paths, upload_cmds) := upload_loop files 0 [] [] in
  let full := "mkdir -p " ++ upload_dir in
  let full := fold_left (fun acc cmd => acc ++ " && " ++ cmd) upload_cmds full in
  let paths_str := join " " (map shlex_quote remote_paths) in
  let full := full ++ " && echo '" ++ echo_mark ++ " Uploaded: " ++ paths_str ++ "'" in
  full ++ str1 (ch 10).

(** [ssh_info.get('host') or 'HOST']. *)
Definition host_or (h : option string) (placeholder : string) : string :=
  match h with
  | Some x => if nonempty x then x else placeholder
  | None => placeholder
  end.

(** [handle_ssh_upload(window, files, ssh_info)]: in the second branch
    [files[0]] raises on an empty list, after the first paste. *)
Definition handle_ssh_upload (files : list string) (ssh_info : info)
  : list event * completion :=
  if is_kitten_ssh ssh_info then ([PasteText (full_cmd files)], Returned)
  else
    let paths_str := join " " (map shlex_quote files) in
    let host := host_or (host ssh_info) "HOST" in
    match files with
    | [] => ([PasteText paths_str], Raised)
    | f0 :: _ =>
        ([PasteText paths_str;
          PasteText ("  # " ++ hint_mark ++ "  Local paths - use: scp "
                     ++ shlex_quote f0 ++ " " ++ host ++ ":" ++ upload_dir
                     ++ "/" ++ str1 (ch 10))],
         Returned)
    end.

(** [smart_on_drop(self, drop)]. *)
Definition smart_on_drop (self : window) (d : drop_data)
  : list event * completion :=
  let uri_list := drop_get d "text/uri-list" in
  if negb (nonempty uri_list) then ([OriginalOnDrop d], Returned)
  else
    let urls := parse_uri_list (utf8_replace uri_list) in
    match local_files_loop urls [] with
    | Raise => ([], Raised)
    | Ok [] => ([OriginalOnDrop d], Returned)
    | Ok local_files =>
        let ssh_info := check_ssh_session self in
        if negb (is_ssh ssh_info)
        then ([ForegroundProcessesRead; OriginalOnDrop d], Returned)
        else
          let '(evs, c) := handle_ssh_upload local_files ssh_info in
          (ForegroundProcessesRead :: evs, c)
    end.

End WithWorld.

End DropUpload.

(** ** A concrete world for closed examples *)

(** A file system in which exactly the paths of [present] exist, seen
    from the working directory [cwd].  The address checks refuse every
    authority they are asked about; the examples ask about none. *)
Definition world_of (cwd : string) (present : list string)
    (clipboard : string) (clock : nat -> Z) : world :=
  mkWorld (fun p => in_words (abspath cwd p) present) cwd clipboard clock
          (fun _ => true).

(** ** Notions used by the statements *)

(** The three remote families, as tests on one descriptor: the command
    name is the base name of [argv[0]] in lower case. *)
Definition is_wrapper (p : proc) : bool :=
  match cmdline_of p with
  | [] => false
  | c0 :: _ => String.eqb (cmd_of c0) "kitten" && kitten_remote (cmdline_of p)
  end.

Definition is_plain_shell (p : proc) : bool :=
  match cmdline_of p with
  | [] => false
  | c0 :: _ => String.eqb (cmd_of c0) "ssh"
  end.

Definition is_multiplexer (p : proc) : bool :=
  match cmdline_of p with
  | [] => false
  | c0 :: _ => in_words (cmd_of c0) ["mosh"; "mosh-client"]
  end.

Definition matches_family (p : proc) : bool :=
  is_wrapper p || is_plain_shell p || is_multiplexer p.

Definition no_family (procs : list proc) : bool :=
  forallb (fun p => negb (matches_family p)) procs.

(** A wrapper process started without one of the remote subcommands. *)
Definition is_bare_wrapper (p : proc) : bool :=
  match cmdline_of p with
  | [] => false
  | c0 :: _ =>
      String.eqb (cmd_of c0) "kitten" && negb (kitten_remote (cmdline_of p))
  end.

(** The classification proper: the three keys both files share. *)
Definition same_class (a b : info) : Prop :=
  is_ssh a = is_ssh b /\ is_kitten_ssh a = is_kitten_ssh b /\ host a = host b.

Definition local_class (i : info) : Prop :=
  is_ssh i = false /\ is_kitten_ssh i = false /\ host i = None.

Definition plain_remote_class (i : info) : Prop :=
  is_ssh i = true /\ is_kitten_ssh i = false.

Definition forget_pid (i : info) : info := set_pid i None.

(** [h] is what a right-to-left scan of [args] for the first token
    without a leading dash finds. *)
Definition right_scan (args : list string) (h : option string) : Prop :=
  match h with
  | Some x =>
      exists pre post,
        args = (pre ++ x :: post)%list /\ dash x = false
        /\ Forall (fun a => dash a = true) post
  | None => Forall (fun a => dash a = true) args
  end.

(** A window whose process list reads as [procs]. *)
Definition window_of (procs : list proc) : window := mkWindow (Ok procs).

(** A window whose process list cannot be read. *)
Definition unreadable_window : window := mkWindow Raise.

(** The process list of the scenario [ssh -p 22 user@box]. *)
Definition ssh_scenario : list proc :=
  [mkProc (Some 4242%Z) (Some ["ssh"; "-p"; "22"; "user@box"])].

(** The shell first, the wrapper second. *)
Definition shell_then_wrapper : list proc :=
  [mkProc (Some 7%Z) (Some ["/usr/bin/ssh"; "-p"; "22"; "user@box"]);
   mkProc (Some 3%Z) (Some ["kitten"; "ssh"; "user@box"])].

(** A shell, two descriptors without argv, a wrapper run for a local
    subcommand. *)
Definition local_procs : list proc :=
  [mkProc (Some 1%Z) (Some ["/bin/zsh"; "-l"]);
   mkProc (Some 2%Z) None;
   mkProc None (Some []);
   mkProc (Some 3%Z) (Some ["kitten"; "icat"; "ssh.png"])].

(** The port after the destination. *)
Definition ssh_port_last : proc :=
  mkProc (Some 9%Z) (Some ["ssh"; "user@box"; "-p"; "2222"]).

(** [kitten icat] in front of a shell in front of [ssh]. *)
Definition icat_proc : proc :=
  mkProc (Some 1%Z) (Some ["/Applications/kitty.app/Kitten"; "icat"]).

Definition shell_then_ssh : list proc :=
  [mkProc (Some 2%Z) (Some ["zsh"]); mkProc (Some 3%Z) (Some ["ssh"; "box"])].

(** *** The plan *)

(** The k-th file of a run is planned at the k-th clock reading. *)
Definition indexed (n : nat) (files : list string) : list (nat * string) :=
  combine (seq n (List.length files)) files.

Definition token_at (w : world) (kf : nat * string) : string :=
  uid_of (snd kf) (time_ns w (fst kf)).

Definition remote_at (w : world) (kf : nat * string) : string :=
  "/tmp/uploads/" ++ token_at w kf ++ "_" ++ basename (snd kf).

Definition planned_tokens (w : world) (files : list string) : list string :=
  map (token_at w) (indexed 0 files).

Definition planned_remotes (w : world) (files : list string) : list string :=
  map (remote_at w) (indexed 0 files).

Definition lower_hex (a : ascii) : bool :=
  between 48 57 (code a) || between 97 102 (code a).

(** Concatenation of a list of texts. *)
Definition cat (parts : list string) : string :=
  fold_right String.append EmptyString parts.

(** The quoting smart_paste.py writes out by hand. *)
Definition single_quoted (s : string) : string :=
  "'" ++ escape_quotes s ++ "'".

(** The command of one item in smart_paste.py and in the watcher. *)
Definition paste_cmd (w : world) (kf : nat * string) : string :=
  "kitten transfer --direction=upload " ++ single_quoted (snd kf)
  ++ " " ++ single_quoted (remote_at w kf).

Definition drop_cmd (w : world) (kf : nat * string) : string :=
  "kitten transfer --direction=upload " ++ shlex_quote (snd kf)
  ++ " " ++ shlex_quote (remote_at w kf).

(** A text without a line feed. *)
Definition lf_free (s : string) : bool := negb (has_char (ch 10) s).

(** A text of one line: no line feed but the last character. *)
Definition one_line (s : string) : Prop :=
  exists body, s = body ++ str1 (ch 10) /\ lf_free body = true.

(** The sessions of the planner. *)
Definition transfer_capable (i : info) : Prop :=
  is_ssh i = true /\ is_kitten_ssh i = true.

Definition plain_remote (i : info) : Prop :=
  is_ssh i = true /\ is_kitten_ssh i = false.

(** The clipboard text [handle_result] works on. *)
Definition clipboard_text (w : world) (b : boss) : string :=
  if negb (nonempty (get_clipboard w))
  then match current_primary_selection_or_clipboard b with
       | Some c => c
       | None => EmptyString
       end
  else get_clipboard w.

(** All the text a run pastes, in order. *)
Fixpoint pasted (evs : list event) : string :=
  match evs with
  | [] => EmptyString
  | PasteText t :: rest => t ++ pasted rest
  | _ :: rest => pasted rest
  end.

(** Whether a run read the process list. *)
Definition classified (evs : list event) : bool :=
  existsb (fun e => match e with ForegroundProcessesRead => true | _ => false end)
          evs.

(** [needle in s]. *)
Fixpoint has_substring (needle s : string) : bool :=
  startswith s needle
  || match s with
     | EmptyString => false
     | String _ r => has_substring needle r
     end.

(** *** Shell quoting
    Follows the words of the statements, not the source: the word a
    POSIX shell reads from a text made of single-quoted parts,
    double-quoted parts without expansions, and bare characters that
    need no quoting.  A text is a shell quoting of [s] when the shell
    reads [s] from it. *)
Module Sh.

Inductive mode : Type := Bare | InSingle | InDouble.

Fixpoint read_in (m : mode) (s : string) : option string :=
  match s with
  | EmptyString => match m with Bare => Some EmptyString | _ => None end
  | String a r =>
      match m with
      | Bare =>
          if Ascii.eqb a "'" then read_in InSingle r
          else if Ascii.eqb a (ch 34) then read_in InDouble r
          else if shell_safe a then option_map (String a) (read_in Bare r)
          else None
      | InSingle =>
          if Ascii.eqb a "'" then read_in Bare r
          else option_map (String a) (read_in InSingle r)
      | InDouble =>
          if Ascii.eqb a (ch 34) then read_in Bare r
          else if in_words (str1 a) ["$"; "`"; "\"] then None
          else option_map (String a) (read_in InDouble r)
      end
  end.

Definition read (s : string) : option string := read_in Bare s.

End Sh.

(** *** Worlds and windows of the examples *)

Definition nl : string := str1 (ch 10).

Definition clock_from (t0 : Z) (n : nat) : Z := (t0 + Z.of_nat n)%Z.

Definition kitten_window : window :=
  window_of [mkProc (Some 11%Z) (Some ["kitten"; "ssh"; "user@box"])].

Definition ssh_window : window := window_of ssh_scenario.

Definition local_window : window := window_of local_procs.

Definition boss_of (win : window) : boss := mkBoss (fun _ => Some win) None.

(** The files the watcher keeps of a drop. *)
Definition drop_files (w : world) (d : drop_data) : result (list string) :=
  DropUpload.local_files_loop w
    (DropUpload.parse_uri_list (utf8_replace (drop_get d "text/uri-list"))) [].

Definition uri_drop (uris : string) : drop_data := [("text/uri-list", uris)].

(** Two reports of one name in two directories, and two clock readings
    4519 ns apart at which their tokens coincide. *)
Definition collision_files : list string :=
  ["/home/me/a/report.txt"; "/home/me/b/report.txt"].

Definition collision_clock (n : nat) : Z :=
  match n with
  | O => 1700000000000539337
  | S _ => 1700000000000543856
  end%Z.

Definition collision_world : world :=
  world_of "/home/me" collision_files
           ("/home/me/a/report.txt" ++ nl ++ "/home/me/b/report.txt")
           collision_clock.

(** One file pasted twice, the clock ticking. *)
Definition twice_world : world :=
  world_of "/home/me" ["/tmp/a.txt"] ("/tmp/a.txt" ++ nl ++ "/tmp/a.txt")
           (clock_from 1700000000000000000).

(** The photo of the scenario. *)
Definition photo_world : world :=
  world_of "/Users/me" ["/Users/me/photo.png"] "file:///Users/me/photo.png"
           (clock_from 1700000000000000000).

(** A file URI with the authority [localhost]. *)
Definition localhost_world : world :=
  world_of "/home/me" ["/tmp/a.txt"] "file://localhost/tmp/a.txt"
           (clock_from 1700000000000000000).

(** A file URI with the authority [build], in a working directory that
    has a [build] directory. *)
Definition build_world : world :=
  world_of "/home/me" ["/home/me/build/out.txt"] "file://build/out.txt"
           (clock_from 1700000000000000000).

(** A file with a quote in its name, then a plain one. *)
Definition quote_world : world :=
  world_of "/home/me" ["/tmp/it's"; "/tmp/a.txt"]
           ("/tmp/it's" ++ nl ++ "/tmp/a.txt")
           (clock_from 1700000000000000000).

(** A clipboard of plain text. *)
Definition text_world : world :=
  world_of "/home/me" ["/tmp/a.txt"] "echo hello"
           (clock_from 1700000000000000000).

(** One file pasted twice while the clock stands still. *)
Definition frozen_world : world :=
  world_of "/home/me" ["/tmp/a.txt"] ("/tmp/a.txt" ++ nl ++ "/tmp/a.txt")
           (fun _ => 1700000000000000000%Z).

Definition absolute (f : string) : Prop := startswith f "/" = true.

(** ** get_clipboard of smart_paste.py *)

Module Clipboard.

(** What [subprocess.run(cmd, capture_output=True, text=True,
    timeout=2)] gives back: the return code and the captured output.
    A tool that is missing or runs out of time raises. *)
Record completed : Type := mkCompleted {
  returncode : Z;
  stdout : string
}.

(** The clipboard tools, in the order they are tried. *)
Definition cmds : list (list string) :=
  [["pbpaste"];
   ["xclip"; "-selection"; "clipboard"; "-o"];
   ["xsel"; "--clipboard"; "--output"];
   ["wl-paste"]].

Section Run.

(** [subprocess.run] on one command line. *)
Variable run : list string -> result completed.

(** The [for cmd in cmds] loop: the [except Exception: pass] goes on
    with the next tool. *)
Fixpoint get_clipboard_loop (cs : list (list string)) : string :=
  match cs with
  | [] => EmptyString
  | cmd :: rest =>
      match run cmd with
      | Ok r =>
          if (returncode r =? 0)%Z && nonempty (stdout r) then stdout r
          else get_clipboard_loop rest
      | Raise => get_clipboard_loop rest
      end
  end.

(** [get_clipboard()]. *)
Definition get_clipboard : string := get_clipboard_loop cmds.

(** A tool answers when it exits with 0 and prints something. *)
Definition answers (cmd : list string) : bool :=
  match run cmd with
  | Ok r => (returncode r =? 0)%Z && nonempty (stdout r)
  | Raise => false
  end.

End Run.

End Clipboard.

(** ** Further notions used by the statements *)

(** The first descriptor of a family, in list order. *)
Definition first_family (procs : list proc) : option proc :=
  find matches_family procs.

(** A token the wrapper branch takes for a host: no leading dash, and
    an [@] or a dot. *)
Definition host_like (arg : string) : bool :=
  negb (dash arg) && (has_char "@" arg || has_char "." arg).

(** [h] is what a left-to-right scan of [args] for the first host-like
    token finds. *)
Definition left_scan (args : list string) (h : option string) : Prop :=
  match h with
  | Some x =>
      exists pre post,
        args = (pre ++ x :: post)%list /\ host_like x = true
        /\ Forall (fun a => host_like a = false) pre
  | None => Forall (fun a => host_like a = false) args
  end.

(** The texts a run pastes, the reads of the process list and the
    calls of the original drop handler it makes. *)
Fixpoint pastes (evs : list event) : list string :=
  match evs with
  | [] => []
  | PasteText t :: rest => t :: pastes rest
  | _ :: rest => pastes rest
  end.

Fixpoint reads (evs : list event) : nat :=
  match evs with
  | [] => 0
  | ForegroundProcessesRead :: rest => S (reads rest)
  | _ :: rest => reads rest
  end.

Fixpoint originals (evs : list event) : list drop_data :=
  match evs with
  | [] => []
  | OriginalOnDrop d :: rest => d :: originals rest
  | _ :: rest => originals rest
  end.

(** No character of [s] is one of [cs]. *)
Definition avoids (cs : list ascii) (s : string) : bool :=
  all_chars (fun c => negb (existsb (Ascii.eqb c) cs)) s.




(** The candidate path of a line of the clipboard, before the test for
    existence: what [extract_line] computes from the line. *)
Definition line_candidate (line : string) : string :=
  let path := strip line in
  let path := if startswith path "file://" then unquote (drop 7 path) else path in
  if (startswith path (str1 (ch 34)) && endswith_char path (ch 34))
     || (startswith path "'" && endswith_char path "'")
  then drop_last (drop 1 path)
  else path.

(** *** Words of a command
    Follows the shell's reading, not the source: the words a POSIX
    shell splits a text into at unquoted spaces, for texts made of
    single-quoted parts, double-quoted parts without expansions, and
    bare characters that need no quoting.  Outside a word the result
    is the list of words; inside one, the rest of the word comes
    first. *)
Module ShWords.

Inductive mode : Type := Between | Word | Single | Double.

Definition push (a : ascii) (r : option (list string)) : option (list string) :=
  match r with
  | Some (w :: ws) => Some (String a w :: ws)
  | _ => None
  end.

Definition close_word (m : mode) (r : option (list string))
  : option (list string) :=
  match m with
  | Word => option_map (cons EmptyString) r
  | _ => r
  end.

Fixpoint scan (m : mode) (s : string) : option (list string) :=
  match s with
  | EmptyString =>
      match m with
      | Between => Some []
      | Word => Some [EmptyString]
      | _ => None
      end
  | String a r =>
      match m with
      | Between | Word =>
          if Ascii.eqb a " " then close_word m (scan Between r)
          else if Ascii.eqb a "'" then scan Single r
          else if Ascii.eqb a (ch 34) then scan Double r
          else if shell_safe a then push a (scan Word r)
          else None
      | Single =>
          if Ascii.eqb a "'" then scan Word r
          else push a (scan Single r)
      | Double =>
          if Ascii.eqb a (ch 34) then scan Word r
          else if in_words (str1 a) ["$"; "`"; "\"] then None
          else push a (scan Double r)
      end
  end.

Definition words (s : string) : option (list string) := scan Between s.

(** The word [f] in front of the rest of a word. *)
Definition prepend (f : string) (r : option (list string))
  : option (list string) :=
  match r with
  | Some (w :: ws) => Some ((f ++ w) :: ws)
  | _ => None
  end.

End ShWords.

(** *** Data of the examples *)

Definition wrapper_scenario : list proc :=
  [mkProc (Some 11%Z) (Some ["kitten"; "ssh"; "-v"; "user@box"; "ls"])].

Definition mosh_procs : list proc :=
  [mkProc (Some 1%Z) (Some ["-zsh"]);
   mkProc (Some 5%Z) (Some ["/usr/local/bin/mosh-client"; "-#"; "box"])].

(** Only [xsel] is installed and has something. *)
Definition xsel_only (cmd : list string) : result Clipboard.completed :=
  match cmd with
  | "xclip" :: _ => Ok (Clipboard.mkCompleted 1 "")
  | "xsel" :: _ => Ok (Clipboard.mkCompleted 0 "hello")
  | "wl-paste" :: _ => Ok (Clipboard.mkCompleted 0 "later")
  | _ => Raise
  end.

(** A working directory with one file whose name has a space. *)
Definition spaced_world : world :=
  world_of "/home/me" ["/home/me/my file.txt"] "" (clock_from 0).

(** The echo that ends the command text, in smart_paste.py and in the
    watcher: the last step of [full_cmd] without the line feed. *)
Definition paste_echo (w : world) (files : list string) : string :=
  "echo 'Uploaded: "
  ++ join " " (map (fun r => "'" ++ r ++ "'") (planned_remotes w files))
  ++ "'".

Definition drop_echo (w : world) (files : list string) : string :=
  "echo '" ++ DropUpload.echo_mark ++ " Uploaded: "
  ++ join " " (map shlex_quote (planned_remotes w files)) ++ "'".

(** A file whose base name needs no quoting. *)
Definition safe_name (f : string) : bool := all_chars shell_safe (basename f).

(** A file with a line feed in its name, pasted or dropped as a file
    URI. *)
Definition lf_name : string := "/tmp/a" ++ nl ++ "b".

Definition lf_world : world :=
  world_of "/home/me" [lf_name] "file:///tmp/a%0Ab"
           (clock_from 1700000000000000000).

(** A file with a semicolon in its name. *)
Definition semicolon_world : world :=
  world_of "/home/me" ["/tmp/x;reboot"] "/tmp/x;reboot"
           (clock_from 1700000000000000000).

(** A file URI with a bracket left open on the clipboard. *)
Definition bad_uri_world : world :=
  world_of "/home/me" ["/tmp/a.txt"] "file://[x/a"
           (clock_from 1700000000000000000).

(** * Properties *)

(** ** The classifier *)

Arguments in_words : simpl never.
Arguments kitten_remote : simpl never.
Arguments cmd_of : simpl never.

Section Classifier.

Lemma kitten_host_agree (args : list string) (i : info) :
  kitten_host_paste args i = kitten_host_drop args i.
Proof.
  induction args as [|arg rest IH]; simpl; [reflexivity|].
  destruct (dash arg), (has_char "@" arg), (has_char "." arg);
    simpl; auto.
Qed.

Lemma forget_pid_ssh_host (rargs : list string) (i : info) :
  forget_pid (ssh_host rargs i) = ssh_host rargs (forget_pid i).
Proof.
  induction rargs as [|arg rest IH]; simpl; [reflexivity|].
  destruct (dash arg); simpl; auto.
Qed.

Lemma forget_pid_kitten_host (args : list string) (i : info) :
  forget_pid (kitten_host_drop args i) = kitten_host_drop args (forget_pid i).
Proof.
  induction args as [|arg rest IH]; simpl; [reflexivity|].
  destruct (dash arg); simpl; auto.
  destruct (has_char "@" arg || has_char "." arg); auto.
Qed.

(** The two loops differ by the pid alone. *)
Lemma loops_agree (procs : list proc) (i : info) :
  forget_pid (is_ssh_window_loop procs i)
  = check_ssh_session_loop procs (forget_pid i).
Proof.
  revert i; induction procs as [|p rest IH]; intro i; simpl; [reflexivity|].
  destruct (cmdline_of p) as [|c0 args] eqn:Ec; [apply IH|].
  destruct (String.eqb (cmd_of c0) "kitten").
  - destruct (kitten_remote (c0 :: args)).
    + rewrite kitten_host_agree, forget_pid_kitten_host. reflexivity.
    + rewrite IH. reflexivity.
  - destruct (String.eqb (cmd_of c0) "ssh").
    + rewrite forget_pid_ssh_host. reflexivity.
    + destruct (in_words (cmd_of c0) ["mosh"; "mosh-client"]).
      * reflexivity.
      * rewrite IH. reflexivity.
Qed.

Lemma entry_points_agree (w : window) :
  check_ssh_session w = forget_pid (is_ssh_window w).
Proof.
  unfold check_ssh_session, is_ssh_window.
  destruct (foreground_processes w) as [procs|]; [|reflexivity].
  rewrite loops_agree. reflexivity.
Qed.

Lemma same_class_forget (i : info) : same_class (forget_pid i) i.
Proof. repeat split. Qed.

Lemma same_class_entry_points (w : window) :
  same_class (check_ssh_session w) (is_ssh_window w).
Proof. rewrite entry_points_agree. apply same_class_forget. Qed.

Lemma same_class_trans (a b c : info) :
  same_class a b -> same_class b c -> same_class a c.
Proof.
  intros (H1 & H2 & H3) (K1 & K2 & K3); repeat split; congruence.
Qed.

Lemma same_class_sym (a b : info) : same_class a b -> same_class b a.
Proof. intros (H1 & H2 & H3); repeat split; congruence. Qed.

(** A descriptor outside the three families is passed over. *)
Lemma check_loop_skip (p : proc) (rest : list proc) (i : info) :
  matches_family p = false ->
  check_ssh_session_loop (p :: rest) i = check_ssh_session_loop rest i.
Proof.
  unfold matches_family, is_wrapper, is_plain_shell, is_multiplexer.
  simpl. destruct (cmdline_of p) as [|c0 args]; [reflexivity|].
  intro H.
  destruct (String.eqb (cmd_of c0) "kitten") eqn:Ek.
  - destruct (kitten_remote (c0 :: args)); [discriminate|reflexivity].
  - destruct (String.eqb (cmd_of c0) "ssh"); [discriminate|].
    destruct (in_words (cmd_of c0) ["mosh"; "mosh-client"]);
      [discriminate|reflexivity].
Qed.

Lemma check_loop_no_family (procs : list proc) (i : info) :
  no_family procs = true ->
  check_ssh_session_loop procs i = i.
Proof.
  induction procs as [|p rest IH]; intro H; [reflexivity|].
  simpl in H. apply andb_true_iff in H as [Hp Hr].
  apply negb_true_iff in Hp.
  rewrite check_loop_skip by exact Hp. auto.
Qed.

(** A plain remote shell at the head decides the result. *)
Lemma check_loop_ssh_head (p : proc) (rest : list proc) (i : info)
      (c0 : string) (args : list string) :
  cmdline_of p = c0 :: args ->
  cmd_of c0 = "ssh" ->
  check_ssh_session_loop (p :: rest) i
  = ssh_host (rev args) (set_is_ssh i true).
Proof.
  intros Hc Hs. simpl. rewrite Hc, Hs. reflexivity.
Qed.

Lemma ssh_host_fields (rargs : list string) (i : info) :
  is_ssh (ssh_host rargs i) = is_ssh i
  /\ is_kitten_ssh (ssh_host rargs i) = is_kitten_ssh i.
Proof.
  induction rargs as [|arg rest IH]; simpl; [auto|].
  destruct (dash arg); simpl; auto.
Qed.

(** What the reversed loop finds, read on the argument list in its
    own order. *)
Lemma ssh_host_right_scan (args : list string) (i : info) :
  host i = None ->
  right_scan args (host (ssh_host (rev args) i)).
Proof.
  intro Hi. induction args as [|x l IH] using rev_ind.
  - simpl. rewrite Hi. constructor.
  - rewrite rev_app_distr. simpl.
    destruct (dash x) eqn:Ex; simpl.
    + destruct (host (ssh_host (rev l) i)) as [h|].
      * destruct IH as (pre & post & -> & Hh & Hpost).
        exists pre, (post ++ [x])%list. rewrite <- app_assoc. simpl.
        repeat split; auto. apply Forall_app; split; auto.
      * simpl in *. apply Forall_app; split; auto.
    + exists l, []. repeat split; auto.
Qed.

(** A wrapper without a remote subcommand is passed over. *)
Lemma bare_wrapper_no_family (p : proc) :
  is_bare_wrapper p = true -> matches_family p = false.
Proof.
  unfold is_bare_wrapper, matches_family, is_wrapper, is_plain_shell,
    is_multiplexer.
  destruct (cmdline_of p) as [|c0 args]; [discriminate|].
  intro H. apply andb_true_iff in H as [Hk Hn].
  apply negb_true_iff in Hn. rewrite Hn, Hk.
  apply String.eqb_eq in Hk. rewrite Hk. reflexivity.
Qed.

Lemma check_loop_skip_prefix (pre rest : list proc) (i : info) :
  no_family pre = true ->
  check_ssh_session_loop (pre ++ rest) i = check_ssh_session_loop rest i.
Proof.
  induction pre as [|p pre IH]; intro H; [reflexivity|].
  simpl in H. apply andb_true_iff in H as [Hp Hr].
  apply negb_true_iff in Hp.
  change ((p :: pre) ++ rest)%list with (p :: (pre ++ rest))%list.
  rewrite check_loop_skip by exact Hp. auto.
Qed.

End Classifier.

Section ClassifierClaims.

Lemma plain_shell_inv (p : proc) :
  is_plain_shell p = true ->
  exists c0 args, cmdline_of p = c0 :: args /\ cmd_of c0 = "ssh".
Proof.
  unfold is_plain_shell. destruct (cmdline_of p) as [|c0 args]; [discriminate|].
  intro H. apply String.eqb_eq in H. eauto.
Qed.

Lemma check_plain_shell_head (p : proc) (tail : list proc) :
  is_plain_shell p = true ->
  check_ssh_session (window_of (p :: tail)) = check_ssh_session (window_of [p])
  /\ plain_remote_class (check_ssh_session (window_of (p :: tail)))
  /\ right_scan (tl (cmdline_of p))
                (host (check_ssh_session (window_of (p :: tail)))).
Proof.
  intro H. destruct (plain_shell_inv p H) as (c0 & args & Hc & Hs).
  unfold check_ssh_session, window_of; cbn [foreground_processes].
  rewrite !(check_loop_ssh_head p _ info0 c0 args Hc Hs).
  split; [reflexivity|]. split.
  - destruct (ssh_host_fields (rev args) (set_is_ssh info0 true)) as [H1 H2].
    split; [rewrite H1 | rewrite H2]; reflexivity.
  - rewrite Hc. cbn [tl]. apply ssh_host_right_scan. reflexivity.
Qed.

Lemma paste_plain_shell_head (p : proc) (tail : list proc) :
  is_plain_shell p = true ->
  is_ssh_window (window_of (p :: tail)) = is_ssh_window (window_of [p]).
Proof.
  intro H. destruct (plain_shell_inv p H) as (c0 & args & Hc & Hs).
  unfold is_ssh_window, window_of; cbn [foreground_processes].
  simpl. rewrite Hc, Hs. reflexivity.
Qed.

Lemma plain_remote_class_same (a b : info) :
  same_class a b -> plain_remote_class b -> plain_remote_class a.
Proof. intros (H1 & H2 & _) (K1 & K2). split; congruence. Qed.

Lemma local_class_same (a b : info) :
  same_class a b -> local_class b -> local_class a.
Proof. intros (H1 & H2 & H3) (K1 & K2 & K3). repeat split; congruence. Qed.

Lemma check_no_family_local (procs : list proc) :
  no_family procs = true ->
  local_class (check_ssh_session (window_of procs)).
Proof.
  intro H. unfold check_ssh_session, window_of; cbn [foreground_processes].
  rewrite check_loop_no_family by exact H. repeat split.
Qed.

(** C2. Classification is first-match-wins in the order supplied: when
    the first descriptor is a plain remote shell and the second a
    transfer-capable wrapper, both classifiers answer plain-remote
    ([is_ssh] true, [is_kitten_ssh] false), with the host scanned from
    the first descriptor, and the answer is the one the first
    descriptor gives alone, whatever follows it. *)
Theorem C2_first_match_wins (p1 p2 : proc) (rest : list proc) :
  is_plain_shell p1 = true ->
  is_wrapper p2 = true ->
  plain_remote_class (is_ssh_window (window_of (p1 :: p2 :: rest)))
  /\ plain_remote_class (check_ssh_session (window_of (p1 :: p2 :: rest)))
  /\ right_scan (tl (cmdline_of p1))
                (host (is_ssh_window (window_of (p1 :: p2 :: rest))))
  /\ right_scan (tl (cmdline_of p1))
                (host (check_ssh_session (window_of (p1 :: p2 :: rest))))
  /\ (forall tail,
         is_ssh_window (window_of (p1 :: tail)) = is_ssh_window (window_of [p1]))
  /\ (forall tail,
         check_ssh_session (window_of (p1 :: tail))
         = check_ssh_session (window_of [p1])).
Proof.
  intros H1 _.
  destruct (check_plain_shell_head p1 (p2 :: rest) H1) as (_ & Hc & Hh).
  destruct (same_class_entry_points (window_of (p1 :: p2 :: rest)))
    as (E1 & E2 & E3).
  split; [|split; [|split; [|split; [|split]]]].
  - destruct Hc as [K1 K2]. split; congruence.
  - exact Hc.
  - rewrite <- E3. exact Hh.
  - exact Hh.
  - intro tail. apply paste_plain_shell_head, H1.
  - intro tail. apply (check_plain_shell_head p1 tail H1).
Qed.

Lemma C2_first_match_wins_witness :
  is_plain_shell (nth 0 shell_then_wrapper (mkProc None None)) = true
  /\ is_wrapper (nth 1 shell_then_wrapper (mkProc None None)) = true
  /\ plain_remote_class (is_ssh_window (window_of shell_then_wrapper)).
Proof.
  split; [reflexivity|]. split; [reflexivity|].
  apply (C2_first_match_wins
           (nth 0 shell_then_wrapper (mkProc None None))
           (nth 1 shell_then_wrapper (mkProc None None)) []);
    reflexivity.
Defined.

(** C7. A process list that cannot be read, is empty, or holds no
    descriptor of any of the three families (a descriptor with an
    empty argv is of none) classifies as local: [is_ssh] false,
    [is_kitten_ssh] false, no host.  Both classifiers are total
    functions of the window, so no error escapes them. *)
Theorem C7_no_family_is_local (w : window) :
  (foreground_processes w = Raise
   \/ exists procs,
        foreground_processes w = Ok procs
        /\ no_family procs = true) ->
  local_class (is_ssh_window w) /\ local_class (check_ssh_session w)
  /\ (forall p, cmdline_of p = [] -> matches_family p = false).
Proof.
  intro H.
  assert (Hc : local_class (check_ssh_session w)).
  { destruct H as [H | (procs & H & Hn)].
    - unfold check_ssh_session. rewrite H. repeat split.
    - destruct w as [fp]. cbn in H. subst fp.
      apply check_no_family_local, Hn. }
  split; [|split].
  - apply (local_class_same _ (check_ssh_session w)); auto.
    apply same_class_sym, same_class_entry_points.
  - exact Hc.
  - intros p Hp.
    unfold matches_family, is_wrapper, is_plain_shell, is_multiplexer.
    rewrite Hp. reflexivity.
Qed.

Lemma C7_no_family_is_local_witness :
  (foreground_processes (window_of local_procs) = Raise
   \/ exists l,
        foreground_processes (window_of local_procs) = Ok l
        /\ no_family l = true)
  /\ local_class (is_ssh_window (window_of local_procs)).
Proof.
  assert (H : foreground_processes (window_of local_procs) = Raise
              \/ exists l,
                   foreground_processes (window_of local_procs) = Ok l
                   /\ no_family l = true).
  { right. exists local_procs. split; reflexivity. }
  split; [exact H|].
  apply (C7_no_family_is_local (window_of local_procs) H).
Defined.

Lemma check_plain_shell_after (pre : list proc) (p : proc)
      (tail : list proc) :
  no_family pre = true ->
  is_plain_shell p = true ->
  check_ssh_session (window_of (pre ++ p :: tail))
  = check_ssh_session (window_of [p])
  /\ plain_remote_class (check_ssh_session (window_of (pre ++ p :: tail)))
  /\ right_scan (tl (cmdline_of p))
                (host (check_ssh_session (window_of (pre ++ p :: tail)))).
Proof.
  intros Hpre H.
  assert (E : check_ssh_session (window_of (pre ++ p :: tail))
              = check_ssh_session (window_of (p :: tail))).
  { unfold check_ssh_session, window_of; cbn [foreground_processes].
    apply check_loop_skip_prefix, Hpre. }
  rewrite E. apply check_plain_shell_head, H.
Qed.

(** C8. When the first descriptor of a family is a plain remote shell
    ([ssh]), the host is what a right-to-left scan of [argv[1:]] finds
    first among the tokens without a leading dash (none when every
    token has one); for [ssh -p 22 user@box] both classifiers answer
    plain-remote with host [user@box]. *)
Theorem C8_ssh_host_right_to_left :
  (forall (pre : list proc) (p : proc) (tail : list proc),
      no_family pre = true ->
      is_plain_shell p = true ->
      plain_remote_class (is_ssh_window (window_of (pre ++ p :: tail)))
      /\ right_scan (tl (cmdline_of p))
                    (host (is_ssh_window (window_of (pre ++ p :: tail))))
      /\ plain_remote_class (check_ssh_session (window_of (pre ++ p :: tail)))
      /\ right_scan (tl (cmdline_of p))
                    (host (check_ssh_session (window_of (pre ++ p :: tail)))))
  /\ is_ssh_window (window_of ssh_scenario)
     = mkInfo true false (Some "user@box") (Some 4242%Z)
  /\ check_ssh_session (window_of ssh_scenario)
     = mkInfo true false (Some "user@box") None.
Proof.
  split; [|split; reflexivity].
  intros pre p tail Hpre H.
  destruct (check_plain_shell_after pre p tail Hpre H) as (_ & Hc & Hh).
  destruct (same_class_entry_points (window_of (pre ++ p :: tail)))
    as (E1 & E2 & E3).
  split; [|split; [|split]]; auto.
  - destruct Hc as [K1 K2]. split; congruence.
  - rewrite <- E3. exact Hh.
Qed.

(** With the port after the destination the scan from the right stops
    at the port number. *)
Lemma C8_ssh_host_right_to_left_witness :
  no_family local_procs = true
  /\ is_plain_shell ssh_port_last = true
  /\ right_scan ["user@box"; "-p"; "2222"]
                (host (is_ssh_window
                         (window_of (local_procs ++ [ssh_port_last]))))
  /\ host (is_ssh_window (window_of (local_procs ++ [ssh_port_last])))
     = Some "2222".
Proof.
  split; [reflexivity|]. split; [reflexivity|]. split; [|reflexivity].
  apply (proj1 C8_ssh_host_right_to_left local_procs ssh_port_last []);
    reflexivity.
Defined.

(** C10. A first descriptor named [kitten] whose argv has fewer than
    two elements, or whose [argv[1]] is neither [ssh] nor [run-shell],
    does not end the scan: the classification is that of the rest of
    the list, so a later [ssh] descriptor (after descriptors of no
    family) gives plain-remote, and a rest without any family gives
    local with no host. *)
Theorem C10_bare_wrapper_passed_over (p : proc) (rest : list proc) :
  is_bare_wrapper p = true ->
  same_class (is_ssh_window (window_of (p :: rest)))
             (is_ssh_window (window_of rest))
  /\ check_ssh_session (window_of (p :: rest))
     = check_ssh_session (window_of rest)
  /\ (forall pre q tail,
         rest = (pre ++ q :: tail)%list ->
         no_family pre = true ->
         is_plain_shell q = true ->
         plain_remote_class (is_ssh_window (window_of (p :: rest)))
         /\ plain_remote_class (check_ssh_session (window_of (p :: rest))))
  /\ (no_family rest = true ->
      local_class (is_ssh_window (window_of (p :: rest)))
      /\ local_class (check_ssh_session (window_of (p :: rest)))).
Proof.
  intro H. apply bare_wrapper_no_family in H.
  assert (Hc : check_ssh_session (window_of (p :: rest))
               = check_ssh_session (window_of rest)).
  { unfold check_ssh_session, window_of; cbn [foreground_processes].
    apply check_loop_skip, H. }
  assert (Hs : same_class (is_ssh_window (window_of (p :: rest)))
                          (check_ssh_session (window_of rest))).
  { rewrite <- Hc. apply same_class_sym, same_class_entry_points. }
  split; [|split; [|split]].
  - apply (same_class_trans _ _ _ Hs), same_class_entry_points.
  - exact Hc.
  - intros pre q tail -> Hpre Hq.
    assert (K : plain_remote_class
                  (check_ssh_session (window_of (pre ++ q :: tail)))).
    { unfold check_ssh_session, window_of; cbn [foreground_processes].
      rewrite check_loop_skip_prefix by exact Hpre.
      apply (check_plain_shell_head q tail Hq). }
    split.
    + apply (plain_remote_class_same _ _ Hs), K.
    + rewrite Hc. exact K.
  - intro Hn. pose proof (check_no_family_local rest Hn) as K. split.
    + apply (local_class_same _ _ Hs), K.
    + rewrite Hc. exact K.
Qed.

Lemma C10_bare_wrapper_passed_over_witness :
  is_bare_wrapper icat_proc = true
  /\ check_ssh_session (window_of (icat_proc :: shell_then_ssh))
     = check_ssh_session (window_of shell_then_ssh)
  /\ check_ssh_session (window_of (icat_proc :: shell_then_ssh))
     = mkInfo true false (Some "box") None.
Proof.
  split; [reflexivity|]. split; [|reflexivity].
  apply (C10_bare_wrapper_passed_over icat_proc shell_then_ssh). reflexivity.
Defined.

End ClassifierClaims.

(** ** The library models on known values *)

Section LibraryChecks.

(** The test suite of RFC 1321, and inputs around the block size. *)
Example md5_rfc1321 :
  MD5.hexdigest "" = "d41d8cd98f00b204e9800998ecf8427e"
  /\ MD5.hexdigest "a" = "0cc175b9c0f1b6a831c399e269772661"
  /\ MD5.hexdigest "abc" = "900150983cd24fb0d6963f7d28e17f72"
  /\ MD5.hexdigest "message digest" = "f96b697d7cb7938d525a2f31aaf161d0"
  /\ MD5.hexdigest "abcdefghijklmnopqrstuvwxyz"
     = "c3fcd3d76192e4007dfb496cca67e13b"
  /\ MD5.hexdigest
       "ABCDEFGHIJKLMNOPQRSTUVWXYZabcdefghijklmnopqrstuvwxyz0123456789"
     = "d174ab98d277d9f5a5611c2c9f419d9f"
  /\ MD5.hexdigest
       "12345678901234567890123456789012345678901234567890123456789012345678901234567890"
     = "57edf4a22be3c955ac49da2e2107b67a".
Proof. repeat split; vm_compute; reflexivity. Qed.

Example md5_of_path_and_clock :
  MD5.hexdigest ("/tmp/a.txt" ++ str_of_int 1700000000000000000)
  = "20ac97989bfdf6be6c51ad55d8b82fcc".
Proof. vm_compute. reflexivity. Qed.

Example str_of_int_values :
  str_of_int 0 = "0" /\ str_of_int (-12) = "-12"
  /\ str_of_int 1700000000000000000 = "1700000000000000000".
Proof. repeat split. Qed.

Example basename_values :
  basename "/a/b/c.txt" = "c.txt" /\ basename "abc" = "abc"
  /\ basename "/a/b/" = "" /\ basename "/" = "".
Proof. repeat split. Qed.

Example lower_values :
  lower "SSH" = "ssh" /\ lower "Mosh-Client" = "mosh-client"
  /\ lower (string_of_list_ascii (map ascii_of_nat [226; 132; 170])
            ++ "ITTEN") = "kitten".
Proof. repeat split. Qed.

Example unquote_values :
  unquote "/tmp/my%20file%2" = "/tmp/my file%2"
  /\ unquote "%%41%zz%4" = "%A%zz%4"
  /\ unquote "plain" = "plain"
  /\ unquote "a%C3b%e9"
     = "a" ++ fffd "" ++ "b" ++ fffd "".
Proof. repeat split; vm_compute; reflexivity. Qed.

Example strip_values :
  strip ("  a b " ++ str1 (ch 9) ++ " ") = "a b"
  /\ strip "" = "" /\ strip "   " = ""
  /\ strip (string_of_list_ascii
              (map ascii_of_nat [227; 128; 128; 97; 32; 194; 160; 226; 128; 137]))
     = "a".
Proof. repeat split; vm_compute; reflexivity. Qed.

Example shlex_quote_values :
  shlex_quote "" = "''"
  /\ shlex_quote "/tmp/a-b_c.txt" = "/tmp/a-b_c.txt"
  /\ shlex_quote "/tmp/my file" = "'/tmp/my file'"
  /\ shlex_quote "it's" = "'it" ++ quote_escape ++ "s'".
Proof. repeat split. Qed.

Example normpath_values :
  normpath "/a/./b/../c//d/" = "/a/c/d" /\ normpath "//a" = "//a"
  /\ normpath "///a" = "/a" /\ normpath "a/../.." = ".."
  /\ normpath "/.." = "/" /\ normpath "" = "."
  /\ abspath "/home/me" "x/../y" = "/home/me/y"
  /\ abspath "/home/me" "/tmp/a.txt" = "/tmp/a.txt".
Proof. repeat split; vm_compute; reflexivity. Qed.

Example urlparse_values :
  Url.urlparse (fun _ => true) "file:///tmp/it's?q#f"
  = Ok (mkParsed "file" "" "/tmp/it's")
  /\ Url.urlparse (fun _ => true) "file://localhost:80/a"
     = Ok (mkParsed "file" "localhost:80" "/a")
  /\ Url.urlparse (fun _ => true) "file://localhost#frag/x"
     = Ok (mkParsed "file" "localhost" "")
  /\ Url.urlparse (fun _ => true) ("file:///a" ++ str1 (ch 9) ++ "b")
     = Ok (mkParsed "file" "" "/ab")
  /\ Url.urlparse (fun _ => true) "file://[x/a" = Raise
  /\ Url.urlparse (fun _ => true) "file://x]y/a" = Raise.
Proof. repeat split; vm_compute; reflexivity. Qed.

End LibraryChecks.

(** ** Texts *)

Section Texts.

Lemma append_nil_r (s : string) : s ++ "" = s.
Proof. induction s as [|a s IH]; simpl; congruence. Qed.

Lemma append_assoc (s t u : string) : (s ++ t) ++ u = s ++ t ++ u.
Proof. induction s as [|a s IH]; simpl; congruence. Qed.

Lemma append_length (s t : string) :
  String.length (s ++ t) = String.length s + String.length t.
Proof. induction s as [|a s IH]; simpl; congruence. Qed.

(** Two concatenations with heads of one length agree part by part. *)
Lemma append_inj (s1 s2 t1 t2 : string) :
  String.length s1 = String.length s2 ->
  s1 ++ t1 = s2 ++ t2 -> s1 = s2 /\ t1 = t2.
Proof.
  revert s2; induction s1 as [|a s1 IH]; intros [|b s2] Hl H;
    try discriminate.
  - auto.
  - simpl in *. injection H as -> H. injection Hl as Hl.
    destruct (IH s2 Hl H) as [-> ->]. auto.
Qed.

Lemma append_inv_head (s t1 t2 : string) : s ++ t1 = s ++ t2 -> t1 = t2.
Proof. intro H. apply (append_inj s s t1 t2 eq_refl H). Qed.

Lemma option_map_id (x : option string) :
  option_map (String.append "") x = x.
Proof. destruct x; reflexivity. Qed.

Lemma option_map_cons (a : ascii) (s : string) (x : option string) :
  option_map (String a) (option_map (String.append s) x)
  = option_map (String.append (String a s)) x.
Proof. destruct x; reflexivity. Qed.

Lemma fold_append (sep : string) (cmds : list string) (init : string) :
  fold_left (fun acc cmd => acc ++ sep ++ cmd) cmds init
  = init ++ cat (map (fun c => sep ++ c) cmds).
Proof.
  revert init; induction cmds as [|c cmds IH]; intro init; simpl.
  - symmetry; apply append_nil_r.
  - rewrite IH, !append_assoc. reflexivity.
Qed.

End Texts.

(** ** Shell quoting *)

Section Quoting.

Lemma shell_safe_not_quote (a : ascii) :
  shell_safe a = true ->
  Ascii.eqb a "'" = false /\ Ascii.eqb a (ch 34) = false.
Proof.
  intro H. split.
  - destruct (Ascii.eqb a "'") eqn:E; [|reflexivity].
    apply Ascii.eqb_eq in E. subst a. discriminate H.
  - destruct (Ascii.eqb a (ch 34)) eqn:E; [|reflexivity].
    apply Ascii.eqb_eq in E. subst a. discriminate H.
Qed.

(** Bare safe characters read as themselves. *)
Lemma read_bare_safe (s : string) :
  all_chars shell_safe s = true -> Sh.read s = Some s.
Proof.
  unfold Sh.read. induction s as [|a s IH]; simpl; [reflexivity|].
  intro H. apply andb_true_iff in H as [Ha Hs].
  destruct (shell_safe_not_quote a Ha) as [-> ->].
  rewrite Ha, (IH Hs). reflexivity.
Qed.

(** Inside single quotes, the escaped text up to the closing quote
    reads as the text. *)
Lemma read_in_single (s t : string) :
  Sh.read_in Sh.InSingle (escape_quotes s ++ String "'" t)
  = option_map (String.append s) (Sh.read_in Sh.Bare t).
Proof.
  unfold escape_quotes. induction s as [|a s IH].
  - simpl. symmetry. apply option_map_id.
  - cbn [replace_char]. destruct (Ascii.eqb a "'") eqn:E.
    + apply Ascii.eqb_eq in E. subst a.
      change (quote_escape ++ replace_char "'" quote_escape s)
        with (String "'" (String (ch 34) (String "'" (String (ch 34)
                (String "'" (replace_char "'" quote_escape s)))))).
      cbn -[quote_escape in_words].
      change (in_words (str1 "'") ["$"; "`"; "\"]) with false.
      cbv iota. rewrite IH. apply option_map_cons.
    + cbn -[quote_escape]. rewrite E, IH. apply option_map_cons.
Qed.

Lemma read_single_quoted (s : string) :
  Sh.read (single_quoted s) = Some s.
Proof.
  unfold Sh.read, single_quoted. cbn [String.append Sh.read_in Ascii.eqb Bool.eqb].
  rewrite (read_in_single s ""). cbn. rewrite append_nil_r. reflexivity.
Qed.

Lemma read_shlex_quote (s : string) : Sh.read (shlex_quote s) = Some s.
Proof.
  unfold shlex_quote.
  destruct s as [|a s]; [reflexivity|]. cbn [nonempty negb].
  destruct (all_chars shell_safe (String a s)) eqn:E.
  - apply read_bare_safe, E.
  - apply read_single_quoted.
Qed.

End Quoting.

(** ** The upload plan *)

Section Plan.

Variable w : world.

Lemma indexed_cons (n : nat) (f : string) (files : list string) :
  indexed n (f :: files) = (n, f) :: indexed (S n) files.
Proof. reflexivity. Qed.

Lemma rpath_of_remote_at (n : nat) (f : string) :
  rpath_of (uid_of f (time_ns w n)) (basename f) = remote_at w (n, f).
Proof. reflexivity. Qed.

Lemma paste_cmd_text (kf : nat * string) :
  "kitten transfer --direction=upload '" ++ escape_quotes (snd kf)
  ++ "' '" ++ escape_quotes (remote_at w kf) ++ "'"
  = paste_cmd w kf.
Proof.
  unfold paste_cmd, single_quoted. cbn [String.append].
  rewrite !append_assoc. reflexivity.
Qed.

Lemma paste_upload_loop (files : list string) (n : nat)
      (rs cs : list string) :
  SmartPaste.upload_loop w files n rs cs
  = ((rs ++ map (remote_at w) (indexed n files))%list,
     (cs ++ map (paste_cmd w) (indexed n files))%list).
Proof.
  revert n rs cs; induction files as [|f files IH]; intros n rs cs.
  - simpl. rewrite !app_nil_r. reflexivity.
  - rewrite indexed_cons. cbn [SmartPaste.upload_loop map].
    rewrite IH, <- !app_assoc, rpath_of_remote_at.
    rewrite <- (paste_cmd_text (n, f)). reflexivity.
Qed.

Lemma drop_upload_loop (files : list string) (n : nat)
      (rs cs : list string) :
  DropUpload.upload_loop w files n rs cs
  = ((rs ++ map (remote_at w) (indexed n files))%list,
     (cs ++ map (drop_cmd w) (indexed n files))%list).
Proof.
  revert n rs cs; induction files as [|f files IH]; intros n rs cs.
  - simpl. rewrite !app_nil_r. reflexivity.
  - rewrite indexed_cons. cbn [DropUpload.upload_loop map].
    rewrite IH, <- !app_assoc, rpath_of_remote_at. reflexivity.
Qed.

End Plan.

(** ** Tokens *)

Section Tokens.

Lemma hex_digit_lower (n : Z) : lower_hex (MD5.hex_digit n) = true.
Proof.
  unfold MD5.hex_digit.
  destruct (Z.to_nat (n mod 16)) as [|m]; [reflexivity|].
  do 14 (destruct m as [|m]; [reflexivity|]).
  reflexivity.
Qed.

(** The first eight characters of a digest: the first word, least
    significant byte first, two digits a byte. *)
Lemma uid_of_digits (f : string) (t : Z) :
  exists a : Z,
    uid_of f t
    = MD5.hex_byte (a mod 256) ++ MD5.hex_byte ((a / 256) mod 256)
      ++ MD5.hex_byte ((a / 65536) mod 256)
      ++ MD5.hex_byte ((a / 16777216) mod 256).
Proof.
  unfold uid_of, MD5.hexdigest.
  exists (MD5.sA (MD5.digest_state (MD5.bytes_of_string (f ++ str_of_int t)))).
  generalize (MD5.digest_state (MD5.bytes_of_string (f ++ str_of_int t))).
  intros [a b c d]. cbn [MD5.sA MD5.sB MD5.sC MD5.sD].
  unfold MD5.hex_word at 1. unfold MD5.hex_byte at 1 2 3 4.
  cbn [String.append take]. reflexivity.
Qed.

Lemma uid_of_length (f : string) (t : Z) : String.length (uid_of f t) = 8.
Proof. destruct (uid_of_digits f t) as [a ->]. reflexivity. Qed.

Lemma uid_of_lower_hex (f : string) (t : Z) :
  all_chars lower_hex (uid_of f t) = true.
Proof.
  destruct (uid_of_digits f t) as [a ->].
  unfold MD5.hex_byte. cbn [String.append all_chars].
  rewrite !hex_digit_lower. reflexivity.
Qed.

End Tokens.

(** ** Absolute paths *)

Section Absolute.

Lemma startswith_slash (s : string) :
  startswith s "/" = true -> exists r, s = String "/" r.
Proof.
  destruct s as [|a r]; [discriminate|].
  unfold startswith. cbn [String.prefix].
  destruct (ascii_dec "/" a) as [<-|]; [eauto|discriminate].
Qed.

Lemma startswith_cons_slash (r : string) : startswith (String "/" r) "/" = true.
Proof. unfold startswith. cbn. destruct r; reflexivity. Qed.

Lemma normpath_absolute (p : string) :
  startswith p "/" = true -> startswith (normpath p) "/" = true.
Proof.
  intro H. destruct (startswith_slash p H) as [r ->].
  unfold normpath. rewrite H. cbn [nonempty negb].
  destruct (startswith (String "/" r) "//"
            && negb (startswith (String "/" r) "///")).
  - cbn [String.append nonempty]. apply startswith_cons_slash.
  - cbn [String.append nonempty]. apply startswith_cons_slash.
Qed.

Lemma abspath_absolute (cwd p : string) :
  startswith cwd "/" = true -> startswith (abspath cwd p) "/" = true.
Proof.
  intro H. unfold abspath.
  destruct (startswith p "/") eqn:E; cbn [negb].
  - apply normpath_absolute, E.
  - apply normpath_absolute. unfold path_join. rewrite E.
    destruct (startswith_slash cwd H) as [r ->].
    destruct (negb (nonempty (String "/" r)) || endswith_char (String "/" r) "/");
      apply startswith_cons_slash.
Qed.

Lemma fold_left_Forall {A B : Type} (P : B -> Prop) (f : list B -> A -> list B)
      (l : list A) (acc : list B) :
  (forall acc a, Forall P acc -> Forall P (f acc a)) ->
  Forall P acc -> Forall P (fold_left f l acc).
Proof.
  intro Hf. revert acc; induction l as [|a l IH]; intros acc Ha; simpl; auto.
Qed.

(** Every path [extract_file_paths] gives is absolute, the working
    directory being so. *)
Lemma extract_file_paths_absolute (w : world) (text : string) :
  startswith (getcwd w) "/" = true ->
  Forall (fun f => startswith f "/" = true)
         (SmartPaste.extract_file_paths w text).
Proof.
  intro Hc. unfold SmartPaste.extract_file_paths.
  apply fold_left_Forall; [|constructor].
  intros acc line Ha. unfold SmartPaste.extract_line.
  match goal with
  | |- Forall _ (if ?c then _ else _) => destruct c
  end; [|exact Ha].
  apply Forall_app; split; [exact Ha|].
  constructor; [|constructor]. apply abspath_absolute, Hc.
Qed.

Lemma before_slash (c : ascii) (r : string) :
  Ascii.eqb "/" c = false ->
  exists r', Url.before c (String "/" r) = String "/" r'.
Proof.
  intro H. unfold Url.before. cbn [Url.cut_at]. rewrite H.
  destruct (Url.cut_at c r) as [[l r']|]; eauto.
Qed.

Lemma before_same (c : ascii) (r : string) : Url.before c (String c r) = "".
Proof.
  unfold Url.before. cbn [Url.cut_at]. rewrite Ascii.eqb_refl. reflexivity.
Qed.

Lemma before_other (c a : ascii) (r : string) :
  Ascii.eqb a c = false ->
  exists r', Url.before c (String a r) = String a r'.
Proof.
  intro H. unfold Url.before. cbn [Url.cut_at]. rewrite H.
  destruct (Url.cut_at c r) as [[l r']|]; eauto.
Qed.

(** What follows the authority is empty or begins with a delimiter. *)
Lemma splitnetloc_rest (s : string) :
  snd (Url.splitnetloc s) = ""
  \/ exists a r, snd (Url.splitnetloc s) = String a r
                 /\ (a = "/" \/ a = "?" \/ a = "#")%char.
Proof.
  induction s as [|a s IH]; [left; reflexivity|].
  cbn [Url.splitnetloc].
  destruct (in_words (str1 a) ["/"; "?"; "#"]) eqn:E.
  - right. exists a, s. split; [reflexivity|].
    unfold in_words, str1 in E. cbn [existsb] in E.
    repeat (apply orb_true_iff in E as [E|E]);
      try discriminate;
      first [apply Ascii.eqb_eq in E; subst a
            |apply String.eqb_eq in E; injection E as ->]; auto.
  - destruct (Url.splitnetloc s) as [n rest]. exact IH.
Qed.

(** The path of a parsed file URI is empty or begins with a slash. *)
Lemma path_after_authority (rest : string) :
  (rest = ""
   \/ exists a r, rest = String a r /\ (a = "/" \/ a = "?" \/ a = "#")%char) ->
  Url.before "?" (Url.before "#" rest) = ""
  \/ exists r', Url.before "?" (Url.before "#" rest) = String "/" r'.
Proof.
  intros [->|(a & r & -> & [->|[->| ->]])].
  - left. reflexivity.
  - right. destruct (before_slash "#" r eq_refl) as [r1 ->].
    apply (before_slash "?" r1 eq_refl).
  - left. destruct (before_other "#" "?" r eq_refl) as [r1 ->].
    apply before_same.
  - left. rewrite before_same. reflexivity.
Qed.

End Absolute.

Section FileUri.

Lemma prefix_cons (a c : ascii) (p s : string) :
  String.prefix (String a p) (String c s) = true ->
  c = a /\ String.prefix p s = true.
Proof.
  cbn [String.prefix]. destruct (ascii_dec a c) as [->|]; [auto|discriminate].
Qed.

Lemma startswith_file_uri (url : string) :
  startswith url "file://" = true -> exists r, url = "file://" ++ r.
Proof.
  unfold startswith. intro H.
  do 7 (destruct url as [|? url]; [discriminate H|];
        apply prefix_cons in H as [-> H]).
  exists url. reflexivity.
Qed.

(** [urlparse] on a file URI: the scheme is [file], the authority runs
    to the first delimiter, the path stops at the first [?] or [#]. *)
Lemma urlparse_file_uri (rejected : string -> bool) (r : string) :
  Url.urlparse rejected ("file://" ++ r)
  = let nl := fst (Url.splitnetloc (Url.remove_unsafe r)) in
    let rest := snd (Url.splitnetloc (Url.remove_unsafe r)) in
    let lb := has_char "[" nl in
    let rb := has_char "]" nl in
    if (lb && negb rb) || (rb && negb lb) || (lb && rb && rejected nl)
    then Raise
    else if nonempty nl && negb (all_chars is_ascii nl) && rejected nl
         then Raise
         else Ok (mkParsed "file" nl (Url.before "?" (Url.before "#" rest))).
Proof.
  unfold Url.urlparse.
  change (Url.remove_unsafe (Url.lstrip_c0 ("file://" ++ r)))
    with ("file://" ++ Url.remove_unsafe r).
  change (Url.cut_at ":" ("file://" ++ Url.remove_unsafe r))
    with (Some ("file", "//" ++ Url.remove_unsafe r)).
  cbv iota beta.
  change (is_ascii "f" && Url.alpha "f" && all_chars Url.scheme_char "file")
    with true.
  cbv iota.
  replace (startswith ("//" ++ Url.remove_unsafe r) "//") with true
    by (unfold startswith; cbn; destruct (Url.remove_unsafe r); reflexivity).
  cbv iota.
  change (drop 2 ("//" ++ Url.remove_unsafe r)) with (Url.remove_unsafe r).
  destruct (Url.splitnetloc (Url.remove_unsafe r)) as [nl rest].
  cbn [fst snd]. cbv zeta.
  destruct ((has_char "[" nl && negb (has_char "]" nl))
            || (has_char "]" nl && negb (has_char "[" nl))
            || (has_char "[" nl && has_char "]" nl && rejected nl));
    reflexivity.
Qed.

Lemma parsed_file_uri (rejected : string -> bool) (url : string)
      (p : parsed) :
  startswith url "file://" = true ->
  Url.urlparse rejected url = Ok p ->
  scheme p = "file"
  /\ (path p = "" \/ exists r, path p = String "/" r).
Proof.
  intros Hs Hp. destruct (startswith_file_uri url Hs) as [r ->].
  rewrite urlparse_file_uri in Hp. cbv zeta in Hp.
  pose proof (path_after_authority
                (snd (Url.splitnetloc (Url.remove_unsafe r)))
                (splitnetloc_rest (Url.remove_unsafe r))) as K.
  repeat match type of Hp with
         | (if ?c then _ else _) = _ => destruct c; [discriminate Hp|]
         end.
  injection Hp as <-. cbn [scheme path]. split; [reflexivity|exact K].
Qed.

Lemma concat_head (x : string) (l : list string) :
  exists t, String.concat "" (x :: l) = x ++ t.
Proof.
  destruct l as [|y l]; cbn [String.concat].
  - exists "". symmetry. apply append_nil_r.
  - eauto.
Qed.

Lemma decode_slash (x : string) :
  utf8_replace (unquote_to_bytes (String "/" x))
  = String "/" (utf8_replace (unquote_to_bytes x)).
Proof.
  cbn [unquote_to_bytes]. change (Ascii.eqb "/" "%") with false. cbv iota.
  cbn [utf8_replace]. change (code "/" <? 128)%nat with true. reflexivity.
Qed.

(** Decoding keeps a leading slash. *)
Lemma unquote_slash (r : string) :
  exists r', unquote (String "/" r) = String "/" r'.
Proof.
  unfold unquote.
  destruct (negb (has_char "%" (String "/" r))); [eauto|].
  cbn [ascii_runs]. change (is_ascii "/") with true.
  destruct (ascii_runs r) as [|[k w] rest].
  - cbn [map fst snd String.concat]. unfold str1. rewrite decode_slash. eauto.
  - destruct k; cbn [Bool.eqb map fst snd].
    + destruct (concat_head
                  (utf8_replace (unquote_to_bytes (String "/" w)))
                  (map (fun kr : bool * string =>
                          if fst kr then utf8_replace (unquote_to_bytes (snd kr))
                          else snd kr) rest)) as [t ->].
      rewrite decode_slash. cbn [String.append]. eauto.
    + destruct (concat_head
                  (utf8_replace (unquote_to_bytes (str1 "/")))
                  (w :: map (fun kr : bool * string =>
                          if fst kr then utf8_replace (unquote_to_bytes (snd kr))
                          else snd kr) rest)) as [t ->].
      unfold str1. rewrite decode_slash. cbn [String.append]. eauto.
Qed.

(** The watcher keeps absolute paths only. *)
Lemma url_to_local_path_absolute (w : world) (url p : string) :
  DropUpload.url_to_local_path w url = Ok (Some p) ->
  p = "" \/ startswith p "/" = true.
Proof.
  unfold DropUpload.url_to_local_path.
  destruct (startswith url "file://") eqn:Ef.
  - destruct (Url.urlparse (netloc_rejected w) url) as [q|] eqn:Eq;
      [|discriminate].
    destruct (parsed_file_uri _ url q Ef Eq) as [_ Hq].
    destruct (nonempty (netloc q) && negb (String.eqb (netloc q) "localhost"));
      [discriminate|].
    intro H. injection H as <-.
    destruct Hq as [-> | [r ->]].
    + left. reflexivity.
    + right. destruct (unquote_slash r) as [r' ->].
      apply startswith_cons_slash.
  - destruct (startswith url "/") eqn:Es; [|discriminate].
    intro H. injection H as <-. right. exact Es.
Qed.

Lemma local_files_loop_absolute (w : world) (urls acc fs : list string) :
  Forall (fun f => startswith f "/" = true) acc ->
  DropUpload.local_files_loop w urls acc = Ok fs ->
  Forall (fun f => startswith f "/" = true) fs.
Proof.
  revert acc; induction urls as [|url urls IH]; intros acc Ha; simpl.
  - intro H. injection H as <-. exact Ha.
  - destruct (DropUpload.url_to_local_path w url) as [[p|]|] eqn:E;
      [| apply IH, Ha | discriminate].
    destruct (nonempty p && path_exists w p) eqn:Ep; [|apply IH, Ha].
    apply IH. apply Forall_app; split; [exact Ha|].
    constructor; [|constructor].
    destruct (url_to_local_path_absolute w url p E) as [->|H]; [|exact H].
    discriminate Ep.
Qed.

Lemma drop_files_absolute (w : world) (d : drop_data) (fs : list string) :
  drop_files w d = Ok fs -> Forall (fun f => startswith f "/" = true) fs.
Proof. apply local_files_loop_absolute. constructor. Qed.

End FileUri.

(** ** The handlers *)

Section Handlers.

Variable w : world.

Lemma extract_nothing_of_empty : SmartPaste.extract_file_paths w "" = [].
Proof. reflexivity. Qed.

Lemma nonempty_false (s : string) : nonempty s = false -> s = "".
Proof. destruct s; [reflexivity|discriminate]. Qed.

(** [handle_result] once the window is found, by cases on the files
    and the session. *)
Lemma handle_result_cases (tid : Z) (b : boss) (win : window) :
  window_id_map b tid = Some win ->
  SmartPaste.handle_result w tid b
  = if negb (nonempty (clipboard_text w b)) then []
    else match SmartPaste.extract_file_paths w (clipboard_text w b) with
         | [] => [PasteText (clipboard_text w b)]
         | f :: fs =>
             ForegroundProcessesRead ::
             if negb (is_ssh (is_ssh_window win))
             then [PasteText (clipboard_text w b)]
             else if is_kitten_ssh (is_ssh_window win)
             then [PasteText (SmartPaste.full_cmd w (f :: fs))]
             else
               [PasteText (join " " (map (fun x => "'" ++ x ++ "'") (f :: fs)));
                PasteText
                  (("  # Local path(s) - upload with: scp " ++ f ++ " "
                    ++ SmartPaste.host_or (host (is_ssh_window win)) "host"
                    ++ ":/tmp/") ++ nl)]
         end.
Proof.
  intro Hw. unfold SmartPaste.handle_result. rewrite Hw.
  fold (clipboard_text w b). cbv zeta.
  destruct (negb (nonempty (clipboard_text w b))); [reflexivity|].
  destruct (SmartPaste.extract_file_paths w (clipboard_text w b));
    reflexivity.
Qed.

Lemma files_need_text (b : boss) (f : string) (fs : list string) :
  SmartPaste.extract_file_paths w (clipboard_text w b) = f :: fs ->
  nonempty (clipboard_text w b) = true.
Proof.
  intro H. destruct (clipboard_text w b); [|reflexivity].
  rewrite extract_nothing_of_empty in H. discriminate.
Qed.

Lemma paste_full_cmd_text (files : list string) :
  SmartPaste.full_cmd w files
  = "mkdir -p /tmp/uploads"
    ++ cat (map (fun kf => " && " ++ paste_cmd w kf) (indexed 0 files))
    ++ " && echo 'Uploaded: "
    ++ join " " (map (fun r => "'" ++ r ++ "'") (planned_remotes w files))
    ++ "'" ++ nl.
Proof.
  unfold SmartPaste.full_cmd. rewrite paste_upload_loop. cbn [app].
  rewrite fold_append, map_map, !append_assoc. reflexivity.
Qed.

Lemma drop_full_cmd_text (files : list string) :
  DropUpload.full_cmd w files
  = "mkdir -p /tmp/uploads"
    ++ cat (map (fun kf => " && " ++ drop_cmd w kf) (indexed 0 files))
    ++ " && echo '" ++ DropUpload.echo_mark ++ " Uploaded: "
    ++ join " " (map shlex_quote (planned_remotes w files))
    ++ "'" ++ nl.
Proof.
  unfold DropUpload.full_cmd. rewrite drop_upload_loop. cbn [app].
  rewrite fold_append, map_map, !append_assoc. reflexivity.
Qed.

Lemma nth_error_indexed (files : list string) (n k : nat) (f : string) :
  nth_error files k = Some f ->
  nth_error (indexed n files) k = Some (n + k, f).
Proof.
  revert n k; induction files as [|g files IH]; intros n [|k] H;
    try discriminate.
  - injection H as ->. rewrite Nat.add_0_r. reflexivity.
  - rewrite indexed_cons. cbn [nth_error] in *.
    rewrite (IH (S n) k H). f_equal. f_equal. lia.
Qed.

Lemma indexed_length (files : list string) (n : nat) :
  List.length (indexed n files) = List.length files.
Proof.
  unfold indexed. rewrite length_combine, length_seq. apply Nat.min_id.
Qed.

(** Equal destinations have equal tokens and equal base names. *)
Lemma remote_at_inj (kf kg : nat * string) :
  remote_at w kf = remote_at w kg <->
  token_at w kf = token_at w kg /\ basename (snd kf) = basename (snd kg).
Proof.
  unfold remote_at. split.
  - intro H. apply append_inv_head in H.
    apply append_inj in H.
    + destruct H as [Ht Hb]. split; [exact Ht|].
      apply (append_inv_head "_"), Hb.
    + unfold token_at. rewrite !uid_of_length. reflexivity.
  - intros [-> ->]. reflexivity.
Qed.

Lemma NoDup_map_finer {A : Type} (f g : A -> string) (l : list A) :
  (forall x y, g x = g y -> f x = f y) ->
  NoDup (map f l) -> NoDup (map g l).
Proof.
  intros Hfg. induction l as [|a l IH]; simpl; intro H; [constructor|].
  inversion H as [|? ? Hn Hd]; subst. constructor; [|auto].
  intro Hin. apply Hn. apply in_map_iff in Hin as (y & Hy & Hl).
  apply in_map_iff. exists y. split; [apply Hfg, Hy|exact Hl].
Qed.

Lemma is_kitten_needs_ssh_drop (args : list string) (i : info) :
  is_ssh (kitten_host_drop args i) = is_ssh i
  /\ is_kitten_ssh (kitten_host_drop args i) = is_kitten_ssh i.
Proof.
  induction args as [|a args IH]; simpl; [auto|].
  destruct (dash a); simpl; auto.
  destruct (has_char "@" a || has_char "." a); simpl; auto.
Qed.

End Handlers.

(** ** Line feeds *)

Section Lines.

Lemma has_char_app (c : ascii) (s t : string) :
  has_char c (s ++ t) = has_char c s || has_char c t.
Proof.
  induction s as [|a s IH]; simpl; [reflexivity|].
  rewrite IH. apply orb_assoc.
Qed.

Lemma lf_free_app (s t : string) :
  lf_free (s ++ t) = lf_free s && lf_free t.
Proof. unfold lf_free. rewrite has_char_app. apply negb_orb. Qed.

Lemma lf_free_escape_quotes (s : string) :
  lf_free (escape_quotes s) = lf_free s.
Proof.
  unfold lf_free, escape_quotes. f_equal.
  induction s as [|a s IH]; [reflexivity|].
  cbn [replace_char has_char]. destruct (Ascii.eqb a "'") eqn:E.
  - apply Ascii.eqb_eq in E. subst a. rewrite has_char_app, IH. reflexivity.
  - cbn [has_char]. rewrite IH. reflexivity.
Qed.

Lemma lf_free_single_quoted (s : string) :
  lf_free (single_quoted s) = lf_free s.
Proof.
  unfold single_quoted. rewrite !lf_free_app, lf_free_escape_quotes.
  change (lf_free "'") with true. cbn [andb]. apply andb_true_r.
Qed.

Lemma lf_free_shlex_quote (s : string) :
  lf_free (shlex_quote s) = lf_free s.
Proof.
  unfold shlex_quote. destruct s as [|a s]; [reflexivity|].
  cbn [nonempty negb].
  destruct (all_chars shell_safe (String a s)); [reflexivity|].
  apply lf_free_single_quoted.
Qed.

Lemma lf_free_wrapped (s : string) : lf_free ("'" ++ s ++ "'") = lf_free s.
Proof.
  rewrite !lf_free_app. change (lf_free "'") with true.
  cbn [andb]. apply andb_true_r.
Qed.

Lemma lf_free_basename (p : string) :
  lf_free p = true -> lf_free (basename p) = true.
Proof.
  unfold lf_free. induction p as [|a p IH]; [reflexivity|].
  cbn [basename has_char]. intro H.
  apply negb_true_iff, orb_false_iff in H as [Ha Hp].
  destruct (has_char "/" p); [apply IH; rewrite Hp; reflexivity|].
  destruct (Ascii.eqb a "/").
  - rewrite Hp. reflexivity.
  - cbn [has_char]. rewrite Ha, Hp. reflexivity.
Qed.

Lemma lower_hex_lf_free (s : string) :
  all_chars lower_hex s = true -> lf_free s = true.
Proof.
  unfold lf_free. induction s as [|a s IH]; [reflexivity|].
  cbn [all_chars has_char]. intro H.
  apply andb_true_iff in H as [Ha Hs].
  apply negb_true_iff, orb_false_iff. split.
  - destruct (Ascii.eqb a (ch 10)) eqn:E; [|reflexivity].
    apply Ascii.eqb_eq in E. subst a. discriminate Ha.
  - apply negb_true_iff, IH, Hs.
Qed.

Lemma lf_free_remote_at (w : world) (kf : nat * string) :
  lf_free (snd kf) = true -> lf_free (remote_at w kf) = true.
Proof.
  intro H. unfold remote_at, token_at. rewrite !lf_free_app.
  rewrite (lower_hex_lf_free _ (uid_of_lower_hex _ _)).
  rewrite (lf_free_basename _ H). reflexivity.
Qed.

Lemma lf_free_cat (parts : list string) :
  Forall (fun p => lf_free p = true) parts -> lf_free (cat parts) = true.
Proof.
  induction 1 as [|p parts Hp _ IH]; [reflexivity|].
  cbn [cat fold_right]. rewrite lf_free_app, Hp. exact IH.
Qed.

Lemma lf_free_join (parts : list string) :
  Forall (fun p => lf_free p = true) parts -> lf_free (join " " parts) = true.
Proof.
  induction 1 as [|p parts Hp Hr IH]; [reflexivity|].
  destruct parts as [|q parts]; [exact Hp|].
  change (join " " (p :: q :: parts)) with (p ++ " " ++ join " " (q :: parts)).
  rewrite !lf_free_app, Hp, IH. reflexivity.
Qed.

Lemma Forall_indexed (files : list string) (n : nat) :
  Forall (fun f => lf_free f = true) files ->
  Forall (fun kf => lf_free (snd kf) = true) (indexed n files).
Proof.
  intro H. revert n. induction H as [|f files Hf _ IH]; intro n.
  - constructor.
  - rewrite indexed_cons. constructor; [exact Hf|apply IH].
Qed.

Lemma Forall_map_lf {A : Type} (g : A -> string) (P : A -> Prop)
      (l : list A) :
  (forall x, P x -> lf_free (g x) = true) ->
  Forall P l -> Forall (fun s => lf_free s = true) (map g l).
Proof.
  intros Hg H. induction H; simpl; constructor; auto.
Qed.

(** The pasted command is one line when no path holds a line feed. *)
Lemma paste_full_cmd_one_line (w : world) (files : list string) :
  Forall (fun f => lf_free f = true) files ->
  one_line (SmartPaste.full_cmd w files).
Proof.
  intro H. pose proof (Forall_indexed files 0 H) as Hi.
  rewrite paste_full_cmd_text.
  eexists. split.
  - rewrite <- !append_assoc. reflexivity.
  - rewrite !lf_free_app.
    rewrite lf_free_cat, lf_free_join; [reflexivity| |].
    + unfold planned_remotes. rewrite map_map.
      apply (Forall_map_lf _ _ _ (fun kf Hk => eq_trans
               (lf_free_wrapped _) (lf_free_remote_at w kf Hk)) Hi).
    + refine (Forall_map_lf _ _ _ _ Hi). intros kf Hk.
      unfold paste_cmd. rewrite !lf_free_app, !lf_free_single_quoted.
      rewrite Hk, (lf_free_remote_at w kf Hk). reflexivity.
Qed.

Lemma drop_full_cmd_one_line (w : world) (files : list string) :
  Forall (fun f => lf_free f = true) files ->
  one_line (DropUpload.full_cmd w files).
Proof.
  intro H. pose proof (Forall_indexed files 0 H) as Hi.
  rewrite drop_full_cmd_text.
  eexists. split.
  - rewrite <- !append_assoc. reflexivity.
  - rewrite !lf_free_app.
    rewrite lf_free_cat, lf_free_join; [reflexivity| |].
    + unfold planned_remotes. rewrite map_map.
      apply (Forall_map_lf _ _ _ (fun kf Hk => eq_trans
               (lf_free_shlex_quote _) (lf_free_remote_at w kf Hk)) Hi).
    + refine (Forall_map_lf _ _ _ _ Hi). intros kf Hk.
      unfold drop_cmd. rewrite !lf_free_app, !lf_free_shlex_quote.
      rewrite Hk, (lf_free_remote_at w kf Hk). reflexivity.
Qed.

End Lines.

(** ** The upload plan: claims *)

Section PlanClaims.

(** C3. The k-th file [f] of a plan gets the destination
    [/tmp/uploads/<token>_<base name of f>] in both files, where the
    token is the first 8 characters of the MD5 hex digest of [f]
    followed by the decimal text of the clock reading taken for it,
    and is 8 lower-case hexadecimal digits.  The paths planned are
    absolute: those of [extract_file_paths] when the working directory
    is, those the watcher keeps always. *)
Theorem C3_remote_destination (w : world) (files : list string)
        (k : nat) (f : string) :
  nth_error files k = Some f ->
  let token := take 8 (MD5.hexdigest (f ++ str_of_int (time_ns w k))) in
  let remote := "/tmp/uploads/" ++ token ++ "_" ++ basename f in
  nth_error (fst (SmartPaste.upload_loop w files 0 [] [])) k = Some remote
  /\ nth_error (fst (DropUpload.upload_loop w files 0 [] [])) k = Some remote
  /\ String.length token = 8
  /\ all_chars lower_hex token = true
  /\ List.length (fst (SmartPaste.upload_loop w files 0 [] []))
     = List.length files
  /\ List.length (fst (DropUpload.upload_loop w files 0 [] []))
     = List.length files
  /\ (absolute (getcwd w) ->
      forall text, Forall absolute (SmartPaste.extract_file_paths w text))
  /\ (forall d fs, drop_files w d = Ok fs -> Forall absolute fs).
Proof.
  intros H token remote.
  rewrite paste_upload_loop, drop_upload_loop. cbn [fst app].
  assert (Hk : nth_error (map (remote_at w) (indexed 0 files)) k
               = Some remote).
  { rewrite nth_error_map, (nth_error_indexed files 0 k f H). reflexivity. }
  split; [exact Hk|]. split; [exact Hk|].
  split; [apply uid_of_length|]. split; [apply uid_of_lower_hex|].
  rewrite length_map.
  split; [apply indexed_length|]. split; [apply indexed_length|].
  split.
  - intros Hc text. apply extract_file_paths_absolute, Hc.
  - intros d fs. apply drop_files_absolute.
Qed.

(** The photo of the scenario, pasted as a file URI into a wrapper
    session. *)
Lemma C3_remote_destination_witness :
  nth_error (SmartPaste.extract_file_paths photo_world
               "file:///Users/me/photo.png") 0
  = Some "/Users/me/photo.png"
  /\ nth_error (fst (SmartPaste.upload_loop photo_world
                       (SmartPaste.extract_file_paths photo_world
                          "file:///Users/me/photo.png") 0 [] [])) 0
     = Some ("/tmp/uploads/"
             ++ take 8 (MD5.hexdigest
                          ("/Users/me/photo.png"
                           ++ str_of_int (time_ns photo_world 0)))
             ++ "_" ++ basename "/Users/me/photo.png").
Proof.
  split; [reflexivity|].
  apply (C3_remote_destination photo_world
           (SmartPaste.extract_file_paths photo_world
              "file:///Users/me/photo.png") 0 "/Users/me/photo.png").
  reflexivity.
Defined.

(** C1, as amended.  Two destinations of a plan are equal exactly when
    their tokens and their base names are; so a plan whose tokens are
    pairwise distinct has pairwise distinct destinations, whatever the
    base names and even for a path given twice. *)
Theorem C1_distinct_tokens_distinct_remotes (w : world)
        (files : list string) :
  NoDup (planned_tokens w files) ->
  NoDup (fst (SmartPaste.upload_loop w files 0 [] []))
  /\ NoDup (fst (DropUpload.upload_loop w files 0 [] []))
  /\ (forall kf kg,
         remote_at w kf = remote_at w kg <->
         token_at w kf = token_at w kg
         /\ basename (snd kf) = basename (snd kg)).
Proof.
  intro H. rewrite paste_upload_loop, drop_upload_loop. cbn [fst app].
  assert (K : NoDup (map (remote_at w) (indexed 0 files))).
  { apply (NoDup_map_finer (token_at w)); [|exact H].
    intros x y Hxy. apply (remote_at_inj w x y), Hxy. }
  repeat split; auto; apply (remote_at_inj w kf kg); auto.
Qed.

(** One path pasted twice while the clock ticks: two tokens, two
    destinations. *)
Lemma C1_distinct_tokens_distinct_remotes_witness :
  NoDup (planned_tokens twice_world ["/tmp/a.txt"; "/tmp/a.txt"])
  /\ NoDup (fst (SmartPaste.upload_loop twice_world
                   ["/tmp/a.txt"; "/tmp/a.txt"] 0 [] [])).
Proof.
  assert (H : NoDup (planned_tokens twice_world ["/tmp/a.txt"; "/tmp/a.txt"])).
  { vm_compute. constructor.
    - intros [E|[]]. discriminate E.
    - constructor; [intros []|constructor]. }
  split; [exact H|].
  apply (C1_distinct_tokens_distinct_remotes twice_world
           ["/tmp/a.txt"; "/tmp/a.txt"] H).
Defined.

(** C1, as stated, fails: two distinct paths with one base name,
    planned at two increasing clock readings, get one destination; so
    does one path pasted twice within one reading of the clock. *)
Lemma C1_remote_paths_collide :
  nth 0 collision_files "" <> nth 1 collision_files ""
  /\ basename (nth 0 collision_files "") = basename (nth 1 collision_files "")
  /\ (time_ns collision_world 0 < time_ns collision_world 1)%Z
  /\ SmartPaste.extract_file_paths collision_world
       (get_clipboard collision_world) = collision_files
  /\ fst (SmartPaste.upload_loop collision_world collision_files 0 [] [])
     = ["/tmp/uploads/fc77774d_report.txt"; "/tmp/uploads/fc77774d_report.txt"]
  /\ ~ NoDup (fst (SmartPaste.upload_loop collision_world collision_files
                     0 [] []))
  /\ ~ NoDup (fst (DropUpload.upload_loop collision_world collision_files
                     0 [] []))
  /\ SmartPaste.extract_file_paths frozen_world
       (get_clipboard frozen_world) = ["/tmp/a.txt"; "/tmp/a.txt"]
  /\ ~ NoDup (fst (SmartPaste.upload_loop frozen_world
                     ["/tmp/a.txt"; "/tmp/a.txt"] 0 [] [])).
Proof.
  split; [discriminate|]. split; [reflexivity|]. split; [reflexivity|].
  split; [vm_compute; reflexivity|]. split; [vm_compute; reflexivity|].
  split; [|split; [|split; [vm_compute; reflexivity|]]];
    intro H; vm_compute in H; inversion H as [|? ? Hn _];
    apply Hn; left; reflexivity.
Qed.

End PlanClaims.

(** ** Passthrough and the plain remote shell *)

Section Dispatch.

Lemma drop_files_of_empty (w : world) (d : drop_data) :
  drop_get d "text/uri-list" = "" -> drop_files w d = Ok [].
Proof. unfold drop_files. intros ->. reflexivity. Qed.

(** [smart_on_drop] by cases on the payload, the files and the
    session. *)
Lemma smart_on_drop_cases (w : world) (self : window) (d : drop_data) :
  DropUpload.smart_on_drop w self d
  = match drop_files w d with
    | Raise => ([], Raised)
    | Ok [] => ([OriginalOnDrop d], Returned)
    | Ok (f :: fs) =>
        if negb (is_ssh (check_ssh_session self))
        then ([ForegroundProcessesRead; OriginalOnDrop d], Returned)
        else (ForegroundProcessesRead
                :: fst (DropUpload.handle_ssh_upload w (f :: fs)
                          (check_ssh_session self)),
              snd (DropUpload.handle_ssh_upload w (f :: fs)
                     (check_ssh_session self)))
    end.
Proof.
  unfold DropUpload.smart_on_drop.
  destruct (nonempty (drop_get d "text/uri-list")) eqn:E; cbn [negb].
  - fold (drop_files w d).
    destruct (drop_files w d) as [[|f fs]|]; try reflexivity.
    destruct (negb (is_ssh (check_ssh_session self))); [reflexivity|].
    destruct (DropUpload.handle_ssh_upload w (f :: fs)
                (check_ssh_session self)); reflexivity.
  - apply nonempty_false in E.
    rewrite (drop_files_of_empty w d E). reflexivity.
Qed.

(** When the extraction returns no file, the paste handler pastes the
    clipboard text as it is and never reads the process list, and the
    watcher hands the drop to the original handler without reading it
    either; with files in a local session both do the same after the
    read. *)
Lemma passthrough_cases (w : world) :
  (forall tid b win,
      window_id_map b tid = Some win ->
      SmartPaste.extract_file_paths w (clipboard_text w b) = [] ->
      pasted (SmartPaste.handle_result w tid b) = clipboard_text w b
      /\ classified (SmartPaste.handle_result w tid b) = false
      /\ (clipboard_text w b <> "" ->
          SmartPaste.handle_result w tid b
          = [PasteText (clipboard_text w b)]))
  /\ (forall tid b win,
         window_id_map b tid = Some win ->
         SmartPaste.extract_file_paths w (clipboard_text w b) <> [] ->
         is_ssh (is_ssh_window win) = false ->
         SmartPaste.handle_result w tid b
         = [ForegroundProcessesRead; PasteText (clipboard_text w b)])
  /\ (forall self d,
         drop_files w d = Ok [] ->
         DropUpload.smart_on_drop w self d = ([OriginalOnDrop d], Returned))
  /\ (forall self d,
         (exists f fs, drop_files w d = Ok (f :: fs)) ->
         is_ssh (check_ssh_session self) = false ->
         DropUpload.smart_on_drop w self d
         = ([ForegroundProcessesRead; OriginalOnDrop d], Returned)).
Proof.
  split; [|split; [|split]].
  - intros tid b win Hw Hf.
    rewrite (handle_result_cases w tid b win Hw), Hf.
    destruct (clipboard_text w b) as [|a s]; cbn.
    + repeat split. intro H; contradiction.
    + rewrite append_nil_r. repeat split.
  - intros tid b win Hw Hf Hs.
    rewrite (handle_result_cases w tid b win Hw).
    destruct (SmartPaste.extract_file_paths w (clipboard_text w b))
      as [|f fs] eqn:E; [contradiction|].
    rewrite (files_need_text w b f fs E), Hs. reflexivity.
  - intros self d H. rewrite smart_on_drop_cases, H. reflexivity.
  - intros self d (f & fs & H) Hs.
    rewrite smart_on_drop_cases, H, Hs. reflexivity.
Qed.

(** Plain text on the clipboard, in a wrapper session. *)
Lemma passthrough_of_plain_text :
  window_id_map (boss_of kitten_window) 1%Z = Some kitten_window
  /\ SmartPaste.extract_file_paths text_world
       (clipboard_text text_world (boss_of kitten_window)) = []
  /\ pasted (SmartPaste.handle_result text_world 1 (boss_of kitten_window))
     = "echo hello".
Proof.
  split; [reflexivity|].
  assert (K : SmartPaste.extract_file_paths text_world
                (clipboard_text text_world (boss_of kitten_window)) = []).
  { vm_compute. reflexivity. }
  split; [exact K|].
  apply (proj1 (passthrough_cases text_world) 1%Z (boss_of kitten_window)
               kitten_window eq_refl K).
Qed.

(** C6. A drop from which nothing is extracted must reach the original
    handler unchanged.  On the URI [file://[x/a] the conversion raises
    inside the watcher: nothing is extracted, nothing is pasted, the
    original handler is not called and the exception leaves
    [smart_on_drop], in every world and window.  The paste handler, on
    the same text, extracts nothing and pastes the text as it is
    without reading the process list. *)
Theorem C6_drop_lost_on_unparsable_uri :
  (forall (w : world) (self : window),
      drop_files w (uri_drop "file://[x/a") = Raise
      /\ DropUpload.smart_on_drop w self (uri_drop "file://[x/a")
         = ([], Raised))
  /\ SmartPaste.extract_file_paths bad_uri_world "file://[x/a" = []
  /\ SmartPaste.handle_result bad_uri_world 1 (boss_of kitten_window)
     = [PasteText "file://[x/a"].
Proof.
  split; [|split; vm_compute; reflexivity].
  intros w self. split; vm_compute; reflexivity.
Qed.

End Dispatch.

(** ** File URIs and the hint of the plain remote shell *)

Section Divergences.

(** The watcher on a file URI that parses: a named authority other
    than [localhost] gives [None], otherwise the decoded path. *)
Lemma url_to_local_path_file (w : world) (url : string) (p : parsed) :
  startswith url "file://" = true ->
  Url.urlparse (netloc_rejected w) url = Ok p ->
  DropUpload.url_to_local_path w url
  = if nonempty (netloc p) && negb (String.eqb (netloc p) "localhost")
    then Ok None
    else Ok (Some (unquote (path p))).
Proof.
  intros Hs Hp. unfold DropUpload.url_to_local_path. rewrite Hs, Hp.
  reflexivity.
Qed.

(** The watcher on a drop of a plain remote shell: the quoted paths,
    then the hint with the first file, the host or [HOST], and the
    upload directory. *)
Lemma handle_ssh_upload_plain (w : world) (f : string) (fs : list string)
      (ssh_info : info) :
  is_kitten_ssh ssh_info = false ->
  DropUpload.handle_ssh_upload w (f :: fs) ssh_info
  = ([PasteText (join " " (map shlex_quote (f :: fs)));
      PasteText ("  # " ++ DropUpload.hint_mark ++ "  Local paths - use: scp "
                 ++ shlex_quote f ++ " "
                 ++ DropUpload.host_or (host ssh_info) "HOST"
                 ++ ":/tmp/uploads/" ++ nl)],
     Returned).
Proof.
  intro H. unfold DropUpload.handle_ssh_upload. rewrite H. reflexivity.
Qed.

(** C5. On [file://localhost/tmp/a.txt], with [/tmp/a.txt] present,
    the watcher gives [/tmp/a.txt] and the paste handler gives
    nothing: it reads [localhost/tmp/a.txt] as a relative path.  On
    [file://build/out.txt], in a directory holding [build/out.txt],
    the watcher rejects the URI and the paste handler takes the file
    of the working directory. *)
Theorem C5_paste_reads_authority_as_path :
  path_exists localhost_world "/tmp/a.txt" = true
  /\ DropUpload.url_to_local_path localhost_world "file://localhost/tmp/a.txt"
     = Ok (Some "/tmp/a.txt")
  /\ SmartPaste.extract_file_paths localhost_world "file://localhost/tmp/a.txt"
     = []
  /\ DropUpload.url_to_local_path build_world "file://build/out.txt" = Ok None
  /\ SmartPaste.extract_file_paths build_world "file://build/out.txt"
     = ["/home/me/build/out.txt"]
  /\ DropUpload.url_to_local_path localhost_world "file:///tmp/my%20a.txt"
     = Ok (Some "/tmp/my a.txt").
Proof. repeat split; vm_compute; reflexivity. Qed.

(** C9. In a plain remote shell the watcher pastes the paths quoted
    for the shell and a hint that names [/tmp/uploads/]; the paste
    handler wraps each path in single quotes as it is, so that the
    shell does not read [/tmp/it's] back, and its hint names [/tmp/]
    and not the upload directory. *)
Theorem C9_paste_hint_diverges :
  SmartPaste.extract_file_paths quote_world (get_clipboard quote_world)
  = ["/tmp/it's"; "/tmp/a.txt"]
  /\ plain_remote (is_ssh_window ssh_window)
  /\ SmartPaste.handle_result quote_world 1 (boss_of ssh_window)
     = [ForegroundProcessesRead;
        PasteText "'/tmp/it's' '/tmp/a.txt'";
        PasteText ("  # Local path(s) - upload with: scp /tmp/it's user@box:/tmp/"
                   ++ nl)]
  /\ has_substring upload_dir
       ("  # Local path(s) - upload with: scp /tmp/it's user@box:/tmp/" ++ nl)
     = false
  /\ Sh.read "'/tmp/it's'" = None
  /\ DropUpload.handle_ssh_upload quote_world ["/tmp/it's"; "/tmp/a.txt"]
       (check_ssh_session ssh_window)
     = ([PasteText (shlex_quote "/tmp/it's" ++ " /tmp/a.txt");
         PasteText ("  # " ++ DropUpload.hint_mark
                    ++ "  Local paths - use: scp " ++ shlex_quote "/tmp/it's"
                    ++ " user@box:/tmp/uploads/" ++ nl)],
        Returned)
  /\ Sh.read (shlex_quote "/tmp/it's") = Some "/tmp/it's".
Proof. repeat split; vm_compute; reflexivity. Qed.

End Divergences.

(** * Further properties *)

(** ** The classifiers *)

Section MoreClassifier.

Lemma find_first {A : Type} (f : A -> bool) (l : list A) (p : A) :
  find f l = Some p ->
  exists pre tail,
    l = (pre ++ p :: tail)%list
    /\ forallb (fun x => negb (f x)) pre = true /\ f p = true.
Proof.
  induction l as [|a l IH]; [discriminate|].
  cbn [find]. destruct (f a) eqn:E.
  - intro H. injection H as <-. exists [], l. auto.
  - intro H. destruct (IH H) as (pre & tail & -> & Hpre & Hp).
    exists (a :: pre), tail. cbn [forallb app]. rewrite E. auto.
Qed.

Lemma find_none_no_family (procs : list proc) :
  first_family procs = None -> no_family procs = true.
Proof.
  unfold first_family, no_family.
  induction procs as [|a l IH]; [reflexivity|].
  cbn [find forallb]. destruct (matches_family a); [discriminate|].
  exact IH.
Qed.

(** A descriptor of a family at the head ends the loop. *)
Lemma check_loop_family_head (p : proc) (rest : list proc) (i : info) :
  matches_family p = true ->
  check_ssh_session_loop (p :: rest) i = check_ssh_session_loop [p] i.
Proof.
  unfold matches_family, is_wrapper, is_plain_shell, is_multiplexer.
  cbn [check_ssh_session_loop].
  destruct (cmdline_of p) as [|c0 args]; [discriminate|].
  destruct (String.eqb (cmd_of c0) "kitten") eqn:Ek.
  - apply String.eqb_eq in Ek. rewrite Ek.
    change (String.eqb "kitten" "ssh") with false.
    change (in_words "kitten" ["mosh"; "mosh-client"]) with false.
    destruct (kitten_remote (c0 :: args)); [reflexivity|discriminate].
  - destruct (String.eqb (cmd_of c0) "ssh"); [reflexivity|].
    destruct (in_words (cmd_of c0) ["mosh"; "mosh-client"]);
      [reflexivity|discriminate].
Qed.

Lemma check_first_family (procs : list proc) (p : proc) :
  first_family procs = Some p ->
  check_ssh_session (window_of procs) = check_ssh_session (window_of [p]).
Proof.
  intro H. destruct (find_first _ _ _ H) as (pre & tail & -> & Hpre & Hp).
  unfold check_ssh_session, window_of; cbn [foreground_processes].
  rewrite (check_loop_skip_prefix pre (p :: tail) info0 Hpre).
  apply check_loop_family_head, Hp.
Qed.

Lemma kitten_host_fields (args : list string) (i : info) :
  is_ssh (kitten_host_drop args i) = is_ssh i
  /\ is_kitten_ssh (kitten_host_drop args i) = is_kitten_ssh i.
Proof.
  induction args as [|a args IH]; simpl; [auto|].
  destruct (dash a); simpl; auto.
  destruct (has_char "@" a || has_char "." a); simpl; auto.
Qed.

Lemma kitten_host_left_scan (args : list string) (i : info) :
  host i = None -> left_scan args (host (kitten_host_drop args i)).
Proof.
  intro Hi. induction args as [|a args IH].
  - simpl. rewrite Hi. constructor.
  - cbn [kitten_host_drop].
    destruct (host_like a) eqn:Ea; unfold host_like in Ea.
    + apply andb_true_iff in Ea as [Hd Hc]. rewrite Hd, Hc.
      cbn [host set_host]. exists [], args.
      repeat split; [|constructor].
      unfold host_like. rewrite Hd, Hc. reflexivity.
    + assert (E : (if negb (dash a)
                   then if has_char "@" a || has_char "." a
                        then set_host i a
                        else kitten_host_drop args i
                   else kitten_host_drop args i)
                  = kitten_host_drop args i).
      { destruct (negb (dash a)); [|reflexivity].
        cbn [andb] in Ea. rewrite Ea. reflexivity. }
      rewrite E.
      assert (Ha : host_like a = false) by exact Ea.
      destruct (host (kitten_host_drop args i)) as [h|]; cbn [left_scan] in *.
      * destruct IH as (pre & post & -> & Hh & Hpre).
        exists (a :: pre), post. repeat split; auto.
      * constructor; auto.
Qed.

Lemma wrapper_inv (p : proc) :
  is_wrapper p = true ->
  exists c0 args,
    cmdline_of p = c0 :: args /\ cmd_of c0 = "kitten"
    /\ kitten_remote (c0 :: args) = true.
Proof.
  unfold is_wrapper. destruct (cmdline_of p) as [|c0 args]; [discriminate|].
  intro H. apply andb_true_iff in H as [Hk Hr].
  apply String.eqb_eq in Hk. eauto.
Qed.

Lemma multiplexer_inv (p : proc) :
  is_multiplexer p = true ->
  exists c0 args,
    cmdline_of p = c0 :: args
    /\ in_words (cmd_of c0) ["mosh"; "mosh-client"] = true
    /\ String.eqb (cmd_of c0) "kitten" = false
    /\ String.eqb (cmd_of c0) "ssh" = false.
Proof.
  unfold is_multiplexer. destruct (cmdline_of p) as [|c0 args]; [discriminate|].
  intro H. exists c0, args. split; [reflexivity|]. split; [exact H|].
  unfold in_words in H. cbn [existsb] in H.
  apply orb_true_iff in H as [H|H];
    [|apply orb_true_iff in H as [H|H]; [|discriminate]];
    apply String.eqb_eq in H; rewrite H; split; reflexivity.
Qed.

(** The answer of [check_ssh_session] on one wrapper descriptor. *)
Lemma check_wrapper_alone (p : proc) :
  is_wrapper p = true ->
  transfer_capable (check_ssh_session (window_of [p]))
  /\ left_scan (skipn 2 (cmdline_of p))
               (host (check_ssh_session (window_of [p]))).
Proof.
  intro H. destruct (wrapper_inv p H) as (c0 & args & Hc & Hk & Hr).
  unfold check_ssh_session, window_of; cbn [foreground_processes].
  cbn [check_ssh_session_loop]. rewrite Hc, Hk, Hr.
  change (String.eqb "kitten" "kitten") with true. cbv iota.
  split.
  - destruct (kitten_host_fields (skipn 2 (c0 :: args))
                (set_is_kitten_ssh (set_is_ssh info0 true) true)) as [H1 H2].
    split; [rewrite H1 | rewrite H2]; reflexivity.
  - apply kitten_host_left_scan. reflexivity.
Qed.

Lemma check_multiplexer_alone (p : proc) :
  is_multiplexer p = true ->
  check_ssh_session (window_of [p]) = mkInfo true false None None.
Proof.
  intro H. destruct (multiplexer_inv p H) as (c0 & args & Hc & Hm & Hk & Hs).
  unfold check_ssh_session, window_of; cbn [foreground_processes].
  cbn [check_ssh_session_loop]. rewrite Hc, Hk, Hs, Hm. reflexivity.
Qed.

(** X1. The two classifiers give the same answer on every window, up
    to the [pid] key that only [is_ssh_window] fills. *)
Theorem X1_classifiers_agree (w : window) :
  check_ssh_session w = forget_pid (is_ssh_window w)
  /\ is_ssh (check_ssh_session w) = is_ssh (is_ssh_window w)
  /\ is_kitten_ssh (check_ssh_session w) = is_kitten_ssh (is_ssh_window w)
  /\ host (check_ssh_session w) = host (is_ssh_window w).
Proof.
  split; [apply entry_points_agree|]. apply same_class_entry_points.
Qed.

Lemma classify_first_family (procs : list proc) :
  match first_family procs with
  | Some p =>
      check_ssh_session (window_of procs) = check_ssh_session (window_of [p])
      /\ same_class (is_ssh_window (window_of procs))
                    (is_ssh_window (window_of [p]))
      /\ is_ssh (is_ssh_window (window_of procs)) = true
  | None =>
      local_class (is_ssh_window (window_of procs))
      /\ local_class (check_ssh_session (window_of procs))
  end.
Proof.
  destruct (first_family procs) as [p|] eqn:E.
  - pose proof (check_first_family procs p E) as Hc.
    assert (Hs : same_class (is_ssh_window (window_of procs))
                            (is_ssh_window (window_of [p]))).
    { apply (same_class_trans _ (check_ssh_session (window_of procs))).
      - apply same_class_sym, same_class_entry_points.
      - rewrite Hc. apply same_class_entry_points. }
    split; [exact Hc|]. split; [exact Hs|].
    destruct Hs as (-> & _ & _).
    destruct (find_first _ _ _ E) as (_ & _ & _ & _ & Hp).
    destruct (same_class_entry_points (window_of [p])) as (<- & _ & _).
    unfold matches_family in Hp.
    apply orb_true_iff in Hp as [Hp|Hp];
      [apply orb_true_iff in Hp as [Hp|Hp]|].
    + apply (check_wrapper_alone p Hp).
    + apply (check_plain_shell_head p [] Hp).
    + rewrite (check_multiplexer_alone p Hp). reflexivity.
  - pose proof (check_no_family_local procs (find_none_no_family procs E)) as K.
    split; [|exact K].
    apply (local_class_same _ (check_ssh_session (window_of procs))); auto.
    apply same_class_sym, same_class_entry_points.
Qed.

(** X2. The first descriptor of a family decides alone: the answer on
    the whole list is the answer on that one descriptor, whatever is
    before it (descriptors of no family) and after it; without any,
    the answer is local. *)
Theorem X2_first_family_decides (procs : list proc) :
  match first_family procs with
  | Some p =>
      check_ssh_session (window_of procs) = check_ssh_session (window_of [p])
      /\ same_class (is_ssh_window (window_of procs))
                    (is_ssh_window (window_of [p]))
      /\ is_ssh (is_ssh_window (window_of procs)) = true
  | None =>
      local_class (is_ssh_window (window_of procs))
      /\ local_class (check_ssh_session (window_of procs))
  end.
Proof. apply classify_first_family. Qed.

(** X3. A readable process list is classified remote exactly when it
    holds a descriptor of one of the three families. *)
Theorem X3_remote_iff_family (procs : list proc) :
  is_ssh (is_ssh_window (window_of procs)) = negb (no_family procs)
  /\ is_ssh (check_ssh_session (window_of procs)) = negb (no_family procs).
Proof.
  assert (H : is_ssh (is_ssh_window (window_of procs)) = negb (no_family procs)).
  { pose proof (classify_first_family procs) as K.
    destruct (first_family procs) as [p|] eqn:E.
    - destruct K as (_ & _ & ->).
      destruct (find_first _ _ _ E) as (pre & tail & -> & Hpre & Hp).
      unfold no_family. rewrite forallb_app. cbn [forallb].
      rewrite Hp. cbn [negb andb]. rewrite andb_false_r. reflexivity.
    - destruct K as ((-> & _) & _).
      rewrite (find_none_no_family procs E). reflexivity. }
  split; [exact H|].
  destruct (same_class_entry_points (window_of procs)) as (-> & _). exact H.
Qed.

Lemma paste_first_family (procs : list proc) (p : proc) :
  first_family procs = Some p ->
  same_class (is_ssh_window (window_of procs))
             (check_ssh_session (window_of [p])).
Proof.
  intro H. rewrite <- (check_first_family procs p H).
  apply same_class_sym, same_class_entry_points.
Qed.

Lemma transfer_capable_same (a b : info) :
  same_class a b -> transfer_capable b -> transfer_capable a.
Proof. intros (H1 & H2 & _) (K1 & K2). split; congruence. Qed.

Lemma host_same (a b : info) : same_class a b -> host a = host b.
Proof. intros (_ & _ & H). exact H. Qed.

(** X4. When the first descriptor of a family is the wrapper
    ([kitten ssh ...] or [kitten run-shell ...]) the session is
    transfer-capable and the host is the first token of [argv[2:]],
    from the left, that has no leading dash and holds an [@] or a dot;
    without such a token there is no host. *)
Theorem X4_wrapper_host_left_to_right (procs : list proc) (p : proc) :
  first_family procs = Some p ->
  is_wrapper p = true ->
  transfer_capable (is_ssh_window (window_of procs))
  /\ transfer_capable (check_ssh_session (window_of procs))
  /\ left_scan (skipn 2 (cmdline_of p))
               (host (is_ssh_window (window_of procs)))
  /\ left_scan (skipn 2 (cmdline_of p))
               (host (check_ssh_session (window_of procs))).
Proof.
  intros Hf Hw.
  pose proof (paste_first_family procs p Hf) as Hs.
  rewrite (check_first_family procs p Hf), (host_same _ _ Hs).
  destruct (check_wrapper_alone p Hw) as [Ht Hh].
  split; [apply (transfer_capable_same _ _ Hs), Ht|]. auto.
Qed.

(** A dash option and a command after the destination: the scan stops
    at [user@box]; a bare host name without [@] or dot is not seen. *)
Lemma X4_wrapper_host_left_to_right_witness :
  first_family wrapper_scenario = Some (nth 0 wrapper_scenario (mkProc None None))
  /\ is_wrapper (nth 0 wrapper_scenario (mkProc None None)) = true
  /\ transfer_capable (is_ssh_window (window_of wrapper_scenario))
  /\ host (is_ssh_window (window_of wrapper_scenario)) = Some "user@box"
  /\ host (is_ssh_window
             (window_of [mkProc None (Some ["kitten"; "ssh"; "box"])])) = None.
Proof.
  split; [reflexivity|]. split; [reflexivity|].
  split; [|split; reflexivity].
  apply (X4_wrapper_host_left_to_right wrapper_scenario
           (nth 0 wrapper_scenario (mkProc None None))); reflexivity.
Defined.

(** X5. When the first descriptor of a family is a remote multiplexer
    ([mosh] or [mosh-client]) the session is plain-remote and no host
    is taken from its arguments. *)
Theorem X5_multiplexer_no_host (procs : list proc) (p : proc) :
  first_family procs = Some p ->
  is_multiplexer p = true ->
  check_ssh_session (window_of procs) = mkInfo true false None None
  /\ plain_remote (is_ssh_window (window_of procs))
  /\ host (is_ssh_window (window_of procs)) = None.
Proof.
  intros Hf Hm.
  pose proof (paste_first_family procs p Hf) as Hs.
  rewrite (check_first_family procs p Hf), (host_same _ _ Hs).
  rewrite (check_multiplexer_alone p Hm) in *.
  split; [reflexivity|]. split; [|reflexivity].
  apply (plain_remote_class_same _ _ Hs). split; reflexivity.
Qed.

Lemma X5_multiplexer_no_host_witness :
  first_family mosh_procs = Some (nth 1 mosh_procs (mkProc None None))
  /\ is_multiplexer (nth 1 mosh_procs (mkProc None None)) = true
  /\ check_ssh_session (window_of mosh_procs) = mkInfo true false None None.
Proof.
  split; [reflexivity|]. split; [reflexivity|].
  apply (X5_multiplexer_no_host mosh_procs
           (nth 1 mosh_procs (mkProc None None))); reflexivity.
Defined.

Lemma In_skipn_tl (h : string) (l : list string) :
  In h (skipn 2 l) -> In h (tl l).
Proof.
  destruct l as [|a [|b l]]; cbn; auto.
Qed.

Lemma classified_host (procs : list proc) (h : string) :
  host (check_ssh_session (window_of procs)) = Some h ->
  dash h = false
  /\ exists p, In p procs /\ In h (tl (cmdline_of p)).
Proof.
  intro H.
  pose proof (classify_first_family procs) as K.
  destruct (first_family procs) as [p|] eqn:E.
  - destruct K as (Hc & _). rewrite Hc in H.
    destruct (find_first _ _ _ E) as (pre & tail & -> & _ & Hp).
    assert (Hin : In p (pre ++ p :: tail)) by (apply in_elt).
    unfold matches_family in Hp.
    apply orb_true_iff in Hp as [Hp|Hp];
      [apply orb_true_iff in Hp as [Hp|Hp]|].
    + destruct (check_wrapper_alone p Hp) as [_ Hh].
      rewrite H in Hh. destruct Hh as (a & b & Hs & Hl & _).
      unfold host_like in Hl. apply andb_true_iff in Hl as [Hd _].
      apply negb_true_iff in Hd. split; [exact Hd|].
      exists p. split; [exact Hin|].
      apply In_skipn_tl. rewrite Hs. apply in_elt.
    + destruct (check_plain_shell_head p [] Hp) as (_ & _ & Hh).
      rewrite H in Hh. destruct Hh as (a & b & Hs & Hd & _).
      split; [exact Hd|]. exists p. split; [exact Hin|].
      rewrite Hs. apply in_elt.
    + rewrite (check_multiplexer_alone p Hp) in H. discriminate H.
  - destruct K as (_ & _ & _ & Hn). rewrite Hn in H. discriminate H.
Qed.

Lemma classified_wrapper_is_remote (procs : list proc) :
  is_kitten_ssh (check_ssh_session (window_of procs)) = true ->
  is_ssh (check_ssh_session (window_of procs)) = true.
Proof.
  intro H.
  pose proof (classify_first_family procs) as K.
  destruct (first_family procs) as [p|] eqn:E.
  - destruct K as (_ & Hs & Hr).
    destruct (same_class_entry_points (window_of procs)) as (-> & _).
    exact Hr.
  - destruct K as (_ & _ & Hn & _). rewrite Hn in H. discriminate H.
Qed.

(** X6. What the classifiers never answer: transfer-capable without
    remote, or a host that begins with a dash or is not an argument
    (after [argv[0]]) of a process of the list. *)
Theorem X6_classification_invariants (w : window) :
  (is_kitten_ssh (is_ssh_window w) = true -> is_ssh (is_ssh_window w) = true)
  /\ (is_kitten_ssh (check_ssh_session w) = true ->
      is_ssh (check_ssh_session w) = true)
  /\ (forall h,
         host (is_ssh_window w) = Some h \/ host (check_ssh_session w) = Some h ->
         is_ssh (is_ssh_window w) = true
         /\ dash h = false
         /\ exists procs p,
              foreground_processes w = Ok procs
              /\ In p procs /\ In h (tl (cmdline_of p))).
Proof.
  destruct (same_class_entry_points w) as (E1 & E2 & E3).
  destruct w as [[procs|]].
  - fold (window_of procs) in *.
    split; [|split].
    + rewrite <- E1, <- E2. apply classified_wrapper_is_remote.
    + apply classified_wrapper_is_remote.
    + intros h Hh.
      assert (H : host (check_ssh_session (window_of procs)) = Some h).
      { destruct Hh as [Hh|Hh]; [rewrite E3|]; exact Hh. }
      destruct (classified_host procs h H) as (Hd & p & Hin & Hp).
      split; [|split; [exact Hd|exists procs, p; auto]].
      pose proof (classify_first_family procs) as K.
      destruct (first_family procs) as [q|].
      * apply K.
      * destruct K as (_ & _ & _ & Hn). rewrite Hn in H. discriminate H.
  - split; [discriminate|]. split; [discriminate|].
    intros h [H|H]; discriminate H.
Qed.

Lemma X6_classification_invariants_witness :
  host (is_ssh_window ssh_window) = Some "user@box"
  /\ is_ssh (is_ssh_window ssh_window) = true
  /\ dash "user@box" = false.
Proof.
  split; [reflexivity|].
  destruct (proj2 (proj2 (X6_classification_invariants ssh_window))
                  "user@box" (or_introl eq_refl)) as (H1 & H2 & _).
  split; [exact H1|exact H2].
Defined.

Lemma pid_kitten_host_paste (args : list string) (i : info) :
  pid (kitten_host_paste args i) = pid i.
Proof.
  induction args as [|a args IH]; simpl; [reflexivity|].
  destruct (negb (dash a) && has_char "@" a); [reflexivity|].
  destruct (negb (dash a) && has_char "." a); [reflexivity|exact IH].
Qed.

Lemma pid_ssh_host (rargs : list string) (i : info) :
  pid (ssh_host rargs i) = pid i.
Proof.
  induction rargs as [|a l IH]; simpl; [reflexivity|].
  destruct (negb (dash a)); [reflexivity|exact IH].
Qed.

Lemma paste_loop_family_pid (p : proc) (rest : list proc) (i : info) :
  matches_family p = true ->
  pid (is_ssh_window_loop (p :: rest) i) = proc_pid p.
Proof.
  unfold matches_family, is_wrapper, is_plain_shell, is_multiplexer.
  cbn [is_ssh_window_loop].
  destruct (cmdline_of p) as [|c0 args]; [discriminate|].
  destruct (String.eqb (cmd_of c0) "kitten") eqn:Ek.
  - apply String.eqb_eq in Ek. rewrite Ek.
    change (String.eqb "kitten" "ssh") with false.
    change (in_words "kitten" ["mosh"; "mosh-client"]) with false.
    destruct (kitten_remote (c0 :: args)); [|discriminate].
    intros _. rewrite pid_kitten_host_paste. reflexivity.
  - destruct (String.eqb (cmd_of c0) "ssh").
    + intros _. rewrite pid_ssh_host. reflexivity.
    + destruct (in_words (cmd_of c0) ["mosh"; "mosh-client"]);
        [reflexivity|discriminate].
Qed.

Lemma paste_loop_skip (q : proc) (l : list proc) (i : info) :
  matches_family q = false ->
  exists i', is_ssh_window_loop (q :: l) i = is_ssh_window_loop l i'.
Proof.
  unfold matches_family, is_wrapper, is_plain_shell, is_multiplexer.
  cbn [is_ssh_window_loop].
  destruct (cmdline_of q) as [|c0 args]; [eauto|].
  destruct (String.eqb (cmd_of c0) "kitten") eqn:Ek.
  - destruct (kitten_remote (c0 :: args)); [discriminate|eauto].
  - destruct (String.eqb (cmd_of c0) "ssh"); [discriminate|].
    destruct (in_words (cmd_of c0) ["mosh"; "mosh-client"]);
      [discriminate|eauto].
Qed.

(** X7. The [pid] that [is_ssh_window] reports for a remote session is
    the pid of the descriptor that decided, not of one passed over
    before it. *)
Theorem X7_pid_of_deciding_process (procs : list proc) (p : proc) :
  first_family procs = Some p ->
  pid (is_ssh_window (window_of procs)) = proc_pid p.
Proof.
  intro H. destruct (find_first _ _ _ H) as (pre & tail & -> & Hpre & Hp).
  unfold is_ssh_window, window_of; cbn [foreground_processes].
  generalize info0. induction pre as [|q pre IH]; intro i.
  - apply paste_loop_family_pid, Hp.
  - cbn [forallb] in Hpre. apply andb_true_iff in Hpre as [Hq Hpre].
    apply negb_true_iff in Hq.
    destruct (paste_loop_skip q (pre ++ p :: tail) i Hq) as [i' E].
    change ((q :: pre) ++ p :: tail)%list with (q :: (pre ++ p :: tail))%list.
    rewrite E. apply IH.
    + unfold first_family. clear - Hpre Hp.
      induction pre as [|a pre IH]; cbn [find app].
      * rewrite Hp. reflexivity.
      * cbn [forallb] in Hpre. apply andb_true_iff in Hpre as [Ha Hpre].
        apply negb_true_iff in Ha. rewrite Ha. auto.
    + exact Hpre.
Qed.

Lemma X7_pid_of_deciding_process_witness :
  first_family mosh_procs = Some (nth 1 mosh_procs (mkProc None None))
  /\ pid (is_ssh_window (window_of mosh_procs)) = Some 5%Z.
Proof.
  split; [reflexivity|].
  apply (X7_pid_of_deciding_process mosh_procs
           (nth 1 mosh_procs (mkProc None None))). reflexivity.
Defined.

End MoreClassifier.

(** ** extract_file_paths *)

Section MoreExtract.

Variable w : world.

(** What one line adds to the result. *)
Lemma extract_line_adds (line : string) (paths : list string) :
  SmartPaste.extract_line w line paths
  = (paths
     ++ if nonempty (line_candidate line) && path_exists w (line_candidate line)
        then [abspath (getcwd w) (line_candidate line)]
        else [])%list.
Proof.
  unfold SmartPaste.extract_line. fold (line_candidate line).
  destruct (nonempty (line_candidate line)
            && path_exists w (line_candidate line)).
  - reflexivity.
  - symmetry. apply app_nil_r.
Qed.

Lemma extract_fold (lines : list string) (paths : list string) :
  fold_left (fun ps line => SmartPaste.extract_line w line ps) lines paths
  = (paths ++ flat_map (fun line => SmartPaste.extract_line w line []) lines)%list.
Proof.
  revert paths; induction lines as [|l lines IH]; intro paths;
    cbn [fold_left flat_map].
  - symmetry. apply app_nil_r.
  - rewrite IH, (extract_line_adds l paths), (extract_line_adds l []).
    cbn [app]. rewrite <- app_assoc. reflexivity.
Qed.

Lemma extract_by_lines (text : string) :
  SmartPaste.extract_file_paths w text
  = flat_map (fun line => SmartPaste.extract_line w line [])
             (split_char (ch 10) (strip text)).
Proof. unfold SmartPaste.extract_file_paths. apply extract_fold. Qed.

Lemma flat_map_short {A B : Type} (f : A -> list B) (l : list A) :
  (forall a, List.length (f a) <= 1) ->
  List.length (flat_map f l) <= List.length l.
Proof.
  intro H. induction l as [|a l IH]; cbn [flat_map List.length]; [lia|].
  rewrite length_app. specialize (H a). lia.
Qed.

(** X8. [extract_file_paths] handles the lines of the stripped text
    one by one: the result is, line after line in the order of the
    text, the absolute form of the line's candidate path when that
    candidate is non-empty and exists, and nothing for the line
    otherwise.  No line depends on another and nothing is merged. *)
Theorem X8_extract_line_by_line (text : string) :
  SmartPaste.extract_file_paths w text
  = flat_map
      (fun line =>
         if nonempty (line_candidate line)
            && path_exists w (line_candidate line)
         then [abspath (getcwd w) (line_candidate line)]
         else [])
      (split_char (ch 10) (strip text)).
Proof.
  rewrite extract_by_lines. apply flat_map_ext.
  intro line. apply (extract_line_adds line []).
Qed.

(** X9. Every path [extract_file_paths] returns is the absolute form
    of the candidate of some line, a candidate that is non-empty and
    passed [os.path.exists]; there are at most as many paths as lines,
    and none when nothing exists. *)
Theorem X9_extracted_paths_exist (text : string) :
  (forall f,
      In f (SmartPaste.extract_file_paths w text) ->
      exists line,
        In line (split_char (ch 10) (strip text))
        /\ line_candidate line <> ""
        /\ path_exists w (line_candidate line) = true
        /\ f = abspath (getcwd w) (line_candidate line))
  /\ List.length (SmartPaste.extract_file_paths w text)
     <= List.length (split_char (ch 10) (strip text))
  /\ ((forall p, path_exists w p = false) ->
      SmartPaste.extract_file_paths w text = []).
Proof.
  rewrite extract_by_lines. split; [|split].
  - intros f Hf. apply in_flat_map in Hf as (line & Hl & Hf).
    exists line. split; [exact Hl|].
    rewrite (extract_line_adds line []) in Hf. cbn [app] in Hf.
    destruct (nonempty (line_candidate line)) eqn:En; [|destruct Hf].
    destruct (path_exists w (line_candidate line)) eqn:Ee; [|destruct Hf].
    destruct Hf as [<-|[]]. repeat split.
    intro E. rewrite E in En. discriminate En.
  - apply flat_map_short. intro line.
    rewrite (extract_line_adds line []). cbn [app].
    destruct (nonempty (line_candidate line)
              && path_exists w (line_candidate line)); cbn; lia.
  - intro Hn. induction (split_char (ch 10) (strip text)) as [|l ls IH];
      [reflexivity|].
    cbn [flat_map]. rewrite IH, (extract_line_adds l []), Hn, andb_false_r.
    reflexivity.
Qed.

Lemma split_char_none (c : ascii) (s : string) :
  has_char c s = false -> split_char c s = [s].
Proof.
  induction s as [|a s IH]; [reflexivity|].
  cbn [has_char split_char]. intro H.
  apply orb_false_iff in H as [Ha Hs]. rewrite Ha, (IH Hs). reflexivity.
Qed.

(** X10. A text that is one non-empty path as it stands (no white
    space around it, no line feed, no [file://] scheme, no quote in
    front) and that exists is extracted as exactly that path, made
    absolute. *)
Theorem X10_single_path (p : string) :
  nonempty p = true ->
  strip p = p ->
  has_char (ch 10) p = false ->
  startswith p "file://" = false ->
  startswith p "'" = false ->
  startswith p (str1 (ch 34)) = false ->
  path_exists w p = true ->
  SmartPaste.extract_file_paths w p = [abspath (getcwd w) p].
Proof.
  intros Hn Hs Hl Hf Hq Hd He.
  rewrite extract_by_lines, Hs, (split_char_none _ _ Hl).
  cbn [flat_map]. rewrite app_nil_r, (extract_line_adds p []). cbn [app].
  assert (Hc : line_candidate p = p).
  { unfold line_candidate. rewrite Hs, Hf, Hq, Hd. reflexivity. }
  rewrite Hc, He, Hn. reflexivity.
Qed.

Lemma endswith_char_snoc (s : string) (c : ascii) :
  endswith_char (s ++ str1 c) c = true.
Proof.
  unfold str1.
  induction s as [|a s IH]; cbn [String.append endswith_char].
  - apply Ascii.eqb_refl.
  - destruct (s ++ String c "") eqn:E.
    + destruct s; discriminate E.
    + exact IH.
Qed.

Lemma endswith_char_cons_snoc (a c : ascii) (s : string) :
  endswith_char (String a (s ++ str1 c)) c = true.
Proof. apply (endswith_char_snoc (String a s) c). Qed.

Lemma drop_last_snoc (s : string) (c : ascii) : drop_last (s ++ str1 c) = s.
Proof.
  unfold str1.
  induction s as [|a s IH]; [reflexivity|].
  cbn [String.append drop_last].
  destruct (s ++ String c "") eqn:E.
  - destruct s; discriminate E.
  - rewrite IH. reflexivity.
Qed.

Lemma startswith_head (q : ascii) (r : string) :
  startswith (String q r) (str1 q) = true.
Proof.
  unfold startswith, str1. cbn [String.prefix].
  destruct (ascii_dec q q) as [_|N]; [destruct r; reflexivity|].
  exfalso. apply N. reflexivity.
Qed.

(** X11. A line wrapped in one pair of matching quotes, single or
    double, loses exactly that pair: the candidate is what stands
    between them, quotes inside it included.  A line that is a lone
    quote has the empty candidate and is dropped. *)
Theorem X11_one_layer_of_quotes (line p : string) (q : ascii) :
  (q = "'" \/ q = ch 34)%char ->
  (strip line = String q (p ++ str1 q) -> line_candidate line = p)
  /\ (strip line = str1 q ->
      line_candidate line = "" /\ forall acc,
        SmartPaste.extract_line w line acc = acc).
Proof.
  intro Hq.
  split.
  - intro Hs. unfold line_candidate. rewrite Hs.
    assert (H1 : startswith (String q (p ++ str1 q)) (str1 q) = true)
      by apply startswith_head.
    assert (H2 : endswith_char (String q (p ++ str1 q)) q = true)
      by apply endswith_char_cons_snoc.
    destruct Hq as [-> | ->].
    + change (startswith (String "'" (p ++ str1 "'")) "file://") with false.
      change (startswith (String "'" (p ++ str1 "'")) (str1 (ch 34)))
        with false.
      cbv iota. cbn [andb orb].
      change (startswith (String "'" (p ++ str1 "'")) "'")
        with (startswith (String "'" (p ++ str1 "'")) (str1 "'")).
      rewrite H1, H2. cbn [andb drop]. apply drop_last_snoc.
    + change (startswith (String (ch 34) (p ++ str1 (ch 34))) "file://")
        with false.
      cbv iota. rewrite H1, H2. cbn [andb orb drop]. apply drop_last_snoc.
  - intro Hs.
    assert (Hc : line_candidate line = "").
    { unfold line_candidate. rewrite Hs.
      destruct Hq as [-> | ->]; reflexivity. }
    split; [exact Hc|]. intro acc.
    rewrite extract_line_adds, Hc. apply app_nil_r.
Qed.

End MoreExtract.

(** A relative path with dots, seen from the working directory. *)
Lemma X10_single_path_witness :
  nonempty "../me/./my file.txt" = true
  /\ strip "../me/./my file.txt" = "../me/./my file.txt"
  /\ path_exists spaced_world "../me/./my file.txt" = true
  /\ SmartPaste.extract_file_paths spaced_world "../me/./my file.txt"
     = ["/home/me/my file.txt"].
Proof.
  split; [reflexivity|]. split; [vm_compute; reflexivity|].
  split; [vm_compute; reflexivity|].
  apply (X10_single_path spaced_world "../me/./my file.txt");
    vm_compute; reflexivity.
Defined.

(** A name with a quote in it, in single quotes and with blanks
    around. *)
Lemma X11_one_layer_of_quotes_witness :
  strip "  '/tmp/it's' " = String "'" ("/tmp/it's" ++ str1 "'")
  /\ line_candidate "  '/tmp/it's' " = "/tmp/it's".
Proof.
  assert (H : strip "  '/tmp/it's' " = String "'" ("/tmp/it's" ++ str1 "'")).
  { vm_compute. reflexivity. }
  split; [exact H|].
  apply (proj1 (X11_one_layer_of_quotes quote_world "  '/tmp/it's' "
                  "/tmp/it's" "'" (or_introl eq_refl)) H).
Defined.

(** Two lines of [quote_world], one of them twice. *)
Lemma X9_extracted_paths_exist_witness :
  In "/tmp/a.txt"
     (SmartPaste.extract_file_paths quote_world
        ("/tmp/a.txt" ++ nl ++ "/nowhere" ++ nl ++ "/tmp/a.txt"))
  /\ exists line,
       In line (split_char (ch 10)
                  (strip ("/tmp/a.txt" ++ nl ++ "/nowhere" ++ nl ++ "/tmp/a.txt")))
       /\ path_exists quote_world (line_candidate line) = true.
Proof.
  assert (H : In "/tmp/a.txt"
                (SmartPaste.extract_file_paths quote_world
                   ("/tmp/a.txt" ++ nl ++ "/nowhere" ++ nl ++ "/tmp/a.txt"))).
  { vm_compute. left. reflexivity. }
  split; [exact H|].
  destruct (proj1 (X9_extracted_paths_exist quote_world _) _ H)
    as (line & Hl & _ & He & _).
  exists line. split; [exact Hl|exact He].
Defined.

(** ** The drop watcher *)

Section MoreDrop.

Variable w : world.

Lemma parse_fold (lines urls : list string) :
  fold_left
    (fun us line =>
       if nonempty (strip line) && negb (startswith (strip line) "#")
       then (us ++ [strip line])%list
       else us) lines urls
  = (urls
     ++ filter (fun u => nonempty u && negb (startswith u "#"))
               (map strip lines))%list.
Proof.
  revert urls; induction lines as [|l lines IH]; intro urls;
    cbn [fold_left map filter].
  - symmetry. apply app_nil_r.
  - rewrite IH.
    destruct (nonempty (strip l) && negb (startswith (strip l) "#")).
    + rewrite <- app_assoc. reflexivity.
    + reflexivity.
Qed.

(** X12. [parse_uri_list] keeps, in order, the stripped lines of the
    stripped text that are not empty and do not begin with [#]; so no
    URI it returns is empty or a comment. *)
Theorem X12_uri_list_lines (text : string) :
  DropUpload.parse_uri_list text
  = filter (fun u => nonempty u && negb (startswith u "#"))
           (map strip (split_char (ch 10) (strip text)))
  /\ Forall (fun u => u <> "" /\ startswith u "#" = false)
            (DropUpload.parse_uri_list text).
Proof.
  assert (H : DropUpload.parse_uri_list text
              = filter (fun u => nonempty u && negb (startswith u "#"))
                       (map strip (split_char (ch 10) (strip text)))).
  { unfold DropUpload.parse_uri_list. apply (parse_fold _ []). }
  split; [exact H|]. rewrite H. apply Forall_forall.
  intros u Hu. apply filter_In in Hu as [_ Hu].
  apply andb_true_iff in Hu as [Hn Hc]. apply negb_true_iff in Hc.
  split; [|exact Hc]. intro E. rewrite E in Hn. discriminate Hn.
Qed.

Lemma avoids_app (cs : list ascii) (s t : string) :
  avoids cs (s ++ t) = avoids cs s && avoids cs t.
Proof.
  unfold avoids. induction s as [|a s IH]; [reflexivity|].
  cbn [String.append all_chars]. rewrite IH. apply andb_assoc.
Qed.








Lemma local_files_loop_exist (urls acc fs : list string) :
  Forall (fun f => path_exists w f = true) acc ->
  DropUpload.local_files_loop w urls acc = Ok fs ->
  Forall (fun f => path_exists w f = true) fs.
Proof.
  revert acc; induction urls as [|url urls IH]; intros acc Ha; simpl.
  - intro H. injection H as <-. exact Ha.
  - destruct (DropUpload.url_to_local_path w url) as [[p|]|];
      [| apply IH, Ha | discriminate].
    destruct (nonempty p && path_exists w p) eqn:Ep; [|apply IH, Ha].
    apply IH. apply Forall_app; split; [exact Ha|].
    constructor; [|constructor].
    apply andb_true_iff in Ep as [_ Ep]. exact Ep.
Qed.

(** X14. Every file the watcher keeps of a drop is an absolute path
    that passed [os.path.exists]. *)
Theorem X14_drop_files_exist (d : drop_data) (fs : list string) :
  drop_files w d = Ok fs ->
  Forall (fun f => absolute f /\ path_exists w f = true) fs.
Proof.
  intro H.
  pose proof (drop_files_absolute w d fs H) as Ka.
  assert (Ke : Forall (fun f => path_exists w f = true) fs).
  { unfold drop_files in H.
    apply (local_files_loop_exist _ [] fs (Forall_nil _) H). }
  rewrite Forall_forall in *. intros f Hf. split; auto.
  apply (Ka f Hf).
Qed.

Lemma local_files_loop_raise (urls acc : list string) :
  DropUpload.local_files_loop w urls acc = Raise <->
  exists u, In u urls /\ DropUpload.url_to_local_path w u = Raise.
Proof.
  revert acc; induction urls as [|url urls IH]; intro acc; simpl.
  - split; [discriminate|]. intros (u & [] & _).
  - destruct (DropUpload.url_to_local_path w url) as [[p|]|] eqn:E.
    + assert (K : forall acc', DropUpload.local_files_loop w urls acc' = Raise
                  <-> exists u, (url = u \/ In u urls)
                                /\ DropUpload.url_to_local_path w u = Raise).
      { intro acc'. rewrite IH. split.
        - intros (u & Hu & Hr). exists u. auto.
        - intros (u & [<-|Hu] & Hr); [congruence|eauto]. }
      destruct (nonempty p && path_exists w p); apply K.
    + rewrite IH. split.
      * intros (u & Hu & Hr). exists u. auto.
      * intros (u & [<-|Hu] & Hr); [congruence|eauto].
    + split; [|reflexivity]. intros _. exists url. auto.
Qed.

(** X15. A drop makes [smart_on_drop] raise exactly when the
    conversion of one of its URIs raises ([urlparse] refusing the
    authority); then nothing is pasted and the original handler is not
    called, whatever the other URIs are.  In every other case the
    handler returns. *)
Theorem X15_drop_raises_on_bad_uri (self : window) (d : drop_data) :
  ((exists u,
       In u (DropUpload.parse_uri_list
               (utf8_replace (drop_get d "text/uri-list")))
       /\ DropUpload.url_to_local_path w u = Raise)
   -> DropUpload.smart_on_drop w self d = ([], Raised))
  /\ (snd (DropUpload.smart_on_drop w self d) = Raised ->
      exists u,
        In u (DropUpload.parse_uri_list
                (utf8_replace (drop_get d "text/uri-list")))
        /\ DropUpload.url_to_local_path w u = Raise).
Proof.
  rewrite smart_on_drop_cases. split.
  - intro H. apply (local_files_loop_raise _ []) in H.
    unfold drop_files. rewrite H. reflexivity.
  - intro H. apply (local_files_loop_raise _ []).
    fold (drop_files w d).
    destruct (drop_files w d) as [[|f fs]|]; [discriminate H| |reflexivity].
    destruct (negb (is_ssh (check_ssh_session self))); [discriminate H|].
    exfalso. cbn [snd] in H.
    unfold DropUpload.handle_ssh_upload in H.
    destruct (is_kitten_ssh (check_ssh_session self)); discriminate H.
Qed.

(** X16. A drop is either left to the original handler, once and with
    nothing pasted, or taken over, with text pasted in a remote
    session and the original handler not called, or lost to an
    exception; the process list is read at most once. *)
Theorem X16_drop_is_handled_once (self : window) (d : drop_data) :
  let evs := fst (DropUpload.smart_on_drop w self d) in
  ((originals evs = [d] /\ pastes evs = []
    /\ snd (DropUpload.smart_on_drop w self d) = Returned)
   \/ (originals evs = [] /\ pastes evs <> []
       /\ is_ssh (check_ssh_session self) = true
       /\ snd (DropUpload.smart_on_drop w self d) = Returned)
   \/ DropUpload.smart_on_drop w self d = ([], Raised))
  /\ reads evs <= 1.
Proof.
  cbv zeta. rewrite smart_on_drop_cases.
  destruct (drop_files w d) as [[|f fs]|].
  - split; [left; repeat split|cbn; lia].
  - destruct (is_ssh (check_ssh_session self)) eqn:Es; cbn [negb].
    + unfold DropUpload.handle_ssh_upload.
      destruct (is_kitten_ssh (check_ssh_session self)); cbn [fst snd].
      * split; [right; left; repeat split; discriminate|cbn; lia].
      * split; [right; left; repeat split; discriminate|cbn; lia].
    + split; [left; repeat split|cbn; lia].
  - split; [right; right; reflexivity|cbn; lia].
Qed.

End MoreDrop.

(** A bracket left open in the second URI of a drop whose first URI
    names an existing file. *)
Lemma X15_drop_raises_on_bad_uri_witness :
  (exists u,
      In u (DropUpload.parse_uri_list
              (utf8_replace
                 (drop_get (uri_drop ("file:///tmp/a.txt" ++ nl ++ "file://[x/a"))
                           "text/uri-list")))
      /\ DropUpload.url_to_local_path quote_world u = Raise)
  /\ DropUpload.smart_on_drop quote_world kitten_window
       (uri_drop ("file:///tmp/a.txt" ++ nl ++ "file://[x/a"))
     = ([], Raised).
Proof.
  assert (H : exists u,
      In u (DropUpload.parse_uri_list
              (utf8_replace
                 (drop_get (uri_drop ("file:///tmp/a.txt" ++ nl ++ "file://[x/a"))
                           "text/uri-list")))
      /\ DropUpload.url_to_local_path quote_world u = Raise).
  { exists "file://[x/a". split; [vm_compute; auto|vm_compute; reflexivity]. }
  split; [exact H|].
  apply (proj1 (X15_drop_raises_on_bad_uri quote_world kitten_window _) H).
Defined.


Lemma X14_drop_files_exist_witness :
  drop_files quote_world
    (uri_drop ("file:///tmp/a.txt" ++ nl ++ "/tmp/it's" ++ nl ++ "/gone"))
  = Ok ["/tmp/a.txt"; "/tmp/it's"]
  /\ Forall (fun f => absolute f /\ path_exists quote_world f = true)
            ["/tmp/a.txt"; "/tmp/it's"].
Proof.
  assert (H : drop_files quote_world
                (uri_drop ("file:///tmp/a.txt" ++ nl ++ "/tmp/it's" ++ nl ++ "/gone"))
              = Ok ["/tmp/a.txt"; "/tmp/it's"]).
  { vm_compute. reflexivity. }
  split; [exact H|].
  apply (X14_drop_files_exist quote_world _ _ H).
Defined.

(** ** The paste handler and get_clipboard *)

Section MorePaste.

Variable w : world.

(** X17. A run of [handle_result] does nothing at all when the target
    window is unknown or there is no clipboard text, and only then;
    otherwise it pastes one or two texts.  It reads the process list
    at most once, and exactly when files were extracted. *)
Theorem X17_paste_handler_trace (tid : Z) (b : boss) :
  (SmartPaste.handle_result w tid b = [] <->
   window_id_map b tid = None \/ clipboard_text w b = "")
  /\ (SmartPaste.handle_result w tid b <> [] ->
      1 <= List.length (pastes (SmartPaste.handle_result w tid b)) <= 2)
  /\ reads (SmartPaste.handle_result w tid b) <= 1
  /\ (reads (SmartPaste.handle_result w tid b) = 1 <->
      window_id_map b tid <> None
      /\ SmartPaste.extract_file_paths w (clipboard_text w b) <> []).
Proof.
  destruct (window_id_map b tid) as [win|] eqn:Hw.
  - rewrite (handle_result_cases w tid b win Hw).
    destruct (clipboard_text w b) as [|a s] eqn:Ec.
    + rewrite extract_nothing_of_empty. cbn.
      split; [split; auto|]. split; [intro H; contradiction|].
      split; [lia|]. split; [discriminate|]. intros [_ H]. contradiction.
    + cbn [nonempty negb].
      destruct (SmartPaste.extract_file_paths w (String a s)) as [|f fs].
      * cbn. split; [split; [discriminate|intros [H|H]; discriminate]|].
        split; [lia|]. split; [lia|]. split; [discriminate|].
        intros [_ H]. contradiction.
      * destruct (negb (is_ssh (is_ssh_window win)));
          [|destruct (is_kitten_ssh (is_ssh_window win))]; cbn;
          (split; [split; [discriminate|intros [H|H]; discriminate]|]);
          (split; [lia|]); (split; [lia|]);
          (split; [intros _; split; discriminate|reflexivity]).
  - unfold SmartPaste.handle_result. rewrite Hw. cbn.
    split; [split; auto|]. split; [intro H; contradiction|].
    split; [lia|]. split; [discriminate|]. intros [H _]. contradiction.
Qed.

End MorePaste.

Section MoreClipboard.

Variable run : list string -> result Clipboard.completed.

Lemma get_clipboard_loop_spec (cs : list (list string)) :
  (Clipboard.get_clipboard_loop run cs = ""
   /\ forallb (fun c => negb (Clipboard.answers run c)) cs = true)
  \/ exists pre cmd post r,
       cs = (pre ++ cmd :: post)%list
       /\ forallb (fun c => negb (Clipboard.answers run c)) pre = true
       /\ run cmd = Ok r
       /\ Clipboard.returncode r = 0%Z
       /\ Clipboard.stdout r <> ""
       /\ Clipboard.get_clipboard_loop run cs = Clipboard.stdout r.
Proof.
  induction cs as [|c cs IH]; [left; split; reflexivity|].
  cbn [Clipboard.get_clipboard_loop forallb]. unfold Clipboard.answers at 1.
  destruct (run c) as [r|] eqn:Er.
  - destruct ((Clipboard.returncode r =? 0)%Z && nonempty (Clipboard.stdout r))
      eqn:Ea.
    + right. exists [], c, cs, r.
      apply andb_true_iff in Ea as [Hz Hn]. apply Z.eqb_eq in Hz.
      repeat split; auto.
      intro E. rewrite E in Hn. discriminate Hn.
    + cbn [negb andb].
      destruct IH as [[H1 H2]|(pre & cmd & post & r' & -> & Hp & Hr & Hz & Hn & Hg)].
      * left. auto.
      * right. exists (c :: pre), cmd, post, r'.
        cbn [forallb app]. unfold Clipboard.answers at 1. rewrite Er, Ea.
        repeat split; auto.
  - cbn [negb andb].
    destruct IH as [[H1 H2]|(pre & cmd & post & r' & -> & Hp & Hr & Hz & Hn & Hg)].
    + left. auto.
    + right. exists (c :: pre), cmd, post, r'.
      cbn [forallb app]. unfold Clipboard.answers at 1. rewrite Er.
      repeat split; auto.
Qed.

(** X18. [get_clipboard] returns the output of the first of the four
    tools, in the order pbpaste, xclip, xsel, wl-paste, that exits
    with 0 and prints something; tools that raise, fail or print
    nothing are passed over, and with none left the result is the
    empty string. *)
Theorem X18_first_clipboard_tool :
  (Clipboard.get_clipboard run = ""
   /\ forallb (fun c => negb (Clipboard.answers run c)) Clipboard.cmds = true)
  \/ exists pre cmd post r,
       Clipboard.cmds = (pre ++ cmd :: post)%list
       /\ forallb (fun c => negb (Clipboard.answers run c)) pre = true
       /\ run cmd = Ok r
       /\ Clipboard.returncode r = 0%Z
       /\ Clipboard.stdout r <> ""
       /\ Clipboard.get_clipboard run = Clipboard.stdout r.
Proof. apply get_clipboard_loop_spec. Qed.

End MoreClipboard.

(** ** The words of the pasted commands *)

Section Words.

Import ShWords.

Lemma scan_in_word (m : mode) (s : string) :
  m <> Between -> scan m s <> Some [].
Proof.
  revert m; induction s as [|a s IH]; intros m Hm.
  - destruct m; [contradiction| | |]; discriminate.
  - assert (Hp : forall x, push a x <> Some []).
    { intros [[|y ys]|]; discriminate. }
    destruct m; [contradiction| | |]; cbn [scan].
    + destruct (Ascii.eqb a " ").
      * cbn [close_word]. destruct (scan Between s); discriminate.
      * destruct (Ascii.eqb a "'"); [apply IH; discriminate|].
        destruct (Ascii.eqb a (ch 34)); [apply IH; discriminate|].
        destruct (shell_safe a); [apply Hp|discriminate].
    + destruct (Ascii.eqb a "'"); [apply IH; discriminate|apply Hp].
    + destruct (Ascii.eqb a (ch 34)); [apply IH; discriminate|].
      destruct (in_words (str1 a) ["$"; "`"; "\"]); [discriminate|apply Hp].
Qed.

Lemma prepend_nil (x : option (list string)) :
  x <> Some [] -> prepend "" x = x.
Proof. destruct x as [[|y ys]|]; [contradiction| |]; reflexivity. Qed.

Lemma push_prepend (a : ascii) (s : string) (x : option (list string)) :
  push a (prepend s x) = prepend (String a s) x.
Proof. destruct x as [[|y ys]|]; reflexivity. Qed.

Lemma shell_safe_not_space (a : ascii) :
  shell_safe a = true -> Ascii.eqb a " " = false.
Proof.
  intro H. destruct (Ascii.eqb a " ") eqn:E; [|reflexivity].
  apply Ascii.eqb_eq in E. subst a. discriminate H.
Qed.

(** Bare safe characters go to the word as they are. *)
Lemma scan_safe (m : mode) (s t : string) :
  m = Between \/ m = Word ->
  nonempty s = true ->
  all_chars shell_safe s = true ->
  scan m (s ++ t) = prepend s (scan Word t).
Proof.
  intros Hm Hn Hs. revert m Hm.
  induction s as [|a s IH]; [discriminate Hn|]. intros m Hm.
  cbn [all_chars] in Hs. apply andb_true_iff in Hs as [Ha Hs].
  assert (E : scan m (String a s ++ t) = push a (scan Word (s ++ t))).
  { cbn [String.append scan].
    destruct (shell_safe_not_quote a Ha) as [E1 E2].
    rewrite (shell_safe_not_space a Ha), E1, E2, Ha.
    destruct Hm as [-> | ->]; reflexivity. }
  rewrite E. destruct s as [|b s].
  - cbn [String.append]. rewrite <- push_prepend.
    rewrite prepend_nil by (apply scan_in_word; discriminate). reflexivity.
  - rewrite (IH eq_refl Hs Word (or_intror eq_refl)). apply push_prepend.
Qed.

(** Inside single quotes, up to the closing quote. *)
Lemma scan_single (s t : string) :
  scan Single (escape_quotes s ++ String "'" t) = prepend s (scan Word t).
Proof.
  unfold escape_quotes. induction s as [|a s IH].
  - cbn. symmetry. apply prepend_nil, scan_in_word. discriminate.
  - cbn [replace_char]. destruct (Ascii.eqb a "'") eqn:E.
    + apply Ascii.eqb_eq in E. subst a.
      change (quote_escape ++ replace_char "'" quote_escape s)
        with (String "'" (String (ch 34) (String "'" (String (ch 34)
                (String "'" (replace_char "'" quote_escape s)))))).
      cbn -[quote_escape in_words].
      change (in_words (str1 "'") ["$"; "`"; "\"]) with false.
      cbv iota. rewrite IH. apply push_prepend.
    + cbn -[quote_escape]. rewrite E, IH. apply push_prepend.
Qed.

Lemma scan_single_quoted (m : mode) (s t : string) :
  m = Between \/ m = Word ->
  scan m (single_quoted s ++ t) = prepend s (scan Word t).
Proof.
  intro Hm. unfold single_quoted.
  assert (E : ("'" ++ escape_quotes s ++ "'") ++ t
              = String "'" (escape_quotes s ++ String "'" t)).
  { cbn [String.append]. rewrite append_assoc. reflexivity. }
  rewrite E. destruct Hm as [-> | ->]; cbn [scan];
    change (Ascii.eqb "'" " ") with false;
    change (Ascii.eqb "'" "'") with true; cbv iota; apply scan_single.
Qed.

Lemma scan_shlex_quote (m : mode) (s t : string) :
  m = Between \/ m = Word ->
  scan m (shlex_quote s ++ t) = prepend s (scan Word t).
Proof.
  intro Hm. unfold shlex_quote. destruct s as [|a s].
  - cbn [nonempty negb].
    rewrite prepend_nil by (apply scan_in_word; discriminate).
    destruct Hm as [-> | ->]; reflexivity.
  - cbn [nonempty negb].
    destruct (all_chars shell_safe (String a s)) eqn:E.
    + apply scan_safe; auto.
    + apply (scan_single_quoted m (String a s) t Hm).
Qed.

Lemma scan_space (t : string) :
  scan Word (String " " t) = option_map (cons "") (scan Between t).
Proof. reflexivity. Qed.

(** A list of quoted words joined by spaces reads as the words. *)
Lemma words_of_join (quote : string -> string) (l : list string) :
  (forall m s t, m = Between \/ m = Word ->
                 scan m (quote s ++ t) = prepend s (scan Word t)) ->
  words (join " " (map quote l)) = Some l.
Proof.
  intro Hq. unfold words. induction l as [|f l IH]; [reflexivity|].
  destruct l as [|g l].
  - cbn [map join]. rewrite <- (append_nil_r (quote f)).
    rewrite (Hq Between f "" (or_introl eq_refl)). cbn.
    rewrite append_nil_r. reflexivity.
  - change (join " " (map quote (f :: g :: l)))
      with (quote f ++ String " " (join " " (map quote (g :: l)))).
    rewrite (Hq Between f _ (or_introl eq_refl)), scan_space, IH.
    cbn. rewrite append_nil_r. reflexivity.
Qed.

Lemma words_of_step (quote : string -> string) (a b : string) :
  (forall m s t, m = Between \/ m = Word ->
                 scan m (quote s ++ t) = prepend s (scan Word t)) ->
  words ("kitten transfer --direction=upload " ++ quote a ++ " " ++ quote b)
  = Some ["kitten"; "transfer"; "--direction=upload"; a; b].
Proof.
  intro Hq.
  pose proof (words_of_join quote [a; b] Hq) as H. unfold words in *.
  change (join " " (map quote [a; b])) with (quote a ++ " " ++ quote b) in H.
  change ("kitten transfer --direction=upload " ++ quote a ++ " " ++ quote b)
    with ("kitten" ++ String " " ("transfer" ++ String " "
            ("--direction=upload" ++ String " " (quote a ++ " " ++ quote b)))).
  rewrite (scan_safe Between "kitten") by (auto; reflexivity).
  rewrite scan_space.
  rewrite (scan_safe Between "transfer") by (auto; reflexivity).
  rewrite scan_space.
  rewrite (scan_safe Between "--direction=upload") by (auto; reflexivity).
  rewrite scan_space, H. reflexivity.
Qed.

End Words.

Section MorePlan.

Variable w : world.

(** X19. In a plain remote shell the watcher pastes two texts, and the
    shell splits the first into exactly the dropped files, one word a
    file, whatever blanks and quotes their names hold. *)
Theorem X19_plain_remote_words (f : string) (fs : list string)
        (ssh_info : info) :
  is_kitten_ssh ssh_info = false ->
  exists text hint,
    DropUpload.handle_ssh_upload w (f :: fs) ssh_info
    = ([PasteText text; PasteText hint], Returned)
    /\ ShWords.words text = Some (f :: fs).
Proof.
  intro H. rewrite (handle_ssh_upload_plain w f fs ssh_info H).
  eexists. eexists. split; [reflexivity|].
  apply (words_of_join shlex_quote), scan_shlex_quote.
Qed.

(** X20. Both files plan the same transfers: the same destinations,
    and for every file a command that the shell reads as the five
    words [kitten], [transfer], [--direction=upload], the local path
    and the destination, although they quote differently. *)
Theorem X20_transfer_steps (files : list string) :
  fst (SmartPaste.upload_loop w files 0 [] [])
  = fst (DropUpload.upload_loop w files 0 [] [])
  /\ map ShWords.words (snd (SmartPaste.upload_loop w files 0 [] []))
     = map (fun kf => Some ["kitten"; "transfer"; "--direction=upload";
                            snd kf; remote_at w kf])
           (indexed 0 files)
  /\ map ShWords.words (snd (DropUpload.upload_loop w files 0 [] []))
     = map (fun kf => Some ["kitten"; "transfer"; "--direction=upload";
                            snd kf; remote_at w kf])
           (indexed 0 files).
Proof.
  rewrite paste_upload_loop, drop_upload_loop. cbn [fst snd app].
  split; [reflexivity|]. rewrite !map_map. split; apply map_ext; intro kf.
  - apply (words_of_step single_quoted), scan_single_quoted.
  - apply (words_of_step shlex_quote), scan_shlex_quote.
Qed.

Lemma basename_no_slash (p : string) : has_char "/" (basename p) = false.
Proof.
  induction p as [|a p IH]; [reflexivity|].
  cbn [basename]. destruct (has_char "/" p) eqn:E; [exact IH|].
  destruct (Ascii.eqb a "/") eqn:Ea; [exact E|].
  cbn [has_char]. rewrite Ea, E. reflexivity.
Qed.

Lemma lower_hex_no_slash (s : string) :
  all_chars lower_hex s = true -> has_char "/" s = false.
Proof.
  induction s as [|a s IH]; [reflexivity|].
  cbn [all_chars has_char]. intro H.
  apply andb_true_iff in H as [Ha Hs]. rewrite (IH Hs), orb_false_r.
  destruct (Ascii.eqb a "/") eqn:E; [|reflexivity].
  apply Ascii.eqb_eq in E. subst a. discriminate Ha.
Qed.

(** X21. Every destination lies directly in [/tmp/uploads]: it is
    [/tmp/uploads/] followed by a non-empty name without a slash,
    whatever the local path is; and the name ends with the base name
    of the local file. *)
Theorem X21_destination_in_upload_dir (files : list string) (r : string) :
  In r (fst (SmartPaste.upload_loop w files 0 [] []))
  \/ In r (fst (DropUpload.upload_loop w files 0 [] [])) ->
  exists name f,
    r = "/tmp/uploads/" ++ name
    /\ has_char "/" name = false
    /\ name <> ""
    /\ In f files
    /\ exists token, name = token ++ "_" ++ basename f.
Proof.
  rewrite paste_upload_loop, drop_upload_loop. cbn [fst app].
  intro H. assert (Hr : In r (map (remote_at w) (indexed 0 files)))
    by (destruct H; assumption).
  apply in_map_iff in Hr as ([k f] & <- & Hin).
  exists (token_at w (k, f) ++ "_" ++ basename f), f.
  split; [reflexivity|]. split; [|split; [|split]].
  - unfold token_at. cbn [fst snd]. rewrite !has_char_app.
    rewrite (lower_hex_no_slash _ (uid_of_lower_hex f (time_ns w k))).
    rewrite basename_no_slash. reflexivity.
  - intro E.
    pose proof (uid_of_length f (time_ns w k)) as L.
    unfold token_at in E. cbn [fst snd] in E.
    destruct (uid_of f (time_ns w k)); [discriminate L|discriminate E].
  - unfold indexed in Hin. apply in_combine_r in Hin. exact Hin.
  - eexists. reflexivity.
Qed.

End MorePlan.

Lemma X19_plain_remote_words_witness :
  is_kitten_ssh (check_ssh_session ssh_window) = false
  /\ exists text hint,
       DropUpload.handle_ssh_upload quote_world ["/tmp/it's"; "/tmp/my a.txt"]
         (check_ssh_session ssh_window)
       = ([PasteText text; PasteText hint], Returned)
       /\ ShWords.words text = Some ["/tmp/it's"; "/tmp/my a.txt"].
Proof.
  split; [reflexivity|].
  apply (X19_plain_remote_words quote_world "/tmp/it's" ["/tmp/my a.txt"]
           (check_ssh_session ssh_window)).
  reflexivity.
Defined.

(** A local path that climbs with dots still lands in the upload
    directory. *)
Lemma X21_destination_in_upload_dir_witness :
  In "/tmp/uploads/f69a0c53_passwd"
     (fst (SmartPaste.upload_loop quote_world ["/tmp/../etc/passwd"] 0 [] []))
  /\ exists name f,
       "/tmp/uploads/f69a0c53_passwd" = "/tmp/uploads/" ++ name
       /\ has_char "/" name = false
       /\ name <> ""
       /\ In f ["/tmp/../etc/passwd"]
       /\ exists token, name = token ++ "_" ++ basename f.
Proof.
  assert (H : In "/tmp/uploads/f69a0c53_passwd"
                (fst (SmartPaste.upload_loop quote_world
                        ["/tmp/../etc/passwd"] 0 [] []))).
  { vm_compute. left. reflexivity. }
  split; [exact H|].
  apply (X21_destination_in_upload_dir quote_world ["/tmp/../etc/passwd"]
           "/tmp/uploads/f69a0c53_passwd" (or_introl H)).
Defined.

(** ** Order of a drop, and the two handlers end to end *)

Section Compose.

Variable w : world.

Lemma local_files_loop_order (urls acc : list string) :
  (forall u, In u urls -> DropUpload.url_to_local_path w u <> Raise) ->
  DropUpload.local_files_loop w urls acc
  = Ok (acc
        ++ flat_map
             (fun u =>
                match DropUpload.url_to_local_path w u with
                | Ok (Some p) =>
                    if nonempty p && path_exists w p then [p] else []
                | _ => []
                end) urls)%list.
Proof.
  revert acc; induction urls as [|u urls IH]; intros acc H;
    cbn [DropUpload.local_files_loop flat_map].
  - rewrite app_nil_r. reflexivity.
  - assert (Hu : DropUpload.url_to_local_path w u <> Raise)
      by (apply H; left; reflexivity).
    assert (Hr : forall v, In v urls ->
                           DropUpload.url_to_local_path w v <> Raise)
      by (intros v Hv; apply H; right; exact Hv).
    destruct (DropUpload.url_to_local_path w u) as [[p|]|];
      [| apply IH, Hr | contradiction].
    destruct (nonempty p && path_exists w p).
    + rewrite (IH _ Hr), <- app_assoc. reflexivity.
    + apply IH, Hr.
Qed.

(** X22. When no URI of a drop makes the conversion raise, the files
    the watcher keeps are, in the order of the URIs and with
    repetitions, the converted paths that are non-empty and exist; a
    URI that converts to nothing or to a missing path is passed
    over. *)
Theorem X22_drop_files_in_order (d : drop_data) :
  (forall u,
      In u (DropUpload.parse_uri_list
              (utf8_replace (drop_get d "text/uri-list"))) ->
      DropUpload.url_to_local_path w u <> Raise) ->
  drop_files w d
  = Ok (flat_map
          (fun u =>
             match DropUpload.url_to_local_path w u with
             | Ok (Some p) =>
                 if nonempty p && path_exists w p then [p] else []
             | _ => []
             end)
          (DropUpload.parse_uri_list
             (utf8_replace (drop_get d "text/uri-list")))).
Proof.
  intro H. unfold drop_files.
  apply (local_files_loop_order _ [] H).
Qed.

Lemma unreadable_or_no_family_local (win : window) :
  (foreground_processes win = Raise
   \/ exists procs, foreground_processes win = Ok procs
                    /\ no_family procs = true) ->
  is_ssh (is_ssh_window win) = false /\ is_ssh (check_ssh_session win) = false.
Proof.
  intro H.
  assert (Hc : is_ssh (check_ssh_session win) = false).
  { destruct H as [H | (procs & H & Hn)].
    - unfold check_ssh_session. rewrite H. reflexivity.
    - destruct win as [fp]. cbn in H. subst fp.
      apply (check_no_family_local procs Hn). }
  split; [|exact Hc].
  destruct (same_class_entry_points win) as (<- & _). exact Hc.
Qed.

(** X23. When the process list of the window cannot be read or holds
    no descriptor of a family, nothing is turned into an upload: the
    paste handler pastes the clipboard text as it is, and the watcher
    pastes nothing.  The watcher leaves the drop to the original
    handler, once, unless the conversion of one of the URIs raises;
    then it raises and does nothing at all. *)
Theorem X23_fallback_without_remote (tid : Z) (b : boss) (win : window)
        (d : drop_data) :
  (foreground_processes win = Raise
   \/ exists procs, foreground_processes win = Ok procs
                    /\ no_family procs = true) ->
  window_id_map b tid = Some win ->
  clipboard_text w b <> "" ->
  pastes (SmartPaste.handle_result w tid b) = [clipboard_text w b]
  /\ pastes (fst (DropUpload.smart_on_drop w win d)) = []
  /\ (drop_files w d <> Raise ->
      originals (fst (DropUpload.smart_on_drop w win d)) = [d]
      /\ snd (DropUpload.smart_on_drop w win d) = Returned)
  /\ (drop_files w d = Raise ->
      DropUpload.smart_on_drop w win d = ([], Raised)).
Proof.
  intros H Hw Hc.
  destruct (unreadable_or_no_family_local win H) as [Hp Hd].
  split; [|split; [|split]].
  - rewrite (handle_result_cases w tid b win Hw), Hp.
    destruct (clipboard_text w b) as [|a s]; [contradiction|].
    cbn [nonempty negb].
    destruct (SmartPaste.extract_file_paths w (String a s)); reflexivity.
  - rewrite smart_on_drop_cases, Hd.
    destruct (drop_files w d) as [[|f fs]|]; reflexivity.
  - intro Hr. rewrite smart_on_drop_cases, Hd.
    destruct (drop_files w d) as [[|f fs]|]; [| |contradiction];
      split; reflexivity.
  - intro Hr. rewrite smart_on_drop_cases, Hr. reflexivity.
Qed.

(** X24. End to end in a wrapper session: when the first descriptor of
    a family is the wrapper and the clipboard names files, the paste
    handler reads the process list and pastes one text, the transfer
    command line of these files; the watcher does the same for the
    files of a drop. *)
Theorem X24_wrapper_end_to_end (tid : Z) (b : boss) (procs : list proc)
        (p : proc) (d : drop_data) :
  first_family procs = Some p ->
  is_wrapper p = true ->
  window_id_map b tid = Some (window_of procs) ->
  (SmartPaste.extract_file_paths w (clipboard_text w b) <> [] ->
   SmartPaste.handle_result w tid b
   = [ForegroundProcessesRead;
      PasteText (SmartPaste.full_cmd w
                   (SmartPaste.extract_file_paths w (clipboard_text w b)))])
  /\ (forall f fs,
         drop_files w d = Ok (f :: fs) ->
         DropUpload.smart_on_drop w (window_of procs) d
         = ([ForegroundProcessesRead;
             PasteText (DropUpload.full_cmd w (f :: fs))], Returned)).
Proof.
  intros Hf Hp Hw.
  pose proof (paste_first_family procs p Hf) as Hs.
  destruct (check_wrapper_alone p Hp) as [Ht _].
  destruct (transfer_capable_same _ _ Hs Ht) as [P1 P2].
  rewrite <- (check_first_family procs p Hf) in Ht. destruct Ht as [D1 D2].
  split.
  - intro Hn. rewrite (handle_result_cases w tid b _ Hw).
    destruct (SmartPaste.extract_file_paths w (clipboard_text w b))
      as [|f fs] eqn:E; [contradiction|].
    rewrite (files_need_text w b f fs E), P1, P2. reflexivity.
  - intros f fs Hd. rewrite smart_on_drop_cases, Hd, D1.
    unfold DropUpload.handle_ssh_upload. rewrite D2. reflexivity.
Qed.

End Compose.

Lemma X22_drop_files_in_order_witness :
  (forall u,
      In u (DropUpload.parse_uri_list
              (utf8_replace
                 (drop_get (uri_drop ("/tmp/a.txt" ++ nl ++ "file:///tmp/a.txt"))
                           "text/uri-list"))) ->
      DropUpload.url_to_local_path quote_world u <> Raise)
  /\ drop_files quote_world (uri_drop ("/tmp/a.txt" ++ nl ++ "file:///tmp/a.txt"))
     = Ok ["/tmp/a.txt"; "/tmp/a.txt"].
Proof.
  assert (H : forall u,
      In u (DropUpload.parse_uri_list
              (utf8_replace
                 (drop_get (uri_drop ("/tmp/a.txt" ++ nl ++ "file:///tmp/a.txt"))
                           "text/uri-list"))) ->
      DropUpload.url_to_local_path quote_world u <> Raise).
  { intros u Hu. vm_compute in Hu.
    destruct Hu as [<-|[<-|[]]]; vm_compute; discriminate. }
  split; [exact H|].
  rewrite (X22_drop_files_in_order quote_world _ H). vm_compute. reflexivity.
Defined.

Lemma X23_fallback_without_remote_witness :
  (foreground_processes unreadable_window = Raise
   \/ exists procs, foreground_processes unreadable_window = Ok procs
                    /\ no_family procs = true)
  /\ window_id_map (boss_of unreadable_window) 1%Z = Some unreadable_window
  /\ clipboard_text quote_world (boss_of unreadable_window) <> ""
  /\ pastes (SmartPaste.handle_result quote_world 1 (boss_of unreadable_window))
     = [clipboard_text quote_world (boss_of unreadable_window)].
Proof.
  assert (H : foreground_processes unreadable_window = Raise
              \/ exists procs, foreground_processes unreadable_window = Ok procs
                               /\ no_family procs = true).
  { left. reflexivity. }
  assert (Hc : clipboard_text quote_world (boss_of unreadable_window) <> "").
  { vm_compute. discriminate. }
  split; [exact H|]. split; [reflexivity|]. split; [exact Hc|].
  apply (X23_fallback_without_remote quote_world 1%Z
           (boss_of unreadable_window) unreadable_window [] H eq_refl Hc).
Defined.

Lemma X24_wrapper_end_to_end_witness :
  first_family wrapper_scenario
  = Some (nth 0 wrapper_scenario (mkProc None None))
  /\ is_wrapper (nth 0 wrapper_scenario (mkProc None None)) = true
  /\ window_id_map (boss_of (window_of wrapper_scenario)) 1%Z
     = Some (window_of wrapper_scenario)
  /\ SmartPaste.extract_file_paths photo_world
       (clipboard_text photo_world (boss_of (window_of wrapper_scenario)))
     <> []
  /\ pastes (SmartPaste.handle_result photo_world 1
               (boss_of (window_of wrapper_scenario)))
     = [SmartPaste.full_cmd photo_world ["/Users/me/photo.png"]].
Proof.
  assert (Hn : SmartPaste.extract_file_paths photo_world
                 (clipboard_text photo_world (boss_of (window_of wrapper_scenario)))
               <> []).
  { vm_compute. discriminate. }
  split; [reflexivity|]. split; [reflexivity|]. split; [reflexivity|].
  split; [exact Hn|].
  rewrite (proj1 (X24_wrapper_end_to_end photo_world 1%Z
                    (boss_of (window_of wrapper_scenario)) wrapper_scenario
                    (nth 0 wrapper_scenario (mkProc None None)) []
                    eq_refl eq_refl eq_refl) Hn).
  vm_compute. reflexivity.
Defined.

(** ** Further instances *)

Lemma X2_first_family_decides_witness :
  first_family mosh_procs = Some (nth 1 mosh_procs (mkProc None None))
  /\ check_ssh_session (window_of mosh_procs)
     = check_ssh_session (window_of [nth 1 mosh_procs (mkProc None None)]).
Proof.
  split; [reflexivity|].
  exact (proj1 (X2_first_family_decides mosh_procs)).
Defined.

(** A paste into a window that is gone. *)
Lemma X17_paste_handler_trace_witness :
  window_id_map (mkBoss (fun _ => None) (Some "text")) 7%Z = None
  /\ SmartPaste.handle_result text_world 7 (mkBoss (fun _ => None) (Some "text"))
     = [].
Proof.
  split; [reflexivity|].
  apply (proj2 (proj1 (X17_paste_handler_trace text_world 7%Z
                         (mkBoss (fun _ => None) (Some "text"))))).
  left. reflexivity.
Defined.

(** pbpaste is missing, xclip fails, xsel answers; wl-paste is not
    asked. *)
Lemma X18_first_clipboard_tool_witness :
  Clipboard.get_clipboard xsel_only = "hello"
  /\ ((Clipboard.get_clipboard xsel_only = ""
       /\ forallb (fun c => negb (Clipboard.answers xsel_only c))
                  Clipboard.cmds = true)
      \/ exists pre cmd post r,
           Clipboard.cmds = (pre ++ cmd :: post)%list
           /\ forallb (fun c => negb (Clipboard.answers xsel_only c)) pre = true
           /\ xsel_only cmd = Ok r
           /\ Clipboard.returncode r = 0%Z
           /\ Clipboard.stdout r <> ""
           /\ Clipboard.get_clipboard xsel_only = Clipboard.stdout r).
Proof.
  split; [reflexivity|]. apply (X18_first_clipboard_tool xsel_only).
Defined.

(** ** The command text as the shell reads it *)

Section EchoWords.

Lemma all_chars_app (f : ascii -> bool) (s t : string) :
  all_chars f (s ++ t) = all_chars f s && all_chars f t.
Proof.
  induction s as [|a s IH]; [reflexivity|].
  cbn [String.append all_chars]. rewrite IH. apply andb_assoc.
Qed.

Lemma lower_hex_safe (a : ascii) : lower_hex a = true -> shell_safe a = true.
Proof.
  unfold lower_hex, shell_safe, between. intro H.
  apply orb_true_iff in H as [H|H].
  - rewrite H. reflexivity.
  - apply andb_true_iff in H as [H1 H2].
    apply Nat.leb_le in H1, H2.
    assert (E : (97 <=? code a)%nat && (code a <=? 122)%nat = true).
    { apply andb_true_iff. split; apply Nat.leb_le; lia. }
    rewrite E, !orb_true_r. reflexivity.
Qed.

Lemma all_lower_hex_safe (s : string) :
  all_chars lower_hex s = true -> all_chars shell_safe s = true.
Proof.
  induction s as [|a s IH]; [reflexivity|].
  cbn [all_chars]. intro H. apply andb_true_iff in H as [Ha Hs].
  rewrite (lower_hex_safe a Ha), (IH Hs). reflexivity.
Qed.

(** A destination needs no quoting when the base name needs none. *)
Lemma remote_at_safe (w : world) (kf : nat * string) :
  safe_name (snd kf) = true ->
  all_chars shell_safe (remote_at w kf) = true
  /\ nonempty (remote_at w kf) = true.
Proof.
  intro H. split; [|reflexivity].
  unfold remote_at, token_at. rewrite !all_chars_app.
  rewrite (all_lower_hex_safe _ (uid_of_lower_hex _ _)).
  unfold safe_name in H. rewrite H. reflexivity.
Qed.

Lemma safe_no_quote (s : string) :
  all_chars shell_safe s = true -> escape_quotes s = s.
Proof.
  unfold escape_quotes. induction s as [|a s IH]; [reflexivity|].
  cbn [all_chars replace_char]. intro H.
  apply andb_true_iff in H as [Ha Hs].
  destruct (shell_safe_not_quote a Ha) as [-> _]. rewrite (IH Hs).
  reflexivity.
Qed.

Lemma shlex_quote_safe (s : string) :
  nonempty s = true -> all_chars shell_safe s = true -> shlex_quote s = s.
Proof.
  intros Hn Hs. unfold shlex_quote. rewrite Hn, Hs. reflexivity.
Qed.

(** Inside the echo of smart_paste.py: each destination closes the
    quote that is open, stands bare, and opens a quote again. *)
Lemma scan_paste_echo (rs : list string) (t : string) :
  Forall (fun r => all_chars shell_safe r = true /\ nonempty r = true) rs ->
  ShWords.scan ShWords.Single
    (join " " (map (fun r => "'" ++ r ++ "'") rs) ++ String "'" t)
  = ShWords.prepend (join " " rs) (ShWords.scan ShWords.Word t).
Proof.
  induction 1 as [|r rs [Hs Hn] Hrs IH].
  - cbn. symmetry. apply prepend_nil, scan_in_word. discriminate.
  - assert (E : forall u,
               ShWords.scan ShWords.Single (("'" ++ r ++ "'") ++ u)
               = ShWords.prepend r (ShWords.scan ShWords.Single u)).
    { intro u. cbn [String.append]. rewrite append_assoc.
      cbn [ShWords.scan]. change (Ascii.eqb "'" "'") with true. cbv iota.
      rewrite (scan_safe ShWords.Word r _ (or_intror eq_refl) Hn Hs).
      reflexivity. }
    destruct rs as [|r' rs].
    + cbn [map join]. rewrite E. cbn [ShWords.scan].
      change (Ascii.eqb "'" "'") with true. reflexivity.
    + change (join " " (map (fun r => "'" ++ r ++ "'") (r :: r' :: rs)))
        with (("'" ++ r ++ "'") ++ String " "
                (join " " (map (fun r => "'" ++ r ++ "'") (r' :: rs)))).
      rewrite append_assoc, E. cbn [String.append ShWords.scan].
      change (Ascii.eqb " " "'") with false. cbv iota.
      cbn [String.append] in IH. rewrite IH.
      change (join " " (r :: r' :: rs)) with (r ++ String " " (join " " (r' :: rs))).
      destruct (ShWords.scan ShWords.Word t) as [[|x xs]|]; cbn;
        [reflexivity| |reflexivity].
      rewrite !append_assoc. reflexivity.
Qed.

Lemma join_safe (rs : list string) :
  Forall (fun r => all_chars shell_safe r = true /\ nonempty r = true) rs ->
  escape_quotes (join " " rs) = join " " rs.
Proof.
  induction 1 as [|r rs [Hs Hn] Hrs IH]; [reflexivity|].
  destruct rs as [|r' rs]; [apply safe_no_quote, Hs|].
  change (join " " (r :: r' :: rs)) with (r ++ String " " (join " " (r' :: rs))).
  unfold escape_quotes in *.
  assert (A : forall s u, replace_char "'" quote_escape (s ++ u)
                          = replace_char "'" quote_escape s
                            ++ replace_char "'" quote_escape u).
  { intros s u. induction s as [|a s IHs]; [reflexivity|].
    cbn [String.append replace_char]. rewrite IHs.
    destruct (Ascii.eqb a "'"); [rewrite append_assoc|]; reflexivity. }
  rewrite A. cbn [replace_char]. change (Ascii.eqb " " "'") with false.
  cbv iota. rewrite IH. fold (escape_quotes r).
  rewrite (safe_no_quote r Hs). reflexivity.
Qed.

Lemma map_shlex_quote_safe (rs : list string) :
  Forall (fun r => all_chars shell_safe r = true /\ nonempty r = true) rs ->
  map shlex_quote rs = rs.
Proof.
  induction 1 as [|r rs [Hs Hn] Hrs IH]; [reflexivity|].
  cbn [map]. rewrite IH, (shlex_quote_safe r Hn Hs). reflexivity.
Qed.

Lemma planned_remotes_safe (w : world) (files : list string) :
  Forall (fun f => safe_name f = true) files ->
  Forall (fun r => all_chars shell_safe r = true /\ nonempty r = true)
         (planned_remotes w files).
Proof.
  intro H. unfold planned_remotes. apply Forall_map.
  assert (K : forall n, Forall (fun kf => safe_name (snd kf) = true)
                               (indexed n files)).
  { induction H as [|f fs Hf _ IH]; intro n; [constructor|].
    rewrite indexed_cons. constructor; [exact Hf|apply IH]. }
  apply (Forall_impl _ (remote_at_safe w) (K 0)).
Qed.

(** The echo of smart_paste.py, for names that need no quoting: one
    argument that lists the destinations. *)
Lemma paste_echo_words (w : world) (files : list string) :
  Forall (fun f => safe_name f = true) files ->
  ShWords.words (paste_echo w files)
  = Some ["echo"; "Uploaded: " ++ join " " (planned_remotes w files)].
Proof.
  intro H. pose proof (planned_remotes_safe w files H) as Hr.
  unfold paste_echo, ShWords.words.
  change ("echo 'Uploaded: "
          ++ join " " (map (fun r => "'" ++ r ++ "'") (planned_remotes w files))
          ++ "'")
    with ("echo" ++ String " " (String "'" ("Uploaded: "
            ++ join " " (map (fun r => "'" ++ r ++ "'")
                             (planned_remotes w files))
            ++ String "'" ""))).
  rewrite (scan_safe ShWords.Between "echo") by (auto; reflexivity).
  rewrite scan_space. cbn -[join planned_remotes].
  pose proof (scan_paste_echo _ "" Hr) as K. cbn [String.append] in K.
  rewrite K. cbn. rewrite append_nil_r. reflexivity.
Qed.

(** The echo of the watcher, for names that need no quoting. *)
Lemma drop_echo_words (w : world) (files : list string) :
  Forall (fun f => safe_name f = true) files ->
  ShWords.words (drop_echo w files)
  = Some ["echo";
          DropUpload.echo_mark ++ " Uploaded: "
          ++ join " " (planned_remotes w files)].
Proof.
  intro H. pose proof (planned_remotes_safe w files H) as Hr.
  unfold drop_echo, ShWords.words.
  rewrite (map_shlex_quote_safe _ Hr).
  assert (E : escape_quotes (DropUpload.echo_mark ++ " Uploaded: "
                             ++ join " " (planned_remotes w files))
              = DropUpload.echo_mark ++ " Uploaded: "
                ++ join " " (planned_remotes w files)).
  { pose proof (join_safe _ Hr) as J. unfold escape_quotes in *.
    assert (A : forall s u, replace_char "'" quote_escape (s ++ u)
                            = replace_char "'" quote_escape s
                              ++ replace_char "'" quote_escape u).
    { intros s u. induction s as [|a s IHs]; [reflexivity|].
      cbn [String.append replace_char]. rewrite IHs.
      destruct (Ascii.eqb a "'"); [rewrite append_assoc|]; reflexivity. }
    rewrite !A, J. reflexivity. }
  change ("echo '" ++ DropUpload.echo_mark ++ " Uploaded: "
          ++ join " " (planned_remotes w files) ++ "'")
    with ("echo" ++ String " " (String "'"
            (DropUpload.echo_mark ++ " Uploaded: "
             ++ join " " (planned_remotes w files) ++ String "'" ""))).
  rewrite (scan_safe ShWords.Between "echo") by (auto; reflexivity).
  rewrite scan_space. cbn [ShWords.scan].
  change (Ascii.eqb "'" " ") with false.
  change (Ascii.eqb "'" "'") with true. cbv iota.
  assert (R : DropUpload.echo_mark ++ " Uploaded: "
              ++ join " " (planned_remotes w files) ++ String "'" ""
              = escape_quotes (DropUpload.echo_mark ++ " Uploaded: "
                               ++ join " " (planned_remotes w files))
                ++ String "'" "").
  { rewrite E, !append_assoc. reflexivity. }
  rewrite R, scan_single. cbn. rewrite append_nil_r. reflexivity.
Qed.

Lemma one_line_body (s body : string) :
  s = body ++ str1 (ch 10) -> body = drop_last s.
Proof. intros ->. symmetry. apply drop_last_snoc. Qed.

End EchoWords.

Section CommandText.

Variable w : world.

Lemma paste_full_cmd_echo (files : list string) :
  SmartPaste.full_cmd w files
  = "mkdir -p /tmp/uploads"
    ++ cat (map (fun kf => " && " ++ paste_cmd w kf) (indexed 0 files))
    ++ " && " ++ paste_echo w files ++ nl.
Proof.
  rewrite paste_full_cmd_text. unfold paste_echo.
  rewrite !append_assoc. reflexivity.
Qed.

Lemma drop_full_cmd_echo (files : list string) :
  DropUpload.full_cmd w files
  = "mkdir -p /tmp/uploads"
    ++ cat (map (fun kf => " && " ++ drop_cmd w kf) (indexed 0 files))
    ++ " && " ++ drop_echo w files ++ nl.
Proof.
  rewrite drop_full_cmd_text. unfold drop_echo.
  rewrite !append_assoc. reflexivity.
Qed.

(** C4, as amended.  In a transfer-capable session the text pasted is
    [mkdir -p /tmp/uploads], then for every file in input order
    [ && ] and a transfer step, then [ && ] and an echo of the
    destinations, then a line feed.  The shell reads every step as the
    five words [kitten], [transfer], [--direction=upload], the local
    path and the destination, whatever the two paths hold.  The text
    is one line when no path holds a line feed, and the shell reads
    the echo as one argument that lists every destination when the
    base names of the files need no quoting. *)
Theorem C4_command_text (files : list string) :
  SmartPaste.full_cmd w files
  = "mkdir -p /tmp/uploads"
    ++ cat (map (fun kf =>
                   " && kitten transfer --direction=upload "
                   ++ single_quoted (snd kf) ++ " "
                   ++ single_quoted (remote_at w kf))
                (indexed 0 files))
    ++ " && " ++ paste_echo w files ++ nl
  /\ DropUpload.full_cmd w files
     = "mkdir -p /tmp/uploads"
       ++ cat (map (fun kf =>
                      " && kitten transfer --direction=upload "
                      ++ shlex_quote (snd kf) ++ " "
                      ++ shlex_quote (remote_at w kf))
                   (indexed 0 files))
       ++ " && " ++ drop_echo w files ++ nl
  /\ (forall s, Sh.read (single_quoted s) = Some s)
  /\ (forall s, Sh.read (shlex_quote s) = Some s)
  /\ (forall kf,
         ShWords.words ("kitten transfer --direction=upload "
                        ++ single_quoted (snd kf) ++ " "
                        ++ single_quoted (remote_at w kf))
         = Some ["kitten"; "transfer"; "--direction=upload";
                 snd kf; remote_at w kf]
         /\ ShWords.words ("kitten transfer --direction=upload "
                           ++ shlex_quote (snd kf) ++ " "
                           ++ shlex_quote (remote_at w kf))
            = Some ["kitten"; "transfer"; "--direction=upload";
                    snd kf; remote_at w kf])
  /\ (forall tid b win,
         window_id_map b tid = Some win ->
         SmartPaste.extract_file_paths w (clipboard_text w b) = files ->
         files <> [] ->
         transfer_capable (is_ssh_window win) ->
         SmartPaste.handle_result w tid b
         = [ForegroundProcessesRead; PasteText (SmartPaste.full_cmd w files)])
  /\ (forall ssh_info,
         is_kitten_ssh ssh_info = true ->
         DropUpload.handle_ssh_upload w files ssh_info
         = ([PasteText (DropUpload.full_cmd w files)], Returned))
  /\ (Forall (fun f => lf_free f = true) files ->
      one_line (SmartPaste.full_cmd w files)
      /\ one_line (DropUpload.full_cmd w files))
  /\ (Forall (fun f => safe_name f = true) files ->
      ShWords.words (paste_echo w files)
      = Some ["echo"; "Uploaded: " ++ join " " (planned_remotes w files)]
      /\ ShWords.words (drop_echo w files)
         = Some ["echo";
                 DropUpload.echo_mark ++ " Uploaded: "
                 ++ join " " (planned_remotes w files)]).
Proof.
  split; [apply paste_full_cmd_echo|].
  split; [apply drop_full_cmd_echo|].
  split; [apply read_single_quoted|].
  split; [apply read_shlex_quote|].
  split; [|split; [|split; [|split]]].
  - intro kf. split.
    + apply (words_of_step single_quoted), scan_single_quoted.
    + apply (words_of_step shlex_quote), scan_shlex_quote.
  - intros tid b win Hw Hf Hne [Hs Hk].
    destruct files as [|f fs]; [contradiction|].
    rewrite (handle_result_cases w tid b win Hw), Hf.
    rewrite (files_need_text w b f fs Hf), Hs, Hk. reflexivity.
  - intros ssh_info Hk. unfold DropUpload.handle_ssh_upload.
    rewrite Hk. reflexivity.
  - intro H. split.
    + apply paste_full_cmd_one_line, H.
    + apply drop_full_cmd_one_line, H.
  - intro H. split.
    + apply paste_echo_words, H.
    + apply drop_echo_words, H.
Qed.

End CommandText.

(** The photo pasted into a wrapper session: the text that reaches
    the terminal, on one line, and its echo as the shell reads it. *)
Lemma C4_command_text_witness :
  window_id_map (boss_of kitten_window) 1%Z = Some kitten_window
  /\ SmartPaste.extract_file_paths photo_world
       (clipboard_text photo_world (boss_of kitten_window))
     = ["/Users/me/photo.png"]
  /\ transfer_capable (is_ssh_window kitten_window)
  /\ Forall (fun f => lf_free f = true) ["/Users/me/photo.png"]
  /\ Forall (fun f => safe_name f = true) ["/Users/me/photo.png"]
  /\ SmartPaste.handle_result photo_world 1 (boss_of kitten_window)
     = [ForegroundProcessesRead;
        PasteText (SmartPaste.full_cmd photo_world ["/Users/me/photo.png"])]
  /\ one_line (SmartPaste.full_cmd photo_world ["/Users/me/photo.png"])
  /\ ShWords.words (paste_echo photo_world ["/Users/me/photo.png"])
     = Some ["echo"; "Uploaded: /tmp/uploads/5e1d0859_photo.png"]
  /\ SmartPaste.full_cmd photo_world ["/Users/me/photo.png"]
     = "mkdir -p /tmp/uploads && kitten transfer --direction=upload '/Users/me/photo.png' '/tmp/uploads/5e1d0859_photo.png' && echo 'Uploaded: '/tmp/uploads/5e1d0859_photo.png''"
       ++ nl.
Proof.
  assert (Hf : SmartPaste.extract_file_paths photo_world
                 (clipboard_text photo_world (boss_of kitten_window))
               = ["/Users/me/photo.png"]).
  { vm_compute. reflexivity. }
  assert (Hk : transfer_capable (is_ssh_window kitten_window)).
  { split; reflexivity. }
  assert (Hl : Forall (fun f => lf_free f = true) ["/Users/me/photo.png"]).
  { constructor; [reflexivity|constructor]. }
  assert (Hs : Forall (fun f => safe_name f = true) ["/Users/me/photo.png"]).
  { constructor; [reflexivity|constructor]. }
  destruct (C4_command_text photo_world ["/Users/me/photo.png"])
    as (_ & _ & _ & _ & _ & Hh & _ & Ho & He).
  split; [reflexivity|]. split; [exact Hf|]. split; [exact Hk|].
  split; [exact Hl|]. split; [exact Hs|].
  split; [|split; [|split]].
  - apply (Hh 1%Z (boss_of kitten_window) kitten_window eq_refl Hf);
      [discriminate|exact Hk].
  - apply (Ho Hl).
  - rewrite (proj1 (He Hs)). vm_compute. reflexivity.
  - vm_compute. reflexivity.
Defined.

(** C4, as stated, fails.  The URI [file:///tmp/a%0Ab] names, at both
    entry points, a file with a line feed in its name, and the command
    text of that file is not one line.  For a name with a semicolon
    the echo leaves the semicolon outside the quotes, and is not read
    as a list of words. *)
Lemma C4_command_text_not_one_line :
  SmartPaste.extract_file_paths lf_world (get_clipboard lf_world) = [lf_name]
  /\ drop_files lf_world (uri_drop "file:///tmp/a%0Ab") = Ok [lf_name]
  /\ ~ one_line (SmartPaste.full_cmd lf_world [lf_name])
  /\ ~ one_line (DropUpload.full_cmd lf_world [lf_name])
  /\ paste_echo semicolon_world ["/tmp/x;reboot"]
     = "echo 'Uploaded: '/tmp/uploads/9003ea36_x;reboot''"
  /\ ShWords.words (paste_echo semicolon_world ["/tmp/x;reboot"]) = None
  /\ ShWords.words (drop_echo semicolon_world ["/tmp/x;reboot"]) = None.
Proof.
  split; [vm_compute; reflexivity|]. split; [vm_compute; reflexivity|].
  split; [|split; [|repeat split; vm_compute; reflexivity]].
  - intros (body & E & Hb). apply one_line_body in E. subst body.
    vm_compute in Hb. discriminate Hb.
  - intros (body & E & Hb). apply one_line_body in E. subst body.
    vm_compute in Hb. discriminate Hb.
Qed.
